(** * WhatsApp Checkout API: a shallow embedding of the order builder and
      of the webhook verifier and classifier

    The development follows the Python sources:

    - [elements.py]      : [Header], [Amount], [Address], [Item];
    - [checkout_base.py] : [CheckoutBase] with the phone directory, the
      order-details sender, the payment-status query, the webhook
      verifier and the webhook classifier.

    Python values are modelled as the code has them: [int] is [Z], [str]
    is a list of Unicode code points, [Optional] is [option], a [dict] is
    an association list in insertion order, exceptions are a result type,
    and the network and the console are a trace of effects. *)

From Stdlib Require Import ZArith List String Ascii Bool Lia.
From Stdlib Require Import DecimalString DecimalPos.
Import ListNotations.

Set Warnings "-register-all".

Open Scope Z_scope.
Open Scope list_scope.

(** ** Python strings *)

(** A Python [str] is a sequence of code points. *)
Definition pystr := list Z.

Definition ord (c : ascii) : Z := Z.of_N (N_of_ascii c).

(** [u "lit"] is the Python literal ["lit"]. *)
Fixpoint u (s : string) : pystr :=
  match s with
  | EmptyString => []
  | String c r => ord c :: u r
  end.

Fixpoint str_eqb (a b : pystr) : bool :=
  match a, b with
  | [], [] => true
  | x :: a', y :: b' => (x =? y) && str_eqb a' b'
  | _, _ => false
  end.

(** [s.startswith(p)] *)
Fixpoint startswith (p s : pystr) : bool :=
  match p, s with
  | [], _ => true
  | x :: p', y :: s' => (x =? y) && startswith p' s'
  | _ :: _, [] => false
  end.

(** [s.removeprefix(p)] *)
Definition removeprefix (p s : pystr) : pystr :=
  if startswith p s then skipn (List.length p) s else s.

(** [needle in hay] for two strings: substring test. *)
Fixpoint str_contains (hay needle : pystr) : bool :=
  startswith needle hay ||
  match hay with
  | [] => false
  | _ :: hay' => str_contains hay' needle
  end.

(** [s.isascii()] *)
Definition isascii (s : pystr) : bool := forallb (fun c => (0 <=? c) && (c <? 128)) s.

(** [str(n)] for an [int]. *)
Definition str_of_int (n : Z) : pystr := u (NilZero.string_of_int (Z.to_int n)).

Definition hex_digit (n : Z) : Z :=
  nth (Z.to_nat n) (u "0123456789abcdef") (ord "?").

(** ** Exceptions *)

Inductive exn : Type :=
| ValueError (msg : pystr)
| IndexError
| KeyError
| TypeError
| AttributeError
| JSONDecodeError
| UnicodeEncodeError
| Exception_ (msg : pystr).

Inductive result (A : Type) : Type :=
| Ok (a : A)
| Raise (e : exn).
Arguments Ok {A} a.
Arguments Raise {A} e.

Definition rbind {A B} (r : result A) (k : A -> result B) : result B :=
  match r with
  | Ok a => k a
  | Raise e => Raise e
  end.

Declare Scope result_scope.
Delimit Scope result_scope with result.
Notation "x <- r ;; k" := (rbind r (fun x => k))
  (at level 61, r at next level, right associativity) : result_scope.
Notation "' pat <- r ;; k" := (rbind r (fun x => match x with pat => k end))
  (at level 61, pat pattern, r at next level, right associativity) : result_scope.

(** ** Values of [json.loads] and [json.dumps] *)

(** A Python [float] read from a decimal literal [m * 10^e], or one of
    the three special values the [json] module accepts. *)
Inductive pyfloat : Type :=
| FDec (m e : Z)
| FInf (negative : bool)
| FNaN.

Inductive json : Type :=
| JNull
| JBool (b : bool)
| JInt (n : Z)
| JFloat (f : pyfloat)
| JStr (s : pystr)
| JList (l : list json)
| JDict (d : list (pystr * json)).

(** *** Python dictionaries, in insertion order *)

Section Dict.
Context {V : Type}.

Fixpoint dict_get (k : pystr) (d : list (pystr * V)) : option V :=
  match d with
  | [] => None
  | (k', v) :: d' => if str_eqb k k' then Some v else dict_get k d'
  end.

(** [d[k] = v]: an existing key keeps its position. *)
Fixpoint dict_set (k : pystr) (v : V) (d : list (pystr * V)) : list (pystr * V) :=
  match d with
  | [] => [(k, v)]
  | (k', v') :: d' =>
      if str_eqb k k' then (k', v) :: d' else (k', v') :: dict_set k v d'
  end.

(** [list(d.keys())] *)
Definition dict_keys (d : list (pystr * V)) : list pystr := map fst d.
End Dict.

(** *** [json.dumps] with the default separators and [ensure_ascii] *)

Definition hex4 (c : Z) : pystr :=
  [hex_digit (c / 4096 mod 16); hex_digit (c / 256 mod 16);
   hex_digit (c / 16 mod 16); hex_digit (c mod 16)].

Definition escape_char (c : Z) : pystr :=
  if c =? 34 then [92; 34]
  else if c =? 92 then u "\\"
  else if c =? 10 then u "\n"
  else if c =? 13 then u "\r"
  else if c =? 9 then u "\t"
  else if c =? 8 then u "\b"
  else if c =? 12 then u "\f"
  else if (32 <=? c) && (c <=? 126) then [c]
  else if c <? 65536 then u "\u" ++ hex4 c
  else
    let n := c - 65536 in
    u "\u" ++ hex4 (Z.lor 55296 (Z.land (Z.shiftr n 10) 1023)) ++
    u "\u" ++ hex4 (Z.lor 56320 (Z.land n 1023)).

Definition encode_basestring_ascii (s : pystr) : pystr :=
  [34] ++ flat_map escape_char s ++ [34].

(** [sep.join(parts)] *)
Fixpoint join (sep : pystr) (parts : list pystr) : pystr :=
  match parts with
  | [] => []
  | [p] => p
  | p :: rest => p ++ sep ++ join sep rest
  end.

(** The [json] encoder prints a [float] with [float.__repr__]; the
    payloads built by this module carry no [float], and the decimal
    literal is printed back for completeness. *)
Definition float_repr (f : pyfloat) : pystr :=
  match f with
  | FDec m e => str_of_int m ++ u "e" ++ str_of_int e
  | FInf false => u "Infinity"
  | FInf true => u "-Infinity"
  | FNaN => u "NaN"
  end.

Fixpoint json_dumps (j : json) : pystr :=
  match j with
  | JNull => u "null"
  | JBool true => u "true"
  | JBool false => u "false"
  | JInt n => str_of_int n
  | JFloat f => float_repr f
  | JStr s => encode_basestring_ascii s
  | JList l => u "[" ++ join (u ", ") (map json_dumps l) ++ u "]"
  | JDict d =>
      u "{" ++
      join (u ", ")
        (map (fun kv => encode_basestring_ascii (fst kv) ++ u ": " ++ json_dumps (snd kv)) d) ++
      u "}"
  end.

(** *** Dynamic operations on parsed values *)

(** [float(lit) == 0.0] for the literal [m * 10^e]: the literal is zero,
    or it rounds to zero (at most half of the least subnormal, 2^-1075). *)
Definition float_is_zero (f : pyfloat) : bool :=
  match f with
  | FDec m e =>
      (m =? 0) || ((e <? 0) && (Z.abs m * 2 ^ 1075 <=? 10 ^ (- e)))
  | FInf _ | FNaN => false
  end.

(** [bool(v)] *)
Definition py_truthy (v : json) : bool :=
  match v with
  | JNull => false
  | JBool b => b
  | JInt n => negb (n =? 0)
  | JFloat f => negb (float_is_zero f)
  | JStr s => match s with [] => false | _ => true end
  | JList l => match l with [] => false | _ => true end
  | JDict d => match d with [] => false | _ => true end
  end.

(** [v == "lit"] *)
Definition py_eq_str (v : json) (s : pystr) : bool :=
  match v with
  | JStr t => str_eqb t s
  | _ => false
  end.

(** [l[i]] on a sequence, negative indices counting from the end. *)
Definition seq_index {A : Type} (l : list A) (i : Z) : option A :=
  let n := Z.of_nat (List.length l) in
  let j := if i <? 0 then i + n else i in
  if (0 <=? j) && (j <? n) then nth_error l (Z.to_nat j) else None.

(** [v["key"]] *)
Definition py_getitem (v : json) (k : pystr) : result json :=
  match v with
  | JDict d =>
      match dict_get k d with
      | Some x => Ok x
      | None => Raise KeyError
      end
  | _ => Raise TypeError
  end.

(** [v[i]] for an integer [i] *)
Definition py_getindex (v : json) (i : Z) : result json :=
  match v with
  | JDict _ => Raise KeyError
  | JList l =>
      match seq_index l i with
      | Some x => Ok x
      | None => Raise IndexError
      end
  | JStr s =>
      match seq_index s i with
      | Some c => Ok (JStr [c])
      | None => Raise IndexError
      end
  | _ => Raise TypeError
  end.

(** [v.get("key")]: only a [dict] has the method. *)
Definition py_get (v : json) (k : pystr) : result json :=
  match v with
  | JDict d =>
      match dict_get k d with
      | Some x => Ok x
      | None => Ok JNull
      end
  | _ => Raise AttributeError
  end.

(** [len(v)] *)
Definition py_len (v : json) : result Z :=
  match v with
  | JStr s => Ok (Z.of_nat (List.length s))
  | JList l => Ok (Z.of_nat (List.length l))
  | JDict d => Ok (Z.of_nat (List.length d))
  | _ => Raise TypeError
  end.

(** The elements visited by [for x in v]. *)
Definition py_iter (v : json) : result (list json) :=
  match v with
  | JStr s => Ok (map (fun c => JStr [c]) s)
  | JList l => Ok l
  | JDict d => Ok (map (fun kv => JStr (fst kv)) d)
  | _ => Raise TypeError
  end.

(** ** elements.py *)

Definition VALUE_OFFSET : Z := 100.

Module Header.
Record t : Type := mk {
  type : pystr;
  text : option pystr;
  image_link : option pystr
}.
End Header.

(** The attributes of an [Amount] are plain attributes, assignable after
    the construction: a value of this type is any such object, and
    [__init__] is the validating constructor (its [offset] argument
    defaults to [VALUE_OFFSET]). *)
Module Amount.
Record t : Type := mk {
  value : Z;
  offset : Z
}.

(** [Amount.__init__] *)
Definition __init__ (value offset : Z) : result t :=
  if negb (offset =? VALUE_OFFSET) then
    Raise (ValueError (u "Offset must be " ++ str_of_int VALUE_OFFSET))
  else if negb (value mod VALUE_OFFSET =? 0) then
    Raise (ValueError (u "Value must be a multiple of " ++ str_of_int VALUE_OFFSET))
  else Ok (mk value offset).

Definition toJSON (self : t) : pystr :=
  json_dumps (JDict [(u "value", JInt (value self)); (u "offset", JInt (offset self))]).
End Amount.

Module Address.
Record t : Type := mk {
  address_line1 : pystr;
  city : pystr;
  zone_code : pystr;
  postal_code : pystr;
  country_code : pystr;
  address_line2 : option pystr
}.

Definition opt_str (o : option pystr) : json :=
  match o with
  | Some s => JStr s
  | None => JNull
  end.

(** [self.__dict__] *)
Definition __dict__ (self : t) : json :=
  JDict [(u "address_line1", JStr (address_line1 self));
         (u "city", JStr (city self));
         (u "zone_code", JStr (zone_code self));
         (u "postal_code", JStr (postal_code self));
         (u "country_code", JStr (country_code self));
         (u "address_line2", opt_str (address_line2 self))].
End Address.

Module Item.
Record t : Type := mk {
  name : pystr;
  amount : Amount.t;
  quantity : Z;
  sale_amount : option Amount.t;
  retailer_id : option pystr;
  image_link : option pystr;
  country_of_origin : option pystr;
  importer_name : option pystr;
  importer_address : option Address.t
}.
End Item.

(** ** [str.encode("utf-8")], [hashlib.sha256] and [hmac] *)

(** [s.encode("utf-8")]: a surrogate code point cannot be encoded. *)
Definition utf8_char (c : Z) : option (list Z) :=
  if (c <? 0) || (1114111 <? c) then None
  else if c <? 128 then Some [c]
  else if c <? 2048 then
    Some [Z.lor 192 (Z.shiftr c 6); Z.lor 128 (Z.land c 63)]
  else if c <? 65536 then
    if (55296 <=? c) && (c <=? 57343) then None
    else Some [Z.lor 224 (Z.shiftr c 12);
               Z.lor 128 (Z.land (Z.shiftr c 6) 63);
               Z.lor 128 (Z.land c 63)]
  else Some [Z.lor 240 (Z.shiftr c 18);
             Z.lor 128 (Z.land (Z.shiftr c 12) 63);
             Z.lor 128 (Z.land (Z.shiftr c 6) 63);
             Z.lor 128 (Z.land c 63)].

Fixpoint encode_utf8 (s : pystr) : result (list Z) :=
  match s with
  | [] => Ok []
  | c :: s' =>
      match utf8_char c with
      | None => Raise UnicodeEncodeError
      | Some bs =>
          match encode_utf8 s' with
          | Ok rest => Ok (bs ++ rest)
          | Raise e => Raise e
          end
      end
  end.

Module SHA256.
Definition mask32 : Z := 4294967295.
Definition add32 (a b : Z) : Z := (a + b) mod 4294967296.
Definition rotr (n x : Z) : Z :=
  Z.lor (Z.shiftr x n) (Z.land (Z.shiftl x (32 - n)) mask32).
Definition shr (n x : Z) : Z := Z.shiftr x n.
Definition not32 (x : Z) : Z := Z.lxor x mask32.
Definition xor3 (a b c : Z) : Z := Z.lxor (Z.lxor a b) c.

Definition Ch (x y z : Z) : Z := Z.lxor (Z.land x y) (Z.land (not32 x) z).
Definition Maj (x y z : Z) : Z := xor3 (Z.land x y) (Z.land x z) (Z.land y z).
Definition Sigma0 (x : Z) : Z := xor3 (rotr 2 x) (rotr 13 x) (rotr 22 x).
Definition Sigma1 (x : Z) : Z := xor3 (rotr 6 x) (rotr 11 x) (rotr 25 x).
Definition sigma0 (x : Z) : Z := xor3 (rotr 7 x) (rotr 18 x) (shr 3 x).
Definition sigma1 (x : Z) : Z := xor3 (rotr 17 x) (rotr 19 x) (shr 10 x).

(** The round constants and the initial hash value are the first 32 bits
    of the fractional parts of the cube roots of the first 64 primes and
    of the square roots of the first 8 primes. *)
Definition is_prime (n : Z) : bool :=
  (1 <? n) && forallb (fun d => negb (n mod Z.of_nat d =? 0)) (seq 2 (Z.to_nat n - 2)).

Definition first_primes (count : nat) : list Z :=
  firstn count (filter is_prime (map Z.of_nat (seq 2 400))).

(** The integer [k]-th root of [n], found bit by bit from [bits] down. *)
Fixpoint iroot (k : Z) (bits : nat) (n r : Z) : Z :=
  match bits with
  | O => r
  | S b =>
      let c := r + 2 ^ Z.of_nat b in
      iroot k b n (if c ^ k <=? n then c else r)
  end.

Definition frac_root32 (k p : Z) : Z :=
  iroot k 40 (p * 2 ^ (32 * k)) 0 mod 2 ^ 32.

Definition K : list Z := Eval vm_compute in map (frac_root32 3) (first_primes 64).

Definition H0 : list Z := Eval vm_compute in map (frac_root32 2) (first_primes 8).

(** Big-endian bytes of a word of [n] bytes. *)
Fixpoint be_bytes (n : nat) (x : Z) : list Z :=
  match n with
  | O => []
  | S n' => Z.land (Z.shiftr x (8 * Z.of_nat n')) 255 :: be_bytes n' x
  end.

Definition pad (msg : list Z) : list Z :=
  let len := Z.of_nat (List.length msg) in
  msg ++ [128] ++ repeat 0 (Z.to_nat ((55 - len) mod 64)) ++ be_bytes 8 (8 * len).

Fixpoint chunks (fuel : nat) (n : nat) (l : list Z) : list (list Z) :=
  match fuel, l with
  | O, _ | _, [] => []
  | S fuel', _ => firstn n l :: chunks fuel' n (skipn n l)
  end.

Definition word_of_bytes (bs : list Z) : Z :=
  fold_left (fun acc b => Z.lor (Z.shiftl acc 8) b) bs 0.

Definition words_of_block (block : list Z) : list Z :=
  map word_of_bytes (chunks 16 4 block).

(** The message schedule, most recent word first. *)
Fixpoint schedule (n : nat) (rev_w : list Z) : list Z :=
  match n with
  | O => rev_w
  | S n' =>
      let w :=
        add32 (add32 (sigma1 (nth 1 rev_w 0)) (nth 6 rev_w 0))
              (add32 (sigma0 (nth 14 rev_w 0)) (nth 15 rev_w 0)) in
      schedule n' (w :: rev_w)
  end.

Definition round (st : list Z) (kw : Z * Z) : list Z :=
  match st with
  | [a; b; c; d; e; f; g; h] =>
      let t1 := add32 (add32 (add32 h (Sigma1 e)) (add32 (Ch e f g) (fst kw))) (snd kw) in
      let t2 := add32 (Sigma0 a) (Maj a b c) in
      [add32 t1 t2; a; b; c; add32 d t1; e; f; g]
  | _ => st
  end.

Definition compress (h : list Z) (block : list Z) : list Z :=
  let w := rev (schedule 48 (rev (words_of_block block))) in
  let st := fold_left round (combine K w) h in
  map (fun p => add32 (fst p) (snd p)) (combine h st).

(** [hashlib.sha256(msg).digest()] *)
Definition digest (msg : list Z) : list Z :=
  let padded := pad msg in
  let blocks := chunks (List.length padded) 64 padded in
  flat_map (be_bytes 4) (fold_left compress blocks H0).
End SHA256.

Module HMAC.
Definition block_size : nat := 64.

Definition xor_pad (b : Z) (key : list Z) : list Z := map (Z.lxor b) key.

(** [hmac.new(key, msg, hashlib.sha256).digest()] *)
Definition digest (key msg : list Z) : list Z :=
  let key1 := if Nat.ltb block_size (List.length key) then SHA256.digest key else key in
  let key2 := key1 ++ repeat 0 (block_size - List.length key1) in
  SHA256.digest (xor_pad 92 key2 ++ SHA256.digest (xor_pad 54 key2 ++ msg)).

Definition hex_byte (b : Z) : pystr := [hex_digit (b / 16); hex_digit (b mod 16)].

(** [hmac.new(key, msg, hashlib.sha256).hexdigest()] *)
Definition hexdigest (key msg : list Z) : pystr := flat_map hex_byte (digest key msg).

(** [hmac.compare_digest(a, b)] on two [str]: both must be ASCII. *)
Definition compare_digest (a b : pystr) : result bool :=
  if isascii a && isascii b then Ok (str_eqb a b) else Raise TypeError.
End HMAC.

(** ** [json.loads]

    The decoder of the [json] module on a [str]: [None] stands for
    [JSONDecodeError].  The interpreter's recursion limit and its limit on
    the length of integer literals are not modelled. *)

Module JSONDecoder.
Definition is_ws (c : Z) : bool := (c =? 32) || (c =? 9) || (c =? 10) || (c =? 13).

Fixpoint skip_ws (s : pystr) : pystr :=
  match s with
  | c :: s' => if is_ws c then skip_ws s' else s
  | [] => []
  end.

Definition is_digit (c : Z) : bool := (48 <=? c) && (c <=? 57).

Fixpoint take_digits (s : pystr) : pystr * pystr :=
  match s with
  | c :: s' =>
      if is_digit c then let (ds, r) := take_digits s' in (c :: ds, r) else ([], s)
  | [] => ([], [])
  end.

Definition int_of_digits (ds : pystr) : Z :=
  fold_left (fun acc c => 10 * acc + (c - 48)) ds 0.

Definition hex_value (c : Z) : option Z :=
  if is_digit c then Some (c - 48)
  else if (65 <=? c) && (c <=? 70) then Some (c - 55)
  else if (97 <=? c) && (c <=? 102) then Some (c - 87)
  else None.

(** The four hexadecimal digits after [\u]. *)
Definition decode_uXXXX (s : pystr) : option (Z * pystr) :=
  match s with
  | a :: b :: c :: d :: r =>
      match hex_value a, hex_value b, hex_value c, hex_value d with
      | Some x, Some y, Some z, Some w => Some (4096 * x + 256 * y + 16 * z + w, r)
      | _, _, _, _ => None
      end
  | _ => None
  end.

Definition backslash (c : Z) : option Z :=
  if c =? 34 then Some 34
  else if c =? 92 then Some 92
  else if c =? 47 then Some 47
  else if c =? 98 then Some 8
  else if c =? 102 then Some 12
  else if c =? 110 then Some 10
  else if c =? 114 then Some 13
  else if c =? 116 then Some 9
  else None.

(** [scanstring], after the opening quote, in strict mode. *)
Fixpoint scanstring (fuel : nat) (s : pystr) (acc : pystr) : option (pystr * pystr) :=
  match fuel with
  | O => None
  | S fuel' =>
      match s with
      | [] => None
      | 34 :: r => Some (rev acc, r)
      | 92 :: 117 :: r =>
          match decode_uXXXX r with
          | None => None
          | Some (uni, r1) =>
              if (55296 <=? uni) && (uni <=? 56319) then
                match r1 with
                | 92 :: 117 :: r2 =>
                    match decode_uXXXX r2 with
                    | None => None
                    | Some (uni2, r3) =>
                        if (56320 <=? uni2) && (uni2 <=? 57343) then
                          scanstring fuel' r3
                            (65536 + Z.lor (Z.shiftl (uni - 55296) 10) (uni2 - 56320) :: acc)
                        else scanstring fuel' r1 (uni :: acc)
                    end
                | _ => scanstring fuel' r1 (uni :: acc)
                end
              else scanstring fuel' r1 (uni :: acc)
          end
      | 92 :: c :: r =>
          match backslash c with
          | Some x => scanstring fuel' r (x :: acc)
          | None => None
          end
      | 92 :: [] => None
      | c :: r => if c <? 32 then None else scanstring fuel' r (c :: acc)
      end
  end.

(** A number: an optional minus sign, then 0 or a nonzero digit with
    more digits, then an optional fraction (a dot and at least one
    digit) and an optional exponent (e or E, an optional sign and at
    least one digit); a fraction or an exponent makes it a [float]. *)
Definition scan_number (s : pystr) : option (json * pystr) :=
  let (negative, s1) := match s with 45 :: r => (true, r) | _ => (false, s) end in
  let int_part :=
    match s1 with
    | 48 :: r => Some ([48], r)
    | c :: _ => if is_digit c then Some (take_digits s1) else None
    | [] => None
    end in
  match int_part with
  | None => None
  | Some (ds, r1) =>
      let (frac, r2) :=
        match r1 with
        | 46 :: r =>
            let (fs, r') := take_digits r in
            match fs with [] => ([], r1) | _ => (fs, r') end
        | _ => ([], r1)
        end in
      let (expo, r3) :=
        match r2 with
        | c :: r =>
            if (c =? 101) || (c =? 69) then
              let (sign, r') :=
                match r with
                | 45 :: t => (-1, t)
                | 43 :: t => (1, t)
                | _ => (1, r)
                end in
              let (es, r'') := take_digits r' in
              match es with
              | [] => (None, r2)
              | _ => (Some (sign * int_of_digits es), r'')
              end
            else (None, r2)
        | [] => (None, r2)
        end in
      let sgn := if negative then -1 else 1 in
      match frac, expo with
      | [], None => Some (JInt (sgn * int_of_digits ds), r3)
      | _, _ =>
          let e := match expo with Some e => e | None => 0 end in
          Some (JFloat (FDec (sgn * int_of_digits (ds ++ frac))
                             (e - Z.of_nat (List.length frac))), r3)
      end
  end.

Definition literal (lit : string) (v : json) (s : pystr) : option (json * pystr) :=
  if startswith (u lit) s then Some (v, skipn (List.length (u lit)) s) else None.

Definition first_of {A : Type} (a b : option A) : option A :=
  match a with
  | Some _ => a
  | None => b
  end.

Definition scan_atom (s : pystr) : option (json * pystr) :=
  first_of (literal "null" JNull s)
 (first_of (literal "true" (JBool true) s)
 (first_of (literal "false" (JBool false) s)
 (first_of (scan_number s)
 (first_of (literal "NaN" (JFloat FNaN) s)
 (first_of (literal "Infinity" (JFloat (FInf false)) s)
           (literal "-Infinity" (JFloat (FInf true)) s)))))).

Fixpoint scan_once (fuel : nat) (s : pystr) : option (json * pystr) :=
  match fuel with
  | O => None
  | S fuel' =>
      match s with
      | 34 :: r =>
          match scanstring (S (List.length r)) r [] with
          | Some (str, r') => Some (JStr str, r')
          | None => None
          end
      | 123 :: r =>
          match skip_ws r with
          | 125 :: r' => Some (JDict [], r')
          | r' => scan_members fuel' r' []
          end
      | 91 :: r =>
          match skip_ws r with
          | 93 :: r' => Some (JList [], r')
          | r' => scan_elements fuel' r' []
          end
      | _ => scan_atom s
      end
  end
with scan_elements (fuel : nat) (s : pystr) (acc : list json) : option (json * pystr) :=
  match fuel with
  | O => None
  | S fuel' =>
      match scan_once fuel' s with
      | None => None
      | Some (v, r) =>
          match skip_ws r with
          | 93 :: r' => Some (JList (rev (v :: acc)), r')
          | 44 :: r' => scan_elements fuel' (skip_ws r') (v :: acc)
          | _ => None
          end
      end
  end
with scan_members (fuel : nat) (s : pystr) (acc : list (pystr * json)) : option (json * pystr) :=
  match fuel with
  | O => None
  | S fuel' =>
      match s with
      | 34 :: r =>
          match scanstring (S (List.length r)) r [] with
          | None => None
          | Some (key, r1) =>
              match skip_ws r1 with
              | 58 :: r2 =>
                  match scan_once fuel' (skip_ws r2) with
                  | None => None
                  | Some (v, r3) =>
                      match skip_ws r3 with
                      | 125 :: r4 => Some (JDict (dict_set key v acc), r4)
                      | 44 :: r4 => scan_members fuel' (skip_ws r4) (dict_set key v acc)
                      | _ => None
                      end
                  end
              | _ => None
              end
          end
      | _ => None
      end
  end.

Definition decode (s : pystr) : option json :=
  match scan_once (2 * List.length s + 2) (skip_ws s) with
  | Some (v, r) => match skip_ws r with [] => Some v | _ => None end
  | None => None
  end.
End JSONDecoder.

Definition json_loads (s : pystr) : result json :=
  match JSONDecoder.decode s with
  | Some v => Ok v
  | None => Raise JSONDecodeError
  end.

(** ** checkout_base.py *)

(** *** The outside world: HTTP requests and the console *)

(** The URLs the module builds from [URL = "https://graph.facebook.com/v19.0"]:
    [{URL}/{waba}/phone_numbers], [{URL}/{phone_number_id}/messages] and
    [{URL}/{phone_number_id}/payments/{payment_configuration}/{reference_id}]. *)
Inductive endpoint : Type :=
| PhoneNumbers (waba : pystr)
| Messages (phone_number_id : json)
| Payments (phone_number_id : json) (payment_configuration : pystr) (reference_id : json).

Inductive request : Type :=
| GET (url : endpoint) (headers : list (pystr * pystr))
| POST (url : endpoint) (data : json) (headers : list (pystr * pystr)).

Record response : Type := mk_response {
  status_code : Z;
  text : pystr
}.

(** The remote side answers every request. *)
Definition network : Type := request -> response.

(** The lines written by [print], with the values interpolated in them. *)
Inductive output : Type :=
| OrderDetailsRequest (request : json)
| OrderDetailsResponse (body : json)
| PaymentStatusResponse (body : json)
| NotVerified
| NotBusinessAccount (object : json)
| OtherAccount (id : json)
| NotMessages (field : json)
| PaymentConfirmation (transaction_id reference_id status display_phone_number : json)
| PaymentStatusUpdate (id reference_id status display_phone_number : json)
| Unrecognized (payload : pystr).

Inductive effect : Type :=
| Request (r : request)
| Print (o : output).

(** *** Computations: the class-level phone directory is the state, the
    effects are written to a trace, and an exception ends the run. *)

Definition directory : Type := list (pystr * json).

Record outcome (A : Type) : Type := mk_outcome {
  res : result A;
  final : directory;
  trace : list effect
}.
Arguments mk_outcome {A} res final trace.
Arguments res {A} o.
Arguments final {A} o.
Arguments trace {A} o.

Definition M (A : Type) : Type := directory -> outcome A.

Definition ret {A} (a : A) : M A := fun st => mk_outcome (Ok a) st [].

Definition raise {A} (e : exn) : M A := fun st => mk_outcome (Raise e) st [].

Definition lift {A} (r : result A) : M A := fun st => mk_outcome r st [].

Definition bind {A B} (m : M A) (k : A -> M B) : M B :=
  fun st =>
    let o := m st in
    match res o with
    | Ok a =>
        let o' := k a (final o) in
        mk_outcome (res o') (final o') (trace o ++ trace o')
    | Raise e => mk_outcome (Raise e) (final o) (trace o)
    end.

Declare Scope M_scope.
Delimit Scope M_scope with M.
Notation "x <- m ;; k" := (bind m (fun x => k))
  (at level 61, m at next level, right associativity) : M_scope.
Notation "m ;; k" := (bind m (fun _ => k))
  (at level 61, right associativity) : M_scope.

Definition get_directory : M directory := fun st => mk_outcome (Ok st) st [].

Definition set_entry (k : pystr) (v : json) : M unit :=
  fun st => mk_outcome (Ok tt) (dict_set k v st) [].

Definition print (o : output) : M unit := fun st => mk_outcome (Ok tt) st [Print o].

(** A [for] loop over the elements of a list. *)
Fixpoint for_each {A} (l : list A) (body : A -> M unit) : M unit :=
  match l with
  | [] => ret tt
  | x :: l' => bind (body x) (fun _ => for_each l' body)
  end.

(** The abstract methods of [CheckoutBase]. *)
Record CheckoutBase : Type := {
  get_access_token : pystr;
  get_app_secret : pystr;
  get_waba : pystr;
  get_payment_configuration : pystr
}.

(** Truthiness of an [Optional[str]]: present and not empty. *)
Definition nonempty (o : option pystr) : option pystr :=
  match o with
  | Some (c :: s) => Some (c :: s)
  | _ => None
  end.

Definition opt_entry (k : string) (o : option pystr) : list (pystr * json) :=
  match nonempty o with
  | Some s => [(u k, JStr s)]
  | None => []
  end.

(** The keyword arguments of [send_order_details_msg]. *)
Record order_details : Type := {
  goods_type : pystr;
  sender_phone_number : pystr;
  recipient_phone_number : pystr;
  reference_id : pystr;
  msg_body : pystr;
  items : list Item.t;
  tax_amount : option Amount.t;
  tax_desc : option pystr;
  shipping_amount : option Amount.t;
  shipping_desc : option pystr;
  discount_amount : option Amount.t;
  discount_desc : option pystr;
  discount_program_name : option pystr;
  catalog_id : option pystr;
  msg_header : option Header.t;
  msg_footer : option pystr;
  expiration_in_sec : option pystr;
  expiration_desc : option pystr
}.

(** Lines 129-139: the header block. *)
Definition header_block (msg_header : option Header.t) : result (list (pystr * json)) :=
  match msg_header with
  | None => Ok []
  | Some h =>
      let type := Header.type h in
      match str_eqb type (u "text"), nonempty (Header.text h) with
      | true, Some t => Ok [(u "header", JDict [(u "type", JStr type); (u "text", JStr t)])]
      | _, _ =>
          match str_eqb type (u "image"), nonempty (Header.image_link h) with
          | true, Some l =>
              Ok [(u "header",
                   JDict [(u "type", JStr type); (u "image", JDict [(u "link", JStr l)])])]
          | _, _ => Raise (ValueError (u "Invalid header type " ++ type))
          end
      end
  end.

(** Lines 144-151: the expiration block. *)
Definition expiration_block (expiration_in_sec expiration_desc : option pystr)
  : list (pystr * json) :=
  match nonempty expiration_in_sec with
  | Some ts =>
      [(u "expiration",
        JDict ((u "timestamp", JStr ts) :: opt_entry "description" expiration_desc))]
  | None => []
  end.

(** Lines 167-171: the amount an item is charged at. *)
Definition effective_amount (item : Item.t) : Amount.t :=
  match Item.sale_amount item with
  | Some sale => sale
  | None => Item.amount item
  end.

(** Lines 156-180: the dictionary [it] of one item. *)
Definition item_dict (item : Item.t) : json :=
  JDict
    ([(u "name", JStr (Item.name item));
      (u "amount", JStr (Amount.toJSON (Item.amount item)));
      (u "quantity", JInt (Item.quantity item))]
     ++ opt_entry "retailer_id" (Item.retailer_id item)
     ++ match nonempty (Item.image_link item) with
        | Some l => [(u "image", JDict [(u "link", JStr l)])]
        | None => []
        end
     ++ match Item.sale_amount item with
        | Some sale => [(u "sale_amount", JStr (Amount.toJSON sale))]
        | None => []
        end
     ++ opt_entry "country_of_origin" (Item.country_of_origin item)
     ++ opt_entry "importer_name" (Item.importer_name item)
     ++ match Item.importer_address item with
        | Some a => [(u "importer_address", Address.__dict__ a)]
        | None => []
        end).

(** Lines 155-181: the loop over [items], with the running [total] and
    [item_list]. *)
Fixpoint items_loop (offset : Z) (items : list Item.t) (total : Z) (item_list : list json)
  : result (Z * list json) :=
  match items with
  | [] => Ok (total, item_list)
  | item :: rest =>
      let am := effective_amount item in
      if negb (offset =? Amount.offset am) then
        Raise (ValueError (u "Item amount must have the same offset as others"))
      else
        items_loop offset rest
          (total + Amount.value am * Item.quantity item)
          (item_list ++ [item_dict item])
  end.

(** Lines 187-219: the block of a tax, shipping or discount amount, a
    JSON string of its own inside the order. *)
Definition amount_block (key : string) (amount : option Amount.t) (offset : Z)
    (extra : list (pystr * json)) : list (pystr * json) :=
  match amount with
  | Some a =>
      [(u key,
        JStr (json_dumps
                (JDict ([(u "value", JInt (Amount.value a)); (u "offset", JInt offset)]
                        ++ extra))))]
  | None => []
  end.

Definition amount_value (amount : option Amount.t) : Z :=
  match amount with
  | Some a => Amount.value a
  | None => 0
  end.

Section Methods.
Variable net : network.
Variable self : CheckoutBase.

Definition _get_headers : list (pystr * pystr) :=
  [(u "Authorization", u "Bearer " ++ get_access_token self);
   (u "Content-Type", u "application/json")].

(** [requests.get] and [requests.post] *)
Definition requests_get (url : endpoint) (headers : list (pystr * pystr)) : M response :=
  fun st => mk_outcome (Ok (net (GET url headers))) st [Request (GET url headers)].

Definition requests_post (url : endpoint) (data : json) (headers : list (pystr * pystr))
  : M response :=
  fun st => mk_outcome (Ok (net (POST url data headers))) st [Request (POST url data headers)].

(** [response.json()] *)
Definition response_json (r : response) : result json := json_loads (text r).

(** ["".join(c for c in v if c in "0123456789")] over the elements of
    an iteration: an element that is not a [str] raises [TypeError]. *)
Fixpoint join_digits (cs : list json) : result pystr :=
  match cs with
  | [] => Ok []
  | JStr c :: cs' =>
      (rest <- join_digits cs' ;;
       Ok (if str_contains (u "0123456789") c then c ++ rest else rest))%result
  | _ :: _ => Raise TypeError
  end.

Definition _load_phone_numbers : M unit :=
  (let headers := _get_headers in
   let waba := get_waba self in
   r <- requests_get (PhoneNumbers waba) headers ;;
   if negb (status_code r =? 200) then
     raise (Exception_ (u "Error on getting phone number id map"))
   else
     body <- lift (json_loads (text r)) ;;
     data <- lift (py_getitem body (u "data")) ;;
     n <- lift (py_len data) ;;
     if n =? 0 then raise (Exception_ (u "There are no phone numbers in the WABA"))
     else
       ds <- lift (py_iter data) ;;
       for_each ds (fun d =>
         display <- lift (py_getitem d (u "display_phone_number")) ;;
         cs <- lift (py_iter display) ;;
         phone_number <- lift (join_digits cs) ;;
         id <- lift (py_getitem d (u "id")) ;;
         set_entry phone_number id))%M.

Definition _get_sender_phone_number_id (phone_number : pystr) : M json :=
  (map0 <- get_directory ;;
   match map0 with [] => _load_phone_numbers | _ :: _ => ret tt end ;;
   map1 <- get_directory ;;
   match dict_get phone_number map1 with
   | Some id => ret id
   | None => raise KeyError
   end)%M.

(** Lines 110-222 of [send_order_details_msg]: the dictionary
    [interactive], built without any effect. *)
Definition order_details_interactive (a : order_details) : result json :=
  (header <- header_block (msg_header a) ;;
   first <- match items a with
            | [] => Raise IndexError
            | item :: _ => Ok item
            end ;;
   let offset := Amount.offset (Item.amount first) in
   ' (subtotal, item_list) <- items_loop offset (items a) 0 [] ;;
   let total :=
     subtotal + amount_value (tax_amount a) + amount_value (shipping_amount a)
     - amount_value (discount_amount a) in
   total_amount <- Amount.__init__ total offset ;;
   let order :=
     JDict
       ([(u "status", JStr (u "pending"))]
        ++ opt_entry "catalog_id" (catalog_id a)
        ++ expiration_block (expiration_in_sec a) (expiration_desc a)
        ++ [(u "items", JList item_list);
            (u "subtotal", JDict [(u "value", JInt subtotal); (u "offset", JInt offset)])]
        ++ amount_block "tax" (tax_amount a) offset (opt_entry "description" (tax_desc a))
        ++ amount_block "shipping" (shipping_amount a) offset
             (opt_entry "description" (shipping_desc a))
        ++ amount_block "discount" (discount_amount a) offset
             (opt_entry "description" (discount_desc a)
              ++ opt_entry "discount_program_name" (discount_program_name a))) in
   Ok (JDict
         ([(u "type", JStr (u "order_details"));
           (u "body", JDict [(u "text", JStr (msg_body a))]);
           (u "action",
            JDict [(u "name", JStr (u "review_and_pay"));
                   (u "parameters",
                    JDict [(u "reference_id", JStr (reference_id a));
                           (u "type", JStr (goods_type a));
                           (u "payment_type", JStr (u "upi"));
                           (u "payment_configuration", JStr (get_payment_configuration self));
                           (u "currency", JStr (u "INR"));
                           (u "order", order);
                           (u "total_amount", JStr (Amount.toJSON total_amount))])])]
          ++ header
          ++ match nonempty (msg_footer a) with
             | Some f => [(u "footer", JDict [(u "text", JStr f)])]
             | None => []
             end)))%result.

(** Lines 223-229 and 233: the request, with [interactive] as given. *)
Definition order_details_request (a : order_details) (interactive : json) : json :=
  JDict [(u "messaging_product", JStr (u "whatsapp"));
         (u "recipient_type", JStr (u "individual"));
         (u "to", JStr (recipient_phone_number a));
         (u "type", JStr (u "interactive"));
         (u "interactive", interactive)].

Definition send_order_details_msg (a : order_details) : M unit :=
  (let http_headers := _get_headers in
   phone_number_id <- _get_sender_phone_number_id (sender_phone_number a) ;;
   interactive <- lift (order_details_interactive a) ;;
   print (OrderDetailsRequest (order_details_request a interactive)) ;;
   response <- requests_post (Messages phone_number_id)
                 (order_details_request a (JStr (json_dumps interactive))) http_headers ;;
   body <- lift (response_json response) ;;
   print (OrderDetailsResponse body))%M.

Definition get_payment_status (business_phone_number : pystr) (reference_id : json) : M unit :=
  (let http_headers := _get_headers in
   let payment_configuration := get_payment_configuration self in
   phone_number_id <- _get_sender_phone_number_id business_phone_number ;;
   response <- requests_get (Payments phone_number_id payment_configuration reference_id)
                 http_headers ;;
   body <- lift (response_json response) ;;
   print (PaymentStatusResponse body))%M.

Definition verify_webhook (headers : list (pystr * pystr)) (payload : pystr) : result bool :=
  match dict_get (u "X-Hub-Signature-256") headers with
  | None => Raise KeyError
  | Some h =>
      (let hmac_in_header := removeprefix (u "sha256=") h in
       key <- encode_utf8 (get_app_secret self) ;;
       msg <- encode_utf8 payload ;;
       let hmac_calculated := HMAC.hexdigest key msg in
       HMAC.compare_digest hmac_in_header hmac_calculated)%result
  end.

(** Lines 306-318: the guards on the account and on the field; the
    result is either the line printed on rejection or [value]. *)
Definition callback_value (data : json) : result (output + json) :=
  (object <- py_getitem data (u "object") ;;
   if negb (py_eq_str object (u "whatsapp_business_account")) then
     Ok (inl (NotBusinessAccount object))
   else
     entries <- py_getitem data (u "entry") ;;
     entry <- py_getindex entries 0 ;;
     id <- py_getitem entry (u "id") ;;
     if negb (py_eq_str id (get_waba self)) then Ok (inl (OtherAccount id))
     else
       changes <- py_getitem entry (u "changes") ;;
       change <- py_getindex changes 0 ;;
       field <- py_getitem change (u "field") ;;
       if negb (py_eq_str field (u "messages")) then Ok (inl (NotMessages field))
       else
         value <- py_getitem change (u "value") ;;
         Ok (inr value))%result.

(** Line 319: [value["messages"][0].get("interactive")] *)
Definition first_interactive (value : json) : result json :=
  (messages <- py_getitem value (u "messages") ;;
   message <- py_getindex messages 0 ;;
   py_get message (u "interactive"))%result.

(** Line 320: [interactive and interactive["type"] == "payment"] *)
Definition is_payment (interactive : json) : result bool :=
  if py_truthy interactive then
    (type <- py_getitem interactive (u "type") ;;
     Ok (py_eq_str type (u "payment")))%result
  else Ok false.

(** Lines 321-329: the line printed for a payment confirmation. *)
Definition payment_confirmation (value interactive : json) : result output :=
  (payment <- py_getitem interactive (u "payment") ;;
   transaction_id <- py_getitem payment (u "transaction_id") ;;
   reference_id <- py_getitem payment (u "reference_id") ;;
   status <- py_getitem payment (u "status") ;;
   metadata <- py_getitem value (u "metadata") ;;
   display <- py_getitem metadata (u "display_phone_number") ;;
   Ok (PaymentConfirmation transaction_id reference_id status display))%result.

Definition payment_statuses : list pystr :=
  [u "pending"; u "failed"; u "success"; u "canceled"].

(** Lines 331-364.  Line 335 rebinds [status] to the field read from
    the entry, and lines 336-337 call [get] on that new value. *)
Definition status_update (value : json) (payload : pystr) : M unit :=
  (statuses <- lift (py_getitem value (u "statuses")) ;;
   status <- lift (py_getindex statuses 0) ;;
   id <- lift (py_get status (u "id")) ;;
   recipient_id <- lift (py_get status (u "recipient_id")) ;;
   status_type <- lift (py_get status (u "type")) ;;
   status <- lift (py_get status (u "status")) ;;
   payment <- lift (py_get status (u "payment")) ;;
   timestamp <- lift (py_get status (u "timestamp")) ;;
   guard <- lift
     (if py_truthy recipient_id
         && py_eq_str status_type (u "payment")
         && existsb (py_eq_str status) payment_statuses
         && py_truthy timestamp
         && py_truthy payment
      then (reference_id <- py_getitem payment (u "reference_id") ;;
            Ok (py_truthy reference_id))%result
      else Ok false) ;;
   if guard then
     reference_id <- lift (py_getitem payment (u "reference_id")) ;;
     metadata <- lift (py_getitem value (u "metadata")) ;;
     display <- lift (py_getitem metadata (u "display_phone_number")) ;;
     print (PaymentStatusUpdate id reference_id status display) ;;
     keys <- (map0 <- get_directory ;; ret (dict_keys map0)) ;;
     sender <- lift (match keys with
                     | [] => Raise IndexError
                     | k :: _ => Ok k
                     end) ;;
     reference_id' <- lift (py_getitem payment (u "reference_id")) ;;
     get_payment_status sender reference_id'
   else
     print (Unrecognized payload))%M.

Definition handle_webhook_call (headers : list (pystr * pystr)) (payload : pystr) : M unit :=
  (verified <- lift (verify_webhook headers payload) ;;
   if negb verified then print NotVerified
   else
     data <- lift (json_loads payload) ;;
     guarded <- lift (callback_value data) ;;
     match guarded with
     | inl rejected => print rejected
     | inr value =>
         interactive <- lift (first_interactive value) ;;
         confirmation <- lift (is_payment interactive) ;;
         if confirmation then
           line <- lift (payment_confirmation value interactive) ;;
           print line
         else status_update value payload
     end)%M.
End Methods.

(** ** Reading a built payload, the sum of the specification, examples *)

(** [j[k1][k2]...] on nested dictionaries. *)
Fixpoint get_path (path : list string) (j : json) : option json :=
  match path with
  | [] => Some j
  | k :: rest =>
      match j with
      | JDict d =>
          match dict_get (u k) d with
          | Some v => get_path rest v
          | None => None
          end
      | _ => None
      end
  end.

Definition emitted_order_block (key : string) (interactive : json) : option json :=
  get_path ["action"%string; "parameters"%string; "order"%string; key] interactive.

Definition emitted_subtotal (interactive : json) : option json :=
  emitted_order_block "subtotal" interactive.

Definition emitted_total_amount (interactive : json) : option json :=
  get_path ["action"%string; "parameters"%string; "total_amount"%string] interactive.

(** The sum of the specification: the effective amount of every item
    times its quantity. *)
Fixpoint sum_effective (items : list Item.t) : Z :=
  match items with
  | [] => 0
  | item :: rest =>
      Amount.value (effective_amount item) * Item.quantity item + sum_effective rest
  end.

(** The total of the specification: the subtotal, plus the tax and the
    shipping amounts that are present, minus the discount if present. *)
Definition order_total (a : order_details) : Z :=
  sum_effective (items a) + amount_value (tax_amount a) + amount_value (shipping_amount a)
  - amount_value (discount_amount a).

(** The scale of an order: the offset of the first item's [amount]. *)
Definition order_offset (a : order_details) : option Z :=
  match items a with
  | [] => None
  | first :: _ => Some (Amount.offset (Item.amount first))
  end.

(** The block of a tax, shipping or discount amount as the payload
    carries it: present exactly when the amount is. *)
Definition expected_block (amount : option Amount.t) (offset : Z)
    (extra : list (pystr * json)) : option json :=
  match amount with
  | Some a =>
      Some (JStr (json_dumps
                    (JDict ([(u "value", JInt (Amount.value a)); (u "offset", JInt offset)]
                            ++ extra))))
  | None => None
  end.

(** An order with other tax, shipping and discount amounts. *)
Definition with_amounts (a : order_details) (tax shipping discount : option Amount.t)
  : order_details :=
  {| goods_type := goods_type a;
     sender_phone_number := sender_phone_number a;
     recipient_phone_number := recipient_phone_number a;
     reference_id := reference_id a;
     msg_body := msg_body a;
     items := items a;
     tax_amount := tax;
     tax_desc := tax_desc a;
     shipping_amount := shipping;
     shipping_desc := shipping_desc a;
     discount_amount := discount;
     discount_desc := discount_desc a;
     discount_program_name := discount_program_name a;
     catalog_id := catalog_id a;
     msg_header := msg_header a;
     msg_footer := msg_footer a;
     expiration_in_sec := expiration_in_sec a;
     expiration_desc := expiration_desc a |}.

(** The same amount under another offset. *)
Definition rescaled (offset : Z) (amount : option Amount.t) : option Amount.t :=
  match amount with
  | Some a => Some (Amount.mk (Amount.value a) offset)
  | None => None
  end.

(** A computation that leaves no effect in the trace. *)
Definition silent {A : Type} (m : M A) : Prop := forall st, trace (m st) = [].

(** An amount that [Amount.__init__] returned. *)
Definition constructed (a : Amount.t) : Prop :=
  exists value offset, Amount.__init__ value offset = Ok a.

Definition constructed_opt (o : option Amount.t) : Prop :=
  match o with
  | Some a => constructed a
  | None => True
  end.

(** The amounts an item carries. *)
Definition item_constructed (item : Item.t) : Prop :=
  constructed (Item.amount item) /\ constructed_opt (Item.sale_amount item).

(** JSON text written with apostrophes for the double quotes. *)
Definition json_text (s : string) : pystr :=
  map (fun c => if c =? 39 then 34 else c) (u s).

Definition signature_header : pystr := u "X-Hub-Signature-256".

Module Example.
Definition base : CheckoutBase :=
  {| get_access_token := u "EAAG-token";
     get_app_secret := u "app-secret";
     get_waba := u "102290129340398";
     get_payment_configuration := u "upi-config" |}.

(** The directory of the account lists one number; every other request
    is answered with an empty object. *)
Definition net : network :=
  fun r =>
    match r with
    | GET (PhoneNumbers _) _ =>
        mk_response 200
          (json_text "{'data': [{'display_phone_number': '+1 631-555-5555', 'id': '106540352242922'}]}")
    | _ => mk_response 200 (json_text "{}")
    end.

Definition sender : pystr := u "16315555555".

Definition loaded : directory := [(sender, JStr (u "106540352242922"))].

Definition item (name : string) (value quantity : Z) : Item.t :=
  Item.mk (u name) (Amount.mk value 100) quantity None None None None None None.

Definition order (items : list Item.t) (tax shipping discount : option Amount.t)
  : order_details :=
  {| goods_type := u "digital-goods";
     sender_phone_number := sender;
     recipient_phone_number := u "919999999999";
     reference_id := u "ref-0001";
     msg_body := u "Your order";
     items := items;
     tax_amount := tax;
     tax_desc := None;
     shipping_amount := shipping;
     shipping_desc := None;
     discount_amount := discount;
     discount_desc := None;
     discount_program_name := None;
     catalog_id := None;
     msg_header := None;
     msg_footer := None;
     expiration_in_sec := None;
     expiration_desc := None |}.

(** One item of 1000 taken twice, with a tax of 100. *)
Definition taxed : order_details :=
  order [item "A" 1000 2] (Some (Amount.mk 100 100)) None None.

(** A discount larger than everything else in the order. *)
Definition overdiscounted : order_details :=
  order [item "A" 1000 1] None None (Some (Amount.mk 1500 100)).

(** A tax whose offset was set to 10 after its construction. *)
Definition mismatched_tax : order_details :=
  order [item "A" 1000 1] (Some (Amount.mk 100 10)) None None.

(** A second item of quantity 0 whose amount has offset 10. *)
Definition zero_quantity_mismatch : order_details :=
  order [item "A" 1000 1;
         Item.mk (u "B") (Amount.mk 500 10) 0 None None None None None None]
        None None None.

(** A text header without text. *)
Definition empty_text_header : order_details :=
  {| goods_type := u "digital-goods";
     sender_phone_number := sender;
     recipient_phone_number := u "919999999999";
     reference_id := u "ref-0001";
     msg_body := u "Your order";
     items := [item "A" 1000 1];
     tax_amount := None;
     tax_desc := None;
     shipping_amount := None;
     shipping_desc := None;
     discount_amount := None;
     discount_desc := None;
     discount_program_name := None;
     catalog_id := None;
     msg_header := Some (Header.mk (u "text") None None);
     msg_footer := None;
     expiration_in_sec := None;
     expiration_desc := None |}.

(** An order without items. *)
Definition empty : order_details := order [] None None None.

(** The dictionary [interactive] of an order that builds. *)
Definition built (a : order_details) : json :=
  match order_details_interactive base a with
  | Ok interactive => interactive
  | Raise _ => JNull
  end.

(** The request [send_order_details_msg] posts for it. *)
Definition post_url : endpoint := Messages (JStr (u "106540352242922")).

Definition post_data (a : order_details) : json :=
  order_details_request a (JStr (json_dumps (built a))).

Definition post (a : order_details) : request :=
  POST post_url (post_data a) (_get_headers base).

(** A callback signed with the application secret. *)
Definition signed (payload : pystr) : list (pystr * pystr) :=
  match encode_utf8 (get_app_secret base), encode_utf8 payload with
  | Ok key, Ok msg => [(signature_header, u "sha256=" ++ HMAC.hexdigest key msg)]
  | _, _ => []
  end.

(** A short body and its keyed hash under the application secret, in
    hexadecimal. *)
Definition short_payload : pystr := json_text "{'object': 'page'}".

Definition short_digest : pystr :=
  u "1cfa5df6189608acd16b616dc05afe0c6e0d2efb0a9f3ce665231a97d45c6f4e".

(** A payment confirmation whose body also carries a status entry. *)
Definition confirmation_payload : pystr :=
  json_text
    ("{'object': 'whatsapp_business_account', 'entry': [{'id': '102290129340398', 'changes': [{'field': 'messages', 'value': {"
     ++ "'metadata': {'display_phone_number': '16315555555'}, "
     ++ "'messages': [{'interactive': {'type': 'payment', 'payment': {'transaction_id': 'txn-1', 'reference_id': 'ref-0001', 'status': 'success'}}}], "
     ++ "'statuses': [{'id': 'wamid.1', 'recipient_id': '919999999999', 'type': 'payment', 'status': 'success', 'timestamp': '1700000000', 'payment': {'reference_id': 'ref-0001'}}]"
     ++ "}}]}]}")%string.

(** A payment status update, with a message that is not interactive. *)
Definition status_payload : pystr :=
  json_text
    ("{'object': 'whatsapp_business_account', 'entry': [{'id': '102290129340398', 'changes': [{'field': 'messages', 'value': {"
     ++ "'metadata': {'display_phone_number': '16315555555'}, "
     ++ "'messages': [{}], "
     ++ "'statuses': [{'id': 'wamid.1', 'recipient_id': '919999999999', 'type': 'payment', 'status': 'success', 'timestamp': '1700000000', 'payment': {'reference_id': 'ref-0001'}}]"
     ++ "}}]}]}")%string.
(** The confirmation again, sent for another account. *)
Definition other_account_payload : pystr :=
  json_text
    ("{'object': 'whatsapp_business_account', 'entry': [{'id': '999', 'changes': [{'field': 'messages', 'value': {"
     ++ "'metadata': {'display_phone_number': '16315555555'}, "
     ++ "'messages': [{'interactive': {'type': 'payment', 'payment': {'transaction_id': 'txn-1', 'reference_id': 'ref-0001', 'status': 'success'}}}]"
     ++ "}}]}]}")%string.

(** A payment status update as the platform sends it, without any
    message. *)
Definition status_only_payload : pystr :=
  json_text
    ("{'object': 'whatsapp_business_account', 'entry': [{'id': '102290129340398', 'changes': [{'field': 'messages', 'value': {"
     ++ "'metadata': {'display_phone_number': '16315555555'}, "
     ++ "'statuses': [{'id': 'wamid.1', 'recipient_id': '919999999999', 'type': 'payment', 'status': 'success', 'timestamp': '1700000000', 'payment': {'reference_id': 'ref-0001'}}]"
     ++ "}}]}]}")%string.

(** [data["entry"][0]["changes"][0]["value"]], whatever the guards say. *)
Definition raw_value (data : json) : result json :=
  (entries <- py_getitem data (u "entry") ;;
   entry <- py_getindex entries 0 ;;
   changes <- py_getitem entry (u "changes") ;;
   change <- py_getindex changes 0 ;;
   py_getitem change (u "value"))%result.

(** The parsed body of a callback and, past the guards on the account
    and the field, its [value]. *)
Definition parsed (payload : pystr) : json :=
  match json_loads payload with
  | Ok data => data
  | Raise _ => JNull
  end.

Definition value_of (payload : pystr) : json :=
  match callback_value base (parsed payload) with
  | Ok (inr value) => value
  | _ => JNull
  end.

(** The first status entry of both bodies. *)
Definition status_entry : json :=
  JDict [(u "id", JStr (u "wamid.1"));
         (u "recipient_id", JStr (u "919999999999"));
         (u "type", JStr (u "payment"));
         (u "status", JStr (u "success"));
         (u "timestamp", JStr (u "1700000000"));
         (u "payment", JDict [(u "reference_id", JStr (u "ref-0001"))])].

(** [value["statuses"][0]] *)
Definition first_status (value : json) : result json :=
  (statuses <- py_getitem value (u "statuses") ;; py_getindex statuses 0)%result.

(** The interactive object of the confirmation. *)
Definition confirmation_interactive : json :=
  JDict [(u "type", JStr (u "payment"));
         (u "payment",
          JDict [(u "transaction_id", JStr (u "txn-1"));
                 (u "reference_id", JStr (u "ref-0001"));
                 (u "status", JStr (u "success"))])].
End Example.

(** ** [send_order_status_msg]

    The status sender prints two lines of its own; a run that may contain
    them records events: the effects above, or one of these lines. *)

Inductive status_output : Type :=
| OrderStatusRequest (request : json)
| OrderStatusResponse (body : json).

Inductive event : Type :=
| Effect (e : effect)
| PrintStatus (o : status_output).

Record run (A : Type) : Type := mk_run {
  returned : result A;
  directory_after : directory;
  events : list event
}.
Arguments mk_run {A} returned directory_after events.
Arguments returned {A} r.
Arguments directory_after {A} r.
Arguments events {A} r.

Definition P (A : Type) : Type := directory -> run A.

(** A computation of [M], run among events. *)
Definition of_M {A : Type} (m : M A) : P A :=
  fun st =>
    let o := m st in
    mk_run (res o) (final o) (map Effect (trace o)).

Definition pbind {A B : Type} (m : P A) (k : A -> P B) : P B :=
  fun st =>
    let r := m st in
    match returned r with
    | Ok a =>
        let r' := k a (directory_after r) in
        mk_run (returned r') (directory_after r') (events r ++ events r')
    | Raise e => mk_run (Raise e) (directory_after r) (events r)
    end.

Declare Scope P_scope.
Delimit Scope P_scope with P.
Notation "x <- m ;; k" := (pbind m (fun x => k))
  (at level 61, m at next level, right associativity) : P_scope.
Notation "m ;; k" := (pbind m (fun _ => k))
  (at level 61, right associativity) : P_scope.

Definition print_status (o : status_output) : P unit :=
  fun st => mk_run (Ok tt) st [PrintStatus o].

Section StatusSender.
Variable net : network.
Variable self : CheckoutBase.

(** Lines 254-268: the dictionary [interactive] of a status message. *)
Definition order_status_interactive (reference_id msg_body status : pystr)
    (desc : option pystr) : json :=
  JDict [(u "type", JStr (u "order_status"));
         (u "body", JDict [(u "text", JStr msg_body)]);
         (u "action",
          JDict [(u "name", JStr (u "review_order"));
                 (u "parameters",
                  JDict [(u "reference_id", JStr reference_id);
                         (u "order",
                          JDict ((u "status", JStr status)
                                 :: opt_entry "description" desc))])])].

(** Lines 269-275 and 279: the request, with [interactive] as given. *)
Definition order_status_request (recipient_phone_number : pystr) (interactive : json) : json :=
  JDict [(u "messaging_product", JStr (u "whatsapp"));
         (u "recipient_type", JStr (u "individual"));
         (u "to", JStr recipient_phone_number);
         (u "type", JStr (u "interactive"));
         (u "interactive", interactive)].

Definition send_order_status_msg (sender_phone_number recipient_phone_number reference_id
                                  msg_body status : pystr) (desc : option pystr) : P unit :=
  (let http_headers := _get_headers self in
   phone_number_id <- of_M (_get_sender_phone_number_id net self sender_phone_number) ;;
   let interactive := order_status_interactive reference_id msg_body status desc in
   print_status (OrderStatusRequest (order_status_request recipient_phone_number interactive)) ;;
   response <- of_M (requests_post net (Messages phone_number_id)
                       (order_status_request recipient_phone_number
                          (JStr (json_dumps interactive)))
                       http_headers) ;;
   body <- of_M (lift (response_json response)) ;;
   print_status (OrderStatusResponse body))%P.
End StatusSender.

(** ** example_util.py *)

Module example_util.
Definition get_example_sale_amount (original_amount_value : Z) : result Amount.t :=
  Amount.__init__ (original_amount_value - 200) VALUE_OFFSET.

Definition get_example_tax_amount : result Amount.t := Amount.__init__ 100 VALUE_OFFSET.

Definition get_example_shipping_amount : result Amount.t := Amount.__init__ 100 VALUE_OFFSET.

Definition get_example_discount_amount : result Amount.t := Amount.__init__ 200 VALUE_OFFSET.

(** The items of [range(number)] from index [i] on, [count] of them. *)
Fixpoint example_items_from (i : Z) (count : nat) (includes_sale_amount : bool)
  : result (list Item.t) :=
  match count with
  | O => Ok []
  | S count' =>
      (amount <- Amount.__init__ (1000 * (i + 1)) VALUE_OFFSET ;;
       sale_amount <- (if includes_sale_amount then
                         sale <- get_example_sale_amount (1000 * (i + 1)) ;; Ok (Some sale)
                       else Ok None) ;;
       rest <- example_items_from (i + 1) count' includes_sale_amount ;;
       Ok (Item.mk (u "Product " ++ str_of_int (i + 1)) amount (i + 1) sale_amount
                   None None None None None
           :: rest))%result
  end.

Definition get_example_items (number : Z) (includes_sale_amount : bool)
  : result (list Item.t) :=
  example_items_from 0 (Z.to_nat number) includes_sale_amount.

Definition get_header (header_text header_image_link : option pystr) : option Header.t :=
  match nonempty header_text, nonempty header_image_link with
  | None, None => None
  | Some _, _ => Some (Header.mk (u "text") header_text None)
  | None, Some _ => Some (Header.mk (u "image") None header_image_link)
  end.
End example_util.

(** ** main.py

    The module [stubs] and the random [generate_reference_id] are not
    part of the model: the instance with its credentials, the two test
    phone numbers and the reference id of the run are given. *)

Module Main.
(** The namespace returned by [parser.parse_args()]: an option declared
    with [nargs=1] holds a list of one value, or [None] when absent. *)
Record arguments : Type := {
  args_goods_type : option pystr;
  args_msg_body : option pystr;
  args_item_number : option Z;
  args_tax_desc : option pystr;
  args_include_sale_amount : bool;
  args_include_shipping_value : bool;
  args_shipping_desc : option pystr;
  args_include_discount_value : bool;
  args_discount_desc : option pystr;
  args_discount_program_name : option pystr;
  args_catalog_id : option pystr;
  args_header_text : option pystr;
  args_header_image_link : option pystr;
  args_footer_text : option pystr;
  args_expiration_in_sec : option pystr;
  args_expiration_desc : option pystr
}.

(** [args.name[0]] *)
Definition first_value {A : Type} (o : option A) : result A :=
  match o with
  | Some x => Ok x
  | None => Raise TypeError
  end.

Definition optional_amount (include : bool) (amount : result Amount.t)
  : result (option Amount.t) :=
  if include then (a <- amount ;; Ok (Some a))%result else Ok None.

Section main.
Variable net : network.
Variable example_base : CheckoutBase.
Variable test_sender_phone_number : pystr.
Variable test_recipient_phone_number : pystr.
Variable generated_reference_id : pystr.

(** Lines 49-72: the arguments of the call of [send_order_details_msg],
    evaluated from left to right. *)
Definition example_order (args : arguments) : result order_details :=
  (goods <- first_value (args_goods_type args) ;;
   body <- first_value (args_msg_body args) ;;
   number <- first_value (args_item_number args) ;;
   example_items <- example_util.get_example_items number (args_include_sale_amount args) ;;
   tax <- example_util.get_example_tax_amount ;;
   shipping <- optional_amount (args_include_shipping_value args)
                        example_util.get_example_shipping_amount ;;
   discount <- optional_amount (args_include_discount_value args)
                        example_util.get_example_discount_amount ;;
   Ok {| goods_type := goods;
         sender_phone_number := test_sender_phone_number;
         recipient_phone_number := test_recipient_phone_number;
         reference_id := generated_reference_id;
         msg_body := body;
         items := example_items;
         tax_amount := Some tax;
         tax_desc := args_tax_desc args;
         shipping_amount := shipping;
         shipping_desc := args_shipping_desc args;
         discount_amount := discount;
         discount_desc := args_discount_desc args;
         discount_program_name := args_discount_program_name args;
         catalog_id := args_catalog_id args;
         msg_header := example_util.get_header (args_header_text args)
                         (args_header_image_link args);
         msg_footer := args_footer_text args;
         expiration_in_sec := args_expiration_in_sec args;
         expiration_desc := args_expiration_desc args |})%result.

Definition main (args : arguments) : P unit :=
  (order <- of_M (lift (example_order args)) ;;
   of_M (send_order_details_msg net example_base order) ;;
   send_order_status_msg net example_base test_sender_phone_number
     test_recipient_phone_number generated_reference_id (u "Order Status Update") (u "processing")
     None ;;
   of_M (get_payment_status net example_base test_sender_phone_number
          (JStr generated_reference_id)))%P.
End main.
End Main.

(** ** The phone directory, as specified *)

(** The digits of a display number, and numbers made of digits only. *)
Definition digits_of (s : pystr) : pystr := filter JSONDecoder.is_digit s.

Definition digits_only (s : pystr) : bool := forallb JSONDecoder.is_digit s.

(** An entry of the directory listing with its display number and its
    identity; other members of the entry do not matter. *)
Definition listed (entry : json) (e : pystr * json) : Prop :=
  py_getitem entry (u "display_phone_number") = Ok (JStr (fst e)) /\
  py_getitem entry (u "id") = Ok (snd e).

(** The cache once the numbers of a listing were stored in order. *)
Definition stored (listing : list (pystr * json)) (st : directory) : directory :=
  fold_left (fun d e => dict_set (digits_of (fst e)) (snd e) d) listing st.

(** The request of the directory and its response. *)
Definition directory_request (self : CheckoutBase) : request :=
  GET (PhoneNumbers (get_waba self)) (_get_headers self).

(** Lines 72-76: the body of the loop of [_load_phone_numbers]. *)
Definition store_entry (d : json) : M unit :=
  (display <- lift (py_getitem d (u "display_phone_number")) ;;
   cs <- lift (py_iter display) ;;
   phone_number <- lift (join_digits cs) ;;
   id <- lift (py_getitem d (u "id")) ;;
   set_entry phone_number id)%M.

(** A cache whose keys are made of digits only. *)
Definition digit_keys (st : directory) : Prop :=
  Forall (fun k => digits_only k = true) (dict_keys st).

(** The requests among the effects of a run, in order, and the messages
    posted among them. *)
Definition requests_of (t : list effect) : list request :=
  flat_map (fun e => match e with Request r => [r] | Print _ => [] end) t.

Definition is_post (r : request) : bool :=
  match r with
  | POST _ _ _ => true
  | GET _ _ => false
  end.

Definition posts_of (t : list effect) : list request := filter is_post (requests_of t).

Definition effects_of (evs : list event) : list effect :=
  flat_map (fun ev => match ev with Effect e => [e] | PrintStatus _ => [] end) evs.

(** A computation that keeps a property of the cache. *)
Definition keeps (I : directory -> Prop) {A : Type} (m : M A) : Prop :=
  forall st, I st -> I (final (m st)).

Module DirectoryExample.
(** The entry of [Example.net] and its listing. *)
Definition entry : json :=
  JDict [(u "display_phone_number", JStr (u "+1 631-555-5555"));
         (u "id", JStr (u "106540352242922"))].

Definition listing : list (pystr * json) :=
  [(u "+1 631-555-5555", JStr (u "106540352242922"))].

(** A directory service that is down. *)
Definition net_down : network := fun _ => mk_response 500 (u "Internal Server Error").

(** A listing whose second entry has no display number. *)
Definition net_partial : network :=
  fun r =>
    match r with
    | GET (PhoneNumbers _) _ =>
        mk_response 200
          (json_text "{'data': [{'display_phone_number': '+1 631-555-5555', 'id': '106540352242922'}, {'id': '42'}]}")
    | _ => mk_response 200 (json_text "{}")
    end.
(** An order whose sender is written as the directory displays it. *)
Definition formatted_sender : order_details :=
  {| goods_type := u "digital-goods";
     sender_phone_number := u "+1 631-555-5555";
     recipient_phone_number := u "919999999999";
     reference_id := u "ref-0001";
     msg_body := u "Your order";
     items := [Example.item "A" 1000 2];
     tax_amount := None;
     tax_desc := None;
     shipping_amount := None;
     shipping_desc := None;
     discount_amount := None;
     discount_desc := None;
     discount_program_name := None;
     catalog_id := None;
     msg_header := None;
     msg_footer := None;
     expiration_in_sec := None;
     expiration_desc := None |}.
(** A service that lists the number and answers every other request with
    a text that is not JSON. *)
Definition net_plain_reply : network :=
  fun r =>
    match r with
    | GET (PhoneNumbers _) _ => Example.net r
    | _ => mk_response 200 (u "OK")
    end.
End DirectoryExample.

(** ** The examples of a run of [main] *)

Module MainExample.
(** [--goods_type digital-goods --msg_body "Your order" --item_number 2
    --include_sale_amount --include_shipping_value --header_text Hello] *)
Definition args : Main.arguments :=
  {| Main.args_goods_type := Some (u "digital-goods");
     Main.args_msg_body := Some (u "Your order");
     Main.args_item_number := Some 2;
     Main.args_tax_desc := None;
     Main.args_include_sale_amount := true;
     Main.args_include_shipping_value := true;
     Main.args_shipping_desc := None;
     Main.args_include_discount_value := false;
     Main.args_discount_desc := None;
     Main.args_discount_program_name := None;
     Main.args_catalog_id := None;
     Main.args_header_text := Some (u "Hello");
     Main.args_header_image_link := None;
     Main.args_footer_text := None;
     Main.args_expiration_in_sec := None;
     Main.args_expiration_desc := None |}.

(** The same call with [--item_number 0]. *)
Definition no_items : Main.arguments :=
  {| Main.args_goods_type := Some (u "digital-goods");
     Main.args_msg_body := Some (u "Your order");
     Main.args_item_number := Some 0;
     Main.args_tax_desc := None;
     Main.args_include_sale_amount := true;
     Main.args_include_shipping_value := true;
     Main.args_shipping_desc := None;
     Main.args_include_discount_value := false;
     Main.args_discount_desc := None;
     Main.args_discount_program_name := None;
     Main.args_catalog_id := None;
     Main.args_header_text := Some (u "Hello");
     Main.args_header_image_link := None;
     Main.args_footer_text := None;
     Main.args_expiration_in_sec := None;
     Main.args_expiration_desc := None |}.

Definition recipient : pystr := u "919999999999".

Definition reference : pystr := u "ref-0001".

(** An order with a catalog, a footer, an image header and an expiration
    description without a timestamp. *)
Definition decorated : order_details :=
  {| goods_type := u "digital-goods";
     sender_phone_number := Example.sender;
     recipient_phone_number := recipient;
     reference_id := reference;
     msg_body := u "Your order";
     items := [Example.item "A" 1000 2];
     tax_amount := None;
     tax_desc := None;
     shipping_amount := None;
     shipping_desc := None;
     discount_amount := None;
     discount_desc := None;
     discount_program_name := None;
     catalog_id := Some (u "catalog-7");
     msg_header := Some (Header.mk (u "image") None (Some (u "https://example.com/a.png")));
     msg_footer := Some [];
     expiration_in_sec := None;
     expiration_desc := Some (u "soon") |}.
End MainExample.

(** ** Decimal numerals *)

(** The digits of a decimal numeral as code points. *)
Fixpoint uint_codes (d : Decimal.uint) : pystr :=
  match d with
  | Decimal.Nil => []
  | Decimal.D0 l => 48 :: uint_codes l
  | Decimal.D1 l => 49 :: uint_codes l
  | Decimal.D2 l => 50 :: uint_codes l
  | Decimal.D3 l => 51 :: uint_codes l
  | Decimal.D4 l => 52 :: uint_codes l
  | Decimal.D5 l => 53 :: uint_codes l
  | Decimal.D6 l => 54 :: uint_codes l
  | Decimal.D7 l => 55 :: uint_codes l
  | Decimal.D8 l => 56 :: uint_codes l
  | Decimal.D9 l => 57 :: uint_codes l
  end.

(** * Properties *)

(** ** Strings *)

Lemma str_eqb_eq (a b : pystr) : str_eqb a b = true <-> a = b.
Proof.
  revert b; induction a as [|x a IH]; intros [|y b]; simpl; split; intros H;
    try reflexivity; try discriminate.
  - apply andb_true_iff in H as [Hx Ha].
    apply Z.eqb_eq in Hx. apply IH in Ha. now subst.
  - inversion H; subst. rewrite Z.eqb_refl. simpl. now apply IH.
Qed.

Lemma str_eqb_refl (a : pystr) : str_eqb a a = true.
Proof. now apply str_eqb_eq. Qed.

Lemma str_eqb_neq (a b : pystr) : a <> b -> str_eqb a b = false.
Proof.
  intros H. destruct (str_eqb a b) eqn:E; [|reflexivity].
  apply str_eqb_eq in E. contradiction.
Qed.

Lemma startswith_app (p s : pystr) : startswith p (p ++ s) = true.
Proof. induction p as [|x p IH]; simpl; [reflexivity|]. now rewrite Z.eqb_refl. Qed.

Lemma removeprefix_app (p s : pystr) : removeprefix p (p ++ s) = s.
Proof.
  unfold removeprefix. rewrite startswith_app.
  induction p as [|x p IH]; simpl; auto.
Qed.

Lemma isascii_app (a b : pystr) : isascii (a ++ b) = isascii a && isascii b.
Proof. apply forallb_app. Qed.

Lemma hex_digit_cases (n : Z) : In (hex_digit n) (ord "?" :: u "0123456789abcdef").
Proof.
  unfold hex_digit.
  destruct (nth_in_or_default (Z.to_nat n) (u "0123456789abcdef") (ord "?")) as [H|H].
  - now right.
  - left. now rewrite H.
Qed.

Lemma hex_digit_ascii (n : Z) : isascii [hex_digit n] = true.
Proof.
  pose proof (hex_digit_cases n) as H. simpl in H.
  repeat (destruct H as [H|H]; [rewrite <- H; reflexivity|]). contradiction.
Qed.

Lemma hex_digit_not_s (n : Z) : (hex_digit n =? 115) = false.
Proof.
  pose proof (hex_digit_cases n) as H. simpl in H.
  repeat (destruct H as [H|H]; [rewrite <- H; reflexivity|]). contradiction.
Qed.

Lemma hex_bytes_ascii (bytes : list Z) : isascii (flat_map HMAC.hex_byte bytes) = true.
Proof.
  induction bytes as [|b bytes IH]; [reflexivity|].
  change (flat_map HMAC.hex_byte (b :: bytes))
    with ([hex_digit (b / 16)] ++ [hex_digit (b mod 16)] ++ flat_map HMAC.hex_byte bytes).
  now rewrite !isascii_app, !hex_digit_ascii, IH.
Qed.

Lemma hexdigest_ascii (key msg : list Z) : isascii (HMAC.hexdigest key msg) = true.
Proof. apply hex_bytes_ascii. Qed.

(** A hexadecimal digest never starts with ["sha256="]. *)
Lemma hexdigest_keeps_prefix (key msg : list Z) :
  removeprefix (u "sha256=") (HMAC.hexdigest key msg) = HMAC.hexdigest key msg.
Proof.
  unfold HMAC.hexdigest, removeprefix.
  destruct (HMAC.digest key msg) as [|b bytes]; [reflexivity|].
  change (flat_map HMAC.hex_byte (b :: bytes))
    with (hex_digit (b / 16) :: hex_digit (b mod 16) :: flat_map HMAC.hex_byte bytes).
  change (u "sha256=") with (115 :: u "ha256=").
  cbn [startswith]. rewrite Z.eqb_sym, hex_digit_not_s. reflexivity.
Qed.

Lemma compare_digest_ascii (a b : pystr) :
  isascii a = true -> isascii b = true -> HMAC.compare_digest a b = Ok (str_eqb a b).
Proof. intros Ha Hb. unfold HMAC.compare_digest. now rewrite Ha, Hb. Qed.

(** ** [Amount] *)

Lemma Amount_init_ok (value offset : Z) (a : Amount.t) :
  Amount.__init__ value offset = Ok a ->
  a = Amount.mk value offset /\ offset = 100 /\ value mod 100 = 0.
Proof.
  unfold Amount.__init__, VALUE_OFFSET.
  destruct (Z.eqb_spec offset 100) as [Ho|Ho]; simpl; [|discriminate].
  destruct (Z.eqb_spec (value mod 100) 0) as [Hv|Hv]; simpl; [|discriminate].
  intros H; inversion H; subst. auto.
Qed.

Lemma Amount_init_valid (value : Z) :
  value mod 100 = 0 -> Amount.__init__ value 100 = Ok (Amount.mk value 100).
Proof.
  intros Hv. unfold Amount.__init__, VALUE_OFFSET. simpl.
  now rewrite Hv.
Qed.

(** C9: [Amount.__init__] raises [ValueError] for an offset other than 100
    and for a value that is not a multiple of 100; an amount it returns
    has offset 100 and a value divisible by 100. *)
Theorem Amount_init_validates :
  forall value offset : Z,
    VALUE_OFFSET = 100 /\
    (offset <> 100 ->
     Amount.__init__ value offset = Raise (ValueError (u "Offset must be 100"))) /\
    (value mod 100 <> 0 ->
     exists msg, Amount.__init__ value offset = Raise (ValueError msg)) /\
    (offset = 100 -> value mod 100 <> 0 ->
     Amount.__init__ value offset = Raise (ValueError (u "Value must be a multiple of 100"))) /\
    (forall a, Amount.__init__ value offset = Ok a ->
               a = Amount.mk value offset /\ Amount.offset a = 100 /\ (100 | Amount.value a)).
Proof.
  intros value offset. unfold Amount.__init__, VALUE_OFFSET.
  split; [reflexivity|].
  destruct (Z.eqb_spec offset 100) as [Ho|Ho]; simpl;
    destruct (Z.eqb_spec (value mod 100) 0) as [Hv|Hv]; simpl;
    repeat split; intros; try contradiction; try discriminate; eauto.
  - congruence.
  - match goal with H : Ok _ = Ok _ |- _ => inversion H; subst end. reflexivity.
  - match goal with H : Ok _ = Ok _ |- _ => inversion H; subst end.
    simpl. apply Z.mod_divide; [lia | assumption].
Qed.

Lemma Amount_init_validates_witness :
  Amount.__init__ 1000 10 = Raise (ValueError (u "Offset must be 100")) /\
  Amount.__init__ 1050 100 = Raise (ValueError (u "Value must be a multiple of 100")) /\
  (Amount.offset (Amount.mk 1000 100) = 100 /\ (100 | Amount.value (Amount.mk 1000 100))).
Proof.
  split; [|split].
  - apply (proj1 (proj2 (Amount_init_validates 1000 10))). lia.
  - apply (proj1 (proj2 (proj2 (proj2 (Amount_init_validates 1050 100))))).
    + reflexivity.
    + vm_compute. discriminate.
  - apply (proj2 (proj2 (proj2 (proj2 (Amount_init_validates 1000 100))))
             (Amount.mk 1000 100) eq_refl).
Defined.

Lemma constructed_valid (a : Amount.t) :
  constructed a -> Amount.offset a = 100 /\ (100 | Amount.value a).
Proof.
  intros (value & offset & H). apply Amount_init_ok in H as (-> & -> & Hv).
  simpl. split; [reflexivity|]. apply Z.mod_divide; [lia | assumption].
Qed.

(** ** [verify_webhook] *)

Lemma verify_webhook_compare (self : CheckoutBase) (headers : list (pystr * pystr))
    (payload : pystr) (key msg : list Z) (h : pystr) :
  encode_utf8 (get_app_secret self) = Ok key ->
  encode_utf8 payload = Ok msg ->
  dict_get signature_header headers = Some h ->
  verify_webhook self headers payload =
  HMAC.compare_digest (removeprefix (u "sha256=") h) (HMAC.hexdigest key msg).
Proof.
  intros Hk Hm Hh. unfold verify_webhook. unfold signature_header in Hh.
  rewrite Hh, Hk, Hm. reflexivity.
Qed.

Lemma verify_webhook_absent (self : CheckoutBase) (headers : list (pystr * pystr))
    (payload : pystr) :
  dict_get signature_header headers = None ->
  verify_webhook self headers payload = Raise KeyError.
Proof.
  intros Hh. unfold verify_webhook. unfold signature_header in Hh. now rewrite Hh.
Qed.

(** C3, as amended: with the header equal to ["sha256="] followed by the
    hexadecimal digest of the body [verify_webhook] returns true, and it
    returns true as well for the bare digest without the prefix, since
    [removeprefix] leaves such a header unchanged; it returns false for
    ["sha256="] followed by any other ASCII text, in particular by the
    hexadecimal form of any other digest, and for any other ASCII header
    without the prefix. *)
Theorem verify_webhook_strips_optional_prefix :
  forall (self : CheckoutBase) (headers : list (pystr * pystr)) (payload : pystr)
         (key msg : list Z) (h : pystr),
    encode_utf8 (get_app_secret self) = Ok key ->
    encode_utf8 payload = Ok msg ->
    dict_get signature_header headers = Some h ->
    (h = u "sha256=" ++ HMAC.hexdigest key msg ->
     verify_webhook self headers payload = Ok true) /\
    (h = HMAC.hexdigest key msg ->
     verify_webhook self headers payload = Ok true) /\
    (forall d, h = u "sha256=" ++ d -> isascii d = true -> d <> HMAC.hexdigest key msg ->
               verify_webhook self headers payload = Ok false) /\
    (forall bytes, h = u "sha256=" ++ flat_map HMAC.hex_byte bytes ->
                   flat_map HMAC.hex_byte bytes <> HMAC.hexdigest key msg ->
                   verify_webhook self headers payload = Ok false) /\
    (startswith (u "sha256=") h = false -> isascii h = true ->
     h <> HMAC.hexdigest key msg ->
     verify_webhook self headers payload = Ok false).
Proof.
  intros self headers payload key msg h Hk Hm Hh.
  rewrite (verify_webhook_compare self headers payload key msg h Hk Hm Hh).
  pose proof (hexdigest_ascii key msg) as Hascii.
  repeat split.
  - intros ->. rewrite removeprefix_app, compare_digest_ascii by assumption.
    now rewrite str_eqb_refl.
  - intros ->. rewrite hexdigest_keeps_prefix, compare_digest_ascii by assumption.
    now rewrite str_eqb_refl.
  - intros d -> Hd Hne. rewrite removeprefix_app, compare_digest_ascii by assumption.
    now rewrite str_eqb_neq.
  - intros bytes -> Hne.
    rewrite removeprefix_app, compare_digest_ascii by (assumption || apply hex_bytes_ascii).
    now rewrite str_eqb_neq.
  - intros Hp Hd Hne. unfold removeprefix. rewrite Hp.
    rewrite compare_digest_ascii by assumption. now rewrite str_eqb_neq.
Qed.

Lemma verify_webhook_strips_optional_prefix_witness :
  encode_utf8 (get_app_secret Example.base) = Ok (u "app-secret") /\
  encode_utf8 Example.short_payload = Ok Example.short_payload /\
  HMAC.hexdigest (u "app-secret") Example.short_payload = Example.short_digest /\
  verify_webhook Example.base
    [(signature_header, u "sha256=" ++ Example.short_digest)] Example.short_payload
  = Ok true.
Proof.
  assert (Hk : encode_utf8 (get_app_secret Example.base) = Ok (u "app-secret"))
    by (vm_compute; reflexivity).
  assert (Hm : encode_utf8 Example.short_payload = Ok Example.short_payload)
    by (vm_compute; reflexivity).
  assert (Hd : HMAC.hexdigest (u "app-secret") Example.short_payload = Example.short_digest)
    by (vm_compute; reflexivity).
  split; [exact Hk|]. split; [exact Hm|]. split; [exact Hd|].
  apply (proj1 (verify_webhook_strips_optional_prefix Example.base
                  [(signature_header, u "sha256=" ++ Example.short_digest)]
                  Example.short_payload (u "app-secret") Example.short_payload
                  (u "sha256=" ++ Example.short_digest) Hk Hm eq_refl)).
  now rewrite Hd.
Defined.

(** C3, the claim as stated fails: the header that carries the digest
    without ["sha256="] is accepted. *)
Lemma verify_webhook_accepts_bare_digest :
  HMAC.hexdigest (u "app-secret") Example.short_payload = Example.short_digest /\
  startswith (u "sha256=") Example.short_digest = false /\
  verify_webhook Example.base [(signature_header, Example.short_digest)] Example.short_payload
  = Ok true.
Proof. vm_compute. repeat split; reflexivity. Qed.

(** C4: without an [X-Hub-Signature-256] entry [verify_webhook] raises
    [KeyError] instead of returning false, and [handle_webhook_call] ends
    with that exception before printing anything; a signature with a
    character outside ASCII raises [TypeError]. *)
Theorem verify_webhook_raises_on_absent_header :
  forall (net : network) (self : CheckoutBase) (payload : pystr) (st : directory),
    verify_webhook self [] payload = Raise KeyError /\
    handle_webhook_call net self [] payload st = mk_outcome (Raise KeyError) st [] /\
    verify_webhook Example.base [(signature_header, [233])] Example.short_payload
    = Raise TypeError.
Proof.
  intros net self payload st. split; [reflexivity|]. split; [reflexivity|].
  vm_compute. reflexivity.
Qed.

(** ** Dictionaries *)

Lemma dict_get_here {V : Type} (k k' : pystr) (v : V) (d : list (pystr * V)) :
  str_eqb k k' = true -> dict_get k ((k', v) :: d) = Some v.
Proof. intros H. simpl. now rewrite H. Qed.

Lemma dict_get_skip {V : Type} (k k' : pystr) (v : V) (d : list (pystr * V)) :
  str_eqb k k' = false -> dict_get k ((k', v) :: d) = dict_get k d.
Proof. intros H. simpl. now rewrite H. Qed.

Lemma dict_get_app {V : Type} (k : pystr) (d1 d2 : list (pystr * V)) :
  dict_get k (d1 ++ d2) =
  match dict_get k d1 with
  | Some v => Some v
  | None => dict_get k d2
  end.
Proof.
  induction d1 as [|[k' v] d1 IH]; [reflexivity|].
  simpl. now destruct (str_eqb k k').
Qed.

Lemma dict_get_opt_entry_other (k : pystr) (k' : string) (o : option pystr) :
  str_eqb k (u k') = false -> dict_get k (opt_entry k' o) = None.
Proof.
  intros H. unfold opt_entry. destruct (nonempty o); [|reflexivity].
  now rewrite dict_get_skip by assumption.
Qed.

Lemma dict_get_expiration_other (k : pystr) (e d : option pystr) :
  str_eqb k (u "expiration") = false -> dict_get k (expiration_block e d) = None.
Proof.
  intros H. unfold expiration_block. destruct (nonempty e); [|reflexivity].
  now rewrite dict_get_skip by assumption.
Qed.

Lemma dict_get_amount_block_other (k : pystr) (key : string) (amount : option Amount.t)
    (offset : Z) (extra : list (pystr * json)) :
  str_eqb k (u key) = false -> dict_get k (amount_block key amount offset extra) = None.
Proof.
  intros H. unfold amount_block. destruct amount; [|reflexivity].
  now rewrite dict_get_skip by assumption.
Qed.

Lemma get_path_step (k : string) (rest : list string) (d : list (pystr * json)) :
  get_path (k :: rest) (JDict d) =
  match dict_get (u k) d with
  | Some v => get_path rest v
  | None => None
  end.
Proof. reflexivity. Qed.

(** ** The loop over the items *)

Lemma items_loop_ok (offset : Z) (items : list Item.t) :
  forall (total : Z) (item_list : list json) (total' : Z) (item_list' : list json),
    items_loop offset items total item_list = Ok (total', item_list') ->
    total' = total + sum_effective items /\
    item_list' = item_list ++ map item_dict items /\
    Forall (fun item => Amount.offset (effective_amount item) = offset) items.
Proof.
  induction items as [|item rest IH]; intros total item_list total' item_list' H; simpl in H.
  - inversion H; subst. simpl. rewrite app_nil_r. repeat split; [lia | constructor].
  - destruct (Z.eqb_spec offset (Amount.offset (effective_amount item))) as [Ho|Ho];
      simpl in H; [|discriminate].
    apply IH in H as (Ht & Hl & Hf). simpl. repeat split.
    + lia.
    + now rewrite Hl, <- app_assoc.
    + constructor; [now symmetry | assumption].
Qed.

Lemma items_loop_same_offset (offset : Z) (items : list Item.t) :
  Forall (fun item => Amount.offset (effective_amount item) = offset) items ->
  forall (total : Z) (item_list : list json),
    items_loop offset items total item_list
    = Ok (total + sum_effective items, item_list ++ map item_dict items).
Proof.
  induction 1 as [|item rest Ho _ IH]; intros total item_list; simpl.
  - now rewrite Z.add_0_r, app_nil_r.
  - rewrite Ho, Z.eqb_refl. simpl. rewrite IH, <- app_assoc. simpl.
    f_equal. f_equal. lia.
Qed.

Lemma items_loop_mismatch (offset : Z) (items : list Item.t) (item : Item.t) :
  In item items ->
  Amount.offset (effective_amount item) <> offset ->
  forall (total : Z) (item_list : list json),
    items_loop offset items total item_list
    = Raise (ValueError (u "Item amount must have the same offset as others")).
Proof.
  induction items as [|item' rest IH]; intros Hin Hne total item_list; [contradiction|].
  simpl. destruct (Z.eqb_spec offset (Amount.offset (effective_amount item'))) as [Ho|Ho];
    simpl; [|reflexivity].
  destruct Hin as [->|Hin]; [congruence|]. now apply IH.
Qed.

Lemma sum_effective_app (l1 l2 : list Item.t) :
  sum_effective (l1 ++ l2) = sum_effective l1 + sum_effective l2.
Proof. induction l1 as [|item l1 IH]; simpl; lia. Qed.

Lemma sum_effective_divisible (items : list Item.t) :
  Forall item_constructed items -> (100 | sum_effective items).
Proof.
  induction 1 as [|item rest [Ha Hs] _ IH]; simpl.
  - apply Z.divide_0_r.
  - apply Z.divide_add_r; [|assumption]. apply Z.divide_mul_l.
    unfold effective_amount. destruct (Item.sale_amount item) as [sale|].
    + now apply constructed_valid.
    + now apply constructed_valid.
Qed.

Lemma effective_offset_constructed (item : Item.t) :
  item_constructed item -> Amount.offset (effective_amount item) = 100.
Proof.
  intros [Ha Hs]. unfold effective_amount. destruct (Item.sale_amount item) as [sale|].
  - now apply constructed_valid.
  - now apply constructed_valid.
Qed.

Lemma amount_value_divisible (o : option Amount.t) :
  constructed_opt o -> (100 | amount_value o).
Proof.
  destruct o as [a|]; simpl; intros H.
  - now apply constructed_valid.
  - apply Z.divide_0_r.
Qed.

Lemma dict_get_nil {V : Type} (k : pystr) : dict_get k (@nil (pystr * V)) = None.
Proof. reflexivity. Qed.

Lemma dict_get_amount_block (key : string) (amount : option Amount.t) (offset : Z)
    (extra : list (pystr * json)) :
  dict_get (u key) (amount_block key amount offset extra) = expected_block amount offset extra.
Proof.
  unfold amount_block, expected_block. destruct amount; [|reflexivity].
  now rewrite dict_get_here by apply str_eqb_refl.
Qed.

(** ** The built payload *)

Lemma order_details_interactive_ok (self : CheckoutBase) (a : order_details)
    (interactive : json) :
  order_details_interactive self a = Ok interactive ->
  exists (first : Item.t) (rest : list Item.t),
    let offset := Amount.offset (Item.amount first) in
    items a = first :: rest /\
    Forall (fun item => Amount.offset (effective_amount item) = offset) (items a) /\
    offset = 100 /\
    order_total a mod 100 = 0 /\
    emitted_subtotal interactive =
      Some (JDict [(u "value", JInt (sum_effective (items a))); (u "offset", JInt offset)]) /\
    emitted_total_amount interactive =
      Some (JStr (Amount.toJSON (Amount.mk (order_total a) offset))) /\
    emitted_order_block "items" interactive = Some (JList (map item_dict (items a))) /\
    emitted_order_block "tax" interactive =
      expected_block (tax_amount a) offset (opt_entry "description" (tax_desc a)) /\
    emitted_order_block "shipping" interactive =
      expected_block (shipping_amount a) offset (opt_entry "description" (shipping_desc a)) /\
    emitted_order_block "discount" interactive =
      expected_block (discount_amount a) offset
        (opt_entry "description" (discount_desc a)
         ++ opt_entry "discount_program_name" (discount_program_name a)).
Proof.
  intros H. unfold order_details_interactive, rbind in H.
  destruct (header_block (msg_header a)) as [header|] eqn:Hh; [|discriminate].
  unfold order_total.
  destruct (items a) as [|first rest] eqn:Hi; [discriminate|].
  destruct (items_loop _ _ _ _) as [[subtotal item_list]|] eqn:Hl; [|discriminate].
  destruct (Amount.__init__ _ _) as [total_amount|] eqn:Ha; [|discriminate].
  apply items_loop_ok in Hl as (Hs & Hil & Hf). simpl in Hs, Hil. subst subtotal item_list.
  apply Amount_init_ok in Ha as (-> & Ho & Hm).
  inversion H; subst interactive; clear H.
  exists first, rest. cbv zeta.
  unfold emitted_subtotal, emitted_total_amount, emitted_order_block.
  repeat split; try assumption;
    repeat first
      [ rewrite get_path_step
      | rewrite dict_get_amount_block
      | rewrite dict_get_here by reflexivity
      | rewrite dict_get_skip by reflexivity
      | rewrite dict_get_nil
      | rewrite dict_get_app
      | rewrite dict_get_opt_entry_other by reflexivity
      | rewrite dict_get_expiration_other by reflexivity
      | rewrite dict_get_amount_block_other by reflexivity
      | progress cbv beta iota ];
    try reflexivity.
  all: now destruct (expected_block _ _ _).
Qed.

Lemma header_block_raises_value_error (h : option Header.t) (e : exn) :
  header_block h = Raise e -> exists msg, e = ValueError msg.
Proof.
  unfold header_block. destruct h as [h|]; [|discriminate].
  destruct (str_eqb (Header.type h) (u "text")), (nonempty (Header.text h));
    destruct (str_eqb (Header.type h) (u "image")), (nonempty (Header.image_link h));
    intros H; inversion H; eauto.
Qed.

Lemma order_details_interactive_builds (self : CheckoutBase) (a : order_details)
    (header : list (pystr * json)) (first : Item.t) (rest : list Item.t) :
  header_block (msg_header a) = Ok header ->
  items a = first :: rest ->
  Forall (fun item => Amount.offset (effective_amount item) = Amount.offset (Item.amount first))
         (items a) ->
  Amount.offset (Item.amount first) = 100 ->
  order_total a mod 100 = 0 ->
  exists interactive, order_details_interactive self a = Ok interactive.
Proof.
  intros Hh Hi Hf Ho Hm. unfold order_details_interactive, rbind.
  unfold order_total in Hm. rewrite Hh.
  destruct (items a) as [|first' rest'] eqn:Hi'; [discriminate|].
  inversion Hi; subst first' rest'.
  rewrite (items_loop_same_offset _ _ Hf). rewrite Z.add_0_l, Ho.
  rewrite (Amount_init_valid _ Hm). eauto.
Qed.

Lemma order_details_interactive_mismatch (self : CheckoutBase) (a : order_details)
    (first : Item.t) (rest : list Item.t) (item : Item.t) :
  items a = first :: rest ->
  In item (items a) ->
  Amount.offset (effective_amount item) <> Amount.offset (Item.amount first) ->
  exists msg, order_details_interactive self a = Raise (ValueError msg).
Proof.
  intros Hi Hin Hne. unfold order_details_interactive, rbind.
  destruct (header_block (msg_header a)) as [header|e] eqn:Hh.
  - destruct (items a) as [|first' rest'] eqn:Hi'; [discriminate|].
    inversion Hi; subst first' rest'.
    rewrite (items_loop_mismatch _ _ item Hin Hne). eauto.
  - apply header_block_raises_value_error in Hh as [msg ->]. eauto.
Qed.

(** ** Runs and their traces *)

Lemma trace_bind {A B : Type} (m : M A) (k : A -> M B) (st : directory) :
  trace (bind m k st) =
  trace (m st) ++
  match res (m st) with
  | Ok a => trace (k a (final (m st)))
  | Raise _ => []
  end.
Proof.
  unfold bind. destruct (res (m st)); simpl; [reflexivity | now rewrite app_nil_r].
Qed.

Lemma bind_run {A B : Type} (m : M A) (k : A -> M B) (st : directory) :
  bind m k st =
  match res (m st) with
  | Ok a =>
      mk_outcome (res (k a (final (m st)))) (final (k a (final (m st))))
                 (trace (m st) ++ trace (k a (final (m st))))
  | Raise e => mk_outcome (Raise e) (final (m st)) (trace (m st))
  end.
Proof. reflexivity. Qed.

Lemma res_bind {A B : Type} (m : M A) (k : A -> M B) (st : directory) :
  res (bind m k st) =
  match res (m st) with
  | Ok a => res (k a (final (m st)))
  | Raise e => Raise e
  end.
Proof. unfold bind. now destruct (res (m st)). Qed.

Lemma final_bind {A B : Type} (m : M A) (k : A -> M B) (st : directory) :
  final (bind m k st) =
  match res (m st) with
  | Ok a => final (k a (final (m st)))
  | Raise e => final (m st)
  end.
Proof. unfold bind. now destruct (res (m st)). Qed.

Lemma silent_ret {A : Type} (a : A) : silent (ret a).
Proof. intros st. reflexivity. Qed.

Lemma silent_raise {A : Type} (e : exn) : silent (@raise A e).
Proof. intros st. reflexivity. Qed.

Lemma silent_lift {A : Type} (r : result A) : silent (lift r).
Proof. intros st. reflexivity. Qed.

Lemma silent_get_directory : silent get_directory.
Proof. intros st. reflexivity. Qed.

Lemma silent_set_entry (k : pystr) (v : json) : silent (set_entry k v).
Proof. intros st. reflexivity. Qed.

Lemma silent_bind {A B : Type} (m : M A) (k : A -> M B) :
  silent m -> (forall a, silent (k a)) -> silent (bind m k).
Proof.
  intros Hm Hk st. rewrite trace_bind, Hm. destruct (res (m st)); [apply Hk | reflexivity].
Qed.

Lemma silent_for_each {A : Type} (l : list A) (body : A -> M unit) :
  (forall x, silent (body x)) -> silent (for_each l body).
Proof.
  intros Hb. induction l as [|x l IH]; simpl.
  - apply silent_ret.
  - apply silent_bind; [apply Hb | intros _; exact IH].
Qed.

Ltac solve_silent :=
  repeat first
    [ apply silent_ret | apply silent_raise | apply silent_lift
    | apply silent_get_directory | apply silent_set_entry
    | apply silent_for_each; intros
    | apply silent_bind; intros
    | match goal with
      | |- silent (if ?b then _ else _) => destruct b
      | |- silent (match ?x with _ => _ end) => destruct x
      end ].

Lemma _load_phone_numbers_trace (net : network) (self : CheckoutBase) (st : directory) :
  trace (_load_phone_numbers net self st)
  = [Request (GET (PhoneNumbers (get_waba self)) (_get_headers self))].
Proof.
  unfold _load_phone_numbers. rewrite trace_bind.
  cbn [requests_get res final trace].
  match goal with |- _ ++ trace (?k st) = _ => assert (Hs : silent k) by solve_silent end.
  now rewrite Hs.
Qed.

(** The sender lookup fetches the directory exactly when the cache is
    empty, and does nothing else. *)
Lemma _get_sender_phone_number_id_trace (net : network) (self : CheckoutBase)
    (phone_number : pystr) (st : directory) :
  trace (_get_sender_phone_number_id net self phone_number st) =
  match st with
  | [] => [Request (GET (PhoneNumbers (get_waba self)) (_get_headers self))]
  | _ :: _ => []
  end.
Proof.
  unfold _get_sender_phone_number_id. rewrite trace_bind.
  cbn [get_directory res final trace app]. rewrite trace_bind.
  assert (Hs : silent (bind get_directory
                         (fun map1 =>
                            match dict_get phone_number map1 with
                            | Some id => ret id
                            | None => raise KeyError
                            end))) by solve_silent.
  destruct st as [|entry st].
  - rewrite _load_phone_numbers_trace.
    destruct (res (_load_phone_numbers net self [])); [now rewrite Hs | reflexivity].
  - cbn [ret res final trace app]. apply Hs.
Qed.

Lemma send_order_details_msg_run (net : network) (self : CheckoutBase) (a : order_details)
    (st : directory) :
  send_order_details_msg net self a st =
  let lookup := _get_sender_phone_number_id net self (sender_phone_number a) st in
  match res lookup with
  | Raise e => mk_outcome (Raise e) (final lookup) (trace lookup)
  | Ok id =>
      match order_details_interactive self a with
      | Raise e => mk_outcome (Raise e) (final lookup) (trace lookup)
      | Ok interactive =>
          let post :=
            POST (Messages id) (order_details_request a (JStr (json_dumps interactive)))
                 (_get_headers self) in
          mk_outcome
            (match response_json (net post) with
             | Ok _ => Ok tt
             | Raise e => Raise e
             end)
            (final lookup)
            (trace lookup
             ++ Print (OrderDetailsRequest (order_details_request a interactive))
             :: Request post
             :: match response_json (net post) with
                | Ok body => [Print (OrderDetailsResponse body)]
                | Raise _ => []
                end)
      end
  end.
Proof.
  cbv zeta. unfold send_order_details_msg. rewrite bind_run.
  destruct (res (_get_sender_phone_number_id net self (sender_phone_number a) st));
    [|reflexivity].
  rewrite bind_run. cbn [lift res final trace].
  destruct (order_details_interactive self a) as [interactive|e];
    [|now rewrite app_nil_r].
  rewrite !bind_run. cbn [print requests_post lift res final trace app].
  destruct (response_json _); cbn [res final trace app]; reflexivity.
Qed.

Lemma _get_sender_phone_number_id_no_post (net : network) (self : CheckoutBase)
    (phone_number : pystr) (st : directory) (url : endpoint) (data : json)
    (headers : list (pystr * pystr)) :
  ~ In (Request (POST url data headers))
       (trace (_get_sender_phone_number_id net self phone_number st)).
Proof.
  rewrite _get_sender_phone_number_id_trace.
  destruct st; simpl; [intros [H|[]]; discriminate | tauto].
Qed.

(** What is posted is the request built around the dictionary
    [interactive] of the order. *)
Lemma send_order_details_msg_posts (net : network) (self : CheckoutBase) (a : order_details)
    (st : directory) (url : endpoint) (data : json) (headers : list (pystr * pystr)) :
  In (Request (POST url data headers)) (trace (send_order_details_msg net self a st)) ->
  exists interactive,
    order_details_interactive self a = Ok interactive /\
    data = order_details_request a (JStr (json_dumps interactive)).
Proof.
  rewrite send_order_details_msg_run. cbv zeta.
  pose proof (_get_sender_phone_number_id_no_post net self (sender_phone_number a) st
                url data headers) as Hno.
  destruct (res _) as [id|e]; cbn [trace]; [|contradiction].
  destruct (order_details_interactive self a) as [interactive|e]; cbn [trace];
    [|contradiction].
  intros H. apply in_app_or in H as [H|H]; [contradiction|].
  destruct H as [H|[H|H]]; [discriminate| |].
  - inversion H; subst. eauto.
  - destruct (response_json _); simpl in H; [destruct H as [H|[]]; discriminate | contradiction].
Qed.

Lemma send_order_details_msg_fails (net : network) (self : CheckoutBase) (a : order_details)
    (st : directory) (e : exn) :
  order_details_interactive self a = Raise e ->
  (exists e', res (send_order_details_msg net self a st) = Raise e') /\
  trace (send_order_details_msg net self a st)
  = trace (_get_sender_phone_number_id net self (sender_phone_number a) st) /\
  (forall id, res (_get_sender_phone_number_id net self (sender_phone_number a) st) = Ok id ->
              res (send_order_details_msg net self a st) = Raise e).
Proof.
  intros H. rewrite send_order_details_msg_run. cbv zeta. rewrite H.
  destruct (res (_get_sender_phone_number_id net self (sender_phone_number a) st))
    as [id|e']; cbn [res trace]; repeat split; eauto.
  intros id' Hid. discriminate.
Qed.

(** With a sender the directory knows and a payload that builds, the
    request is posted. *)
Lemma send_order_details_msg_emits (net : network) (self : CheckoutBase) (a : order_details)
    (st : directory) (id interactive : json) :
  res (_get_sender_phone_number_id net self (sender_phone_number a) st) = Ok id ->
  order_details_interactive self a = Ok interactive ->
  In (Request (POST (Messages id) (order_details_request a (JStr (json_dumps interactive)))
                    (_get_headers self)))
     (trace (send_order_details_msg net self a st)).
Proof.
  intros Hid Hi. rewrite send_order_details_msg_run. cbv zeta. rewrite Hid, Hi.
  cbn [trace]. apply in_or_app. right. right. left. reflexivity.
Qed.

Lemma order_offset_first (a : order_details) (offset : Z) :
  order_offset a = Some offset ->
  exists first rest, items a = first :: rest /\ offset = Amount.offset (Item.amount first).
Proof.
  unfold order_offset. destruct (items a) as [|first rest]; [discriminate|].
  intros H; inversion H. eauto.
Qed.

Ltac find_in_trace := vm_compute; repeat ((left; reflexivity) || right).

(** ** The order builder *)

(** C1: every request posted by [send_order_details_msg] carries a
    [total_amount] whose value is the emitted subtotal plus the tax value
    and the shipping value that are present, minus the discount value if
    present; with none of the three it is the subtotal.  The total is not
    clamped at zero: an order whose discount exceeds everything else is
    posted with a negative total. *)
Theorem total_amount_is_subtotal_with_adjustments :
  (forall (net : network) (self : CheckoutBase) (a : order_details) (st : directory)
          (url : endpoint) (data : json) (headers : list (pystr * pystr)),
      In (Request (POST url data headers)) (trace (send_order_details_msg net self a st)) ->
      exists (interactive : json) (subtotal offset : Z),
        items a <> [] /\
        order_details_interactive self a = Ok interactive /\
        data = order_details_request a (JStr (json_dumps interactive)) /\
        emitted_subtotal interactive =
          Some (JDict [(u "value", JInt subtotal); (u "offset", JInt offset)]) /\
        emitted_total_amount interactive =
          Some (JStr (Amount.toJSON
                        (Amount.mk (subtotal + amount_value (tax_amount a)
                                    + amount_value (shipping_amount a)
                                    - amount_value (discount_amount a)) offset))) /\
        (tax_amount a = None -> shipping_amount a = None -> discount_amount a = None ->
         emitted_total_amount interactive
         = Some (JStr (Amount.toJSON (Amount.mk subtotal offset))))) /\
  (In (Request (Example.post Example.overdiscounted))
      (trace (send_order_details_msg Example.net Example.base Example.overdiscounted
                Example.loaded)) /\
   emitted_subtotal (Example.built Example.overdiscounted)
   = Some (JDict [(u "value", JInt 1000); (u "offset", JInt 100)]) /\
   emitted_total_amount (Example.built Example.overdiscounted)
   = Some (JStr (json_text "{'value': -500, 'offset': 100}"))).
Proof.
  split.
  - intros net self a st url data headers Hin.
    apply send_order_details_msg_posts in Hin as (interactive & Hi & Hd).
    destruct (order_details_interactive_ok self a interactive Hi)
      as (first & rest & Hitems & _ & _ & _ & Hsub & Htot & _).
    exists interactive, (sum_effective (items a)), (Amount.offset (Item.amount first)).
    repeat split; try assumption.
    + rewrite Hitems. discriminate.
    + intros Ht Hs Hdisc. rewrite Htot. unfold order_total. rewrite Ht, Hs, Hdisc.
      simpl amount_value. now rewrite !Z.add_0_r, Z.sub_0_r.
  - split; [find_in_trace|]. split; vm_compute; reflexivity.
Qed.

Lemma total_amount_is_subtotal_with_adjustments_witness :
  In (Request (POST Example.post_url (Example.post_data Example.taxed)
                    (_get_headers Example.base)))
     (trace (send_order_details_msg Example.net Example.base Example.taxed Example.loaded)) /\
  emitted_total_amount (Example.built Example.taxed)
  = Some (JStr (json_text "{'value': 2100, 'offset': 100}")) /\
  exists (interactive : json) (subtotal offset : Z),
    items Example.taxed <> [] /\
    order_details_interactive Example.base Example.taxed = Ok interactive /\
    Example.post_data Example.taxed
    = order_details_request Example.taxed (JStr (json_dumps interactive)) /\
    emitted_subtotal interactive =
      Some (JDict [(u "value", JInt subtotal); (u "offset", JInt offset)]) /\
    emitted_total_amount interactive =
      Some (JStr (Amount.toJSON
                    (Amount.mk (subtotal + amount_value (tax_amount Example.taxed)
                                + amount_value (shipping_amount Example.taxed)
                                - amount_value (discount_amount Example.taxed)) offset))) /\
    (tax_amount Example.taxed = None -> shipping_amount Example.taxed = None ->
     discount_amount Example.taxed = None ->
     emitted_total_amount interactive
     = Some (JStr (Amount.toJSON (Amount.mk subtotal offset)))).
Proof.
  assert (Hin : In (Request (POST Example.post_url (Example.post_data Example.taxed)
                                  (_get_headers Example.base)))
                   (trace (send_order_details_msg Example.net Example.base Example.taxed
                             Example.loaded)))
    by find_in_trace.
  split; [exact Hin|]. split; [vm_compute; reflexivity|].
  exact (proj1 total_amount_is_subtotal_with_adjustments Example.net Example.base
           Example.taxed Example.loaded Example.post_url (Example.post_data Example.taxed)
           (_get_headers Example.base) Hin).
Defined.

Lemma order_total_divisible (a : order_details) :
  Forall item_constructed (items a) ->
  constructed_opt (tax_amount a) ->
  constructed_opt (shipping_amount a) ->
  constructed_opt (discount_amount a) ->
  (100 | order_total a).
Proof.
  intros Hitems Ht Hs Hd. unfold order_total.
  apply Z.divide_sub_r; [|now apply amount_value_divisible].
  apply Z.divide_add_r; [|now apply amount_value_divisible].
  apply Z.divide_add_r; [|now apply amount_value_divisible].
  now apply sum_effective_divisible.
Qed.

(** C2: the subtotal of every posted order is the sum over its items of
    the value of the effective amount (the sale amount when present, the
    amount otherwise) times the quantity, and valid items with a known
    sender are posted; an item of quantity 0 adds nothing to the sum, yet
    its effective amount is compared with the order's offset like any
    other: a different offset makes the call fail with nothing posted. *)
Theorem subtotal_is_sum_of_effective_amounts :
  (forall item : Item.t,
      effective_amount item =
      match Item.sale_amount item with
      | Some sale => sale
      | None => Item.amount item
      end) /\
  (forall (net : network) (self : CheckoutBase) (a : order_details) (st : directory)
          (url : endpoint) (data : json) (headers : list (pystr * pystr)),
      In (Request (POST url data headers)) (trace (send_order_details_msg net self a st)) ->
      exists (interactive : json) (offset : Z),
        order_details_interactive self a = Ok interactive /\
        data = order_details_request a (JStr (json_dumps interactive)) /\
        order_offset a = Some offset /\
        Forall (fun item => Amount.offset (effective_amount item) = offset) (items a) /\
        emitted_subtotal interactive =
          Some (JDict [(u "value", JInt (sum_effective (items a)));
                       (u "offset", JInt offset)])) /\
  (forall (net : network) (self : CheckoutBase) (a : order_details) (st : directory)
          (id : json) (header : list (pystr * json)),
      items a <> [] ->
      Forall item_constructed (items a) ->
      constructed_opt (tax_amount a) ->
      constructed_opt (shipping_amount a) ->
      constructed_opt (discount_amount a) ->
      header_block (msg_header a) = Ok header ->
      res (_get_sender_phone_number_id net self (sender_phone_number a) st) = Ok id ->
      exists interactive : json,
        order_details_interactive self a = Ok interactive /\
        In (Request (POST (Messages id)
                          (order_details_request a (JStr (json_dumps interactive)))
                          (_get_headers self)))
           (trace (send_order_details_msg net self a st))) /\
  (forall (before after : list Item.t) (item : Item.t),
      Item.quantity item = 0 ->
      sum_effective (before ++ item :: after) = sum_effective (before ++ after)) /\
  (forall (net : network) (self : CheckoutBase) (a : order_details) (st : directory)
          (offset : Z) (item : Item.t),
      order_offset a = Some offset ->
      In item (items a) ->
      Item.quantity item = 0 ->
      Amount.offset (effective_amount item) <> offset ->
      (exists msg, order_details_interactive self a = Raise (ValueError msg)) /\
      (exists e, res (send_order_details_msg net self a st) = Raise e) /\
      (forall url data headers,
          ~ In (Request (POST url data headers))
               (trace (send_order_details_msg net self a st)))).
Proof.
  split; [reflexivity|]. split; [|split; [|split]].
  - intros net self a st url data headers Hin.
    apply send_order_details_msg_posts in Hin as (interactive & Hi & Hd).
    destruct (order_details_interactive_ok self a interactive Hi)
      as (first & rest & Hitems & Hf & _ & _ & Hsub & _).
    exists interactive, (Amount.offset (Item.amount first)).
    unfold order_offset. rewrite Hitems in *. repeat split; assumption.
  - intros net self a st id header Hne Hitems Ht Hs Hd Hh Hid.
    destruct (items a) as [|first rest] eqn:Hi; [contradiction|].
    assert (Hfirst : Amount.offset (Item.amount first) = 100).
    { inversion Hitems as [|? ? [Ha _] _]. now apply constructed_valid. }
    destruct (order_details_interactive_builds self a header first rest Hh Hi)
      as [interactive Hok].
    + rewrite Hi, Hfirst. eapply Forall_impl; [|exact Hitems].
      intros item. apply effective_offset_constructed.
    + exact Hfirst.
    + apply Z.mod_divide; [lia|]. apply order_total_divisible; try assumption.
      now rewrite Hi.
    + exists interactive. split; [assumption|].
      now apply send_order_details_msg_emits.
  - intros before after item Hq. rewrite !sum_effective_app. simpl. rewrite Hq. lia.
  - intros net self a st offset item Hoff Hin Hq Hne.
    apply order_offset_first in Hoff as (first & rest & Hitems & ->).
    destruct (order_details_interactive_mismatch self a first rest item Hitems Hin Hne)
      as [msg Hraise].
    destruct (send_order_details_msg_fails net self a st _ Hraise) as (Hres & Htrace & _).
    split; [eauto|]. split; [assumption|].
    intros url data headers. rewrite Htrace.
    apply _get_sender_phone_number_id_no_post.
Qed.

Lemma subtotal_is_sum_of_effective_amounts_witness :
  (order_offset Example.zero_quantity_mismatch = Some 100 /\
   (exists msg,
      order_details_interactive Example.base Example.zero_quantity_mismatch
      = Raise (ValueError msg)) /\
   (exists e,
      res (send_order_details_msg Example.net Example.base Example.zero_quantity_mismatch
             Example.loaded) = Raise e) /\
   (forall url data headers,
       ~ In (Request (POST url data headers))
            (trace (send_order_details_msg Example.net Example.base
                      Example.zero_quantity_mismatch Example.loaded)))) /\
  emitted_subtotal (Example.built Example.taxed)
  = Some (JDict [(u "value", JInt 2000); (u "offset", JInt 100)]) /\
  exists interactive : json,
    order_details_interactive Example.base Example.taxed = Ok interactive /\
    In (Request (POST Example.post_url
                      (order_details_request Example.taxed (JStr (json_dumps interactive)))
                      (_get_headers Example.base)))
       (trace (send_order_details_msg Example.net Example.base Example.taxed Example.loaded)).
Proof.
  split; [split; [reflexivity|]|split; [vm_compute; reflexivity|]].
  - apply (proj2 (proj2 (proj2 (proj2 subtotal_is_sum_of_effective_amounts)))
             Example.net Example.base Example.zero_quantity_mismatch Example.loaded 100
             (Item.mk (u "B") (Amount.mk 500 10) 0 None None None None None None)).
    + reflexivity.
    + right. left. reflexivity.
    + reflexivity.
    + discriminate.
  - apply (proj1 (proj2 (proj2 subtotal_is_sum_of_effective_amounts))
             Example.net Example.base Example.taxed Example.loaded
             (JStr (u "106540352242922")) []).
    + discriminate.
    + repeat constructor; try (exists 1000, 100; reflexivity).
    + exists 100, 100. reflexivity.
    + exact I.
    + exact I.
    + reflexivity.
    + vm_compute. reflexivity.
Defined.

(** C10: when every item, sale, tax, shipping and discount amount came
    out of [Amount.__init__], the accumulated total is a multiple of 100
    and the order's offset is 100, so [Amount(total, offset)] at the end
    of the builder returns an amount; with a non-empty item list and an
    acceptable header the builder returns the payload. *)
Theorem total_of_constructed_amounts_is_valid :
  forall (self : CheckoutBase) (a : order_details),
    Forall item_constructed (items a) ->
    constructed_opt (tax_amount a) ->
    constructed_opt (shipping_amount a) ->
    constructed_opt (discount_amount a) ->
    (100 | order_total a) /\
    (forall (offset subtotal : Z) (item_list : list json),
        order_offset a = Some offset ->
        items_loop offset (items a) 0 [] = Ok (subtotal, item_list) ->
        let total :=
          subtotal + amount_value (tax_amount a) + amount_value (shipping_amount a)
          - amount_value (discount_amount a) in
        total = order_total a /\
        Amount.__init__ total offset = Ok (Amount.mk total 100)) /\
    (forall header : list (pystr * json),
        items a <> [] ->
        header_block (msg_header a) = Ok header ->
        exists interactive,
          order_details_interactive self a = Ok interactive /\
          emitted_total_amount interactive
          = Some (JStr (Amount.toJSON (Amount.mk (order_total a) 100)))).
Proof.
  intros self a Hitems Ht Hs Hd.
  assert (Hdiv : (100 | order_total a)) by now apply order_total_divisible.
  assert (Hmod : order_total a mod 100 = 0) by (apply Z.mod_divide; [lia | assumption]).
  assert (Hoff : forall first rest, items a = first :: rest ->
                                    Amount.offset (Item.amount first) = 100).
  { intros first rest Hi. rewrite Hi in Hitems.
    inversion Hitems as [|? ? [Ha _] _]. now apply constructed_valid. }
  split; [assumption|]. split.
  - intros offset subtotal item_list Ho Hloop. cbv zeta.
    apply order_offset_first in Ho as (first & rest & Hi & ->).
    apply items_loop_ok in Hloop as (-> & _ & _).
    rewrite Z.add_0_l. fold (order_total a).
    split; [reflexivity|]. rewrite (Hoff first rest Hi). now apply Amount_init_valid.
  - intros header Hne Hh.
    destruct (items a) as [|first rest] eqn:Hi; [contradiction|].
    destruct (order_details_interactive_builds self a header first rest Hh Hi)
      as [interactive Hok]; try assumption.
    + rewrite Hi, (Hoff first rest eq_refl). eapply Forall_impl; [|exact Hitems].
      intros item. apply effective_offset_constructed.
    + now apply (Hoff first rest).
    + exists interactive. split; [assumption|].
      destruct (order_details_interactive_ok self a interactive Hok)
        as (first' & rest' & Hi' & _ & Ho' & _ & _ & Htot & _).
      cbv zeta in Ho'. rewrite Htot. now rewrite Ho'.
Qed.

Lemma total_of_constructed_amounts_is_valid_witness :
  (100 | order_total Example.taxed) /\
  Amount.__init__ (order_total Example.taxed) 100 = Ok (Amount.mk 2100 100) /\
  exists interactive,
    order_details_interactive Example.base Example.taxed = Ok interactive /\
    emitted_total_amount interactive
    = Some (JStr (Amount.toJSON (Amount.mk (order_total Example.taxed) 100))).
Proof.
  assert (H : Forall item_constructed (items Example.taxed))
    by (repeat constructor; exists 1000, 100; reflexivity).
  assert (Ht : constructed_opt (tax_amount Example.taxed))
    by (exists 100, 100; reflexivity).
  destruct (total_of_constructed_amounts_is_valid Example.base Example.taxed H Ht I I)
    as (Hdiv & _ & Hbuild).
  split; [exact Hdiv|]. split; [reflexivity|].
  apply (Hbuild []); [discriminate | reflexivity].
Defined.

(** C8: the builder never reads the offset of the tax, shipping or
    discount amount: whatever these offsets are, it returns the same
    result, and an order whose tax has offset 10 is built and posted with
    the tax added to the total and emitted under the order's offset 100. *)
Theorem tax_shipping_discount_offsets_are_not_checked :
  (forall (self : CheckoutBase) (a : order_details) (o1 o2 o3 : Z),
      order_details_interactive self
        (with_amounts a (rescaled o1 (tax_amount a)) (rescaled o2 (shipping_amount a))
                      (rescaled o3 (discount_amount a)))
      = order_details_interactive self a) /\
  order_offset Example.mismatched_tax = Some 100 /\
  tax_amount Example.mismatched_tax = Some (Amount.mk 100 10) /\
  (exists interactive,
      order_details_interactive Example.base Example.mismatched_tax = Ok interactive /\
      emitted_order_block "tax" interactive
      = Some (JStr (json_text "{'value': 100, 'offset': 100}")) /\
      emitted_total_amount interactive
      = Some (JStr (json_text "{'value': 1100, 'offset': 100}"))) /\
  res (send_order_details_msg Example.net Example.base Example.mismatched_tax Example.loaded)
  = Ok tt /\
  In (Request (Example.post Example.mismatched_tax))
     (trace (send_order_details_msg Example.net Example.base Example.mismatched_tax
               Example.loaded)).
Proof.
  split; [|split; [reflexivity|split; [reflexivity|split; [|split]]]].
  - intros self a o1 o2 o3. unfold order_details_interactive, with_amounts, rescaled.
    cbn [items tax_amount tax_desc shipping_amount shipping_desc discount_amount
         discount_desc discount_program_name catalog_id msg_header msg_footer
         expiration_in_sec expiration_desc goods_type reference_id msg_body].
    destruct (tax_amount a), (shipping_amount a), (discount_amount a); reflexivity.
  - exists (Example.built Example.mismatched_tax). vm_compute. repeat split; reflexivity.
  - vm_compute. reflexivity.
  - find_in_trace.
Qed.

(** C5, as amended: with an empty [items] the call never returns normally
    and never posts a message, but it fails only after the sender lookup,
    which fetches the phone directory when the cache is empty; when the
    lookup and the header are fine the exception is the [IndexError] of
    [items[0]], not a [ValueError]. *)
Theorem empty_items_fail_after_sender_lookup :
  forall (net : network) (self : CheckoutBase) (a : order_details) (st : directory),
    items a = [] ->
    (exists e, res (send_order_details_msg net self a st) = Raise e) /\
    (forall url data headers,
        ~ In (Request (POST url data headers))
             (trace (send_order_details_msg net self a st))) /\
    trace (send_order_details_msg net self a st) =
      match st with
      | [] => [Request (GET (PhoneNumbers (get_waba self)) (_get_headers self))]
      | _ :: _ => []
      end /\
    (forall (id : json) (header : list (pystr * json)),
        res (_get_sender_phone_number_id net self (sender_phone_number a) st) = Ok id ->
        header_block (msg_header a) = Ok header ->
        res (send_order_details_msg net self a st) = Raise IndexError).
Proof.
  intros net self a st Hitems.
  assert (Hbuild : order_details_interactive self a =
                   match header_block (msg_header a) with
                   | Ok _ => Raise IndexError
                   | Raise e => Raise e
                   end).
  { unfold order_details_interactive, rbind. rewrite Hitems.
    now destruct (header_block (msg_header a)). }
  assert (Hraise : exists e, order_details_interactive self a = Raise e).
  { rewrite Hbuild. destruct (header_block (msg_header a)); eauto. }
  destruct Hraise as [e He].
  destruct (send_order_details_msg_fails net self a st e He) as (Hres & Htrace & Hexn).
  split; [assumption|]. split; [|split].
  - intros url data headers. rewrite Htrace. apply _get_sender_phone_number_id_no_post.
  - rewrite Htrace. apply _get_sender_phone_number_id_trace.
  - intros id header Hid Hh. rewrite (Hexn id Hid).
    rewrite Hh in Hbuild. congruence.
Qed.

Lemma empty_items_fail_after_sender_lookup_witness :
  items Example.empty = [] /\
  (exists e, res (send_order_details_msg Example.net Example.base Example.empty []) = Raise e) /\
  trace (send_order_details_msg Example.net Example.base Example.empty [])
  = [Request (GET (PhoneNumbers (get_waba Example.base)) (_get_headers Example.base))] /\
  res (send_order_details_msg Example.net Example.base Example.empty []) = Raise IndexError.
Proof.
  destruct (empty_items_fail_after_sender_lookup Example.net Example.base Example.empty []
              eq_refl) as (Hres & _ & Htrace & Hexn).
  split; [reflexivity|]. split; [exact Hres|]. split; [exact Htrace|].
  apply (Hexn (JStr (u "106540352242922")) []); [vm_compute; reflexivity | reflexivity].
Defined.

(** C5, the claim as stated fails: with an empty directory cache the call
    on an empty [items] first fetches the phone directory over the
    network, and the exception it then raises is [IndexError]. *)
Lemma empty_items_raise_index_error_after_fetch :
  send_order_details_msg Example.net Example.base Example.empty []
  = mk_outcome (Raise IndexError) Example.loaded
      [Request (GET (PhoneNumbers (get_waba Example.base)) (_get_headers Example.base))].
Proof. vm_compute. reflexivity. Qed.

(** ** The webhook classifier *)

Lemma bind_lift {A B : Type} (r : result A) (k : A -> M B) (st : directory) :
  bind (lift r) k st =
  match r with
  | Ok a => k a st
  | Raise e => mk_outcome (Raise e) st []
  end.
Proof.
  rewrite bind_run. destruct r as [a|e]; cbn [lift res final trace app]; [|reflexivity].
  now destruct (k a st).
Qed.

Lemma py_get_ok_dict (v : json) (k : pystr) (x : json) :
  py_get v k = Ok x -> exists d, v = JDict d.
Proof. destruct v; simpl; try discriminate. eauto. Qed.

Lemma handle_webhook_call_run (net : network) (self : CheckoutBase)
    (headers : list (pystr * pystr)) (payload : pystr) (st : directory) :
  handle_webhook_call net self headers payload st =
  match verify_webhook self headers payload with
  | Raise e => mk_outcome (Raise e) st []
  | Ok false => mk_outcome (Ok tt) st [Print NotVerified]
  | Ok true =>
      match json_loads payload with
      | Raise e => mk_outcome (Raise e) st []
      | Ok data =>
          match callback_value self data with
          | Raise e => mk_outcome (Raise e) st []
          | Ok (inl rejected) => mk_outcome (Ok tt) st [Print rejected]
          | Ok (inr value) =>
              match first_interactive value with
              | Raise e => mk_outcome (Raise e) st []
              | Ok interactive =>
                  match is_payment interactive with
                  | Raise e => mk_outcome (Raise e) st []
                  | Ok true =>
                      match payment_confirmation value interactive with
                      | Ok line => mk_outcome (Ok tt) st [Print line]
                      | Raise e => mk_outcome (Raise e) st []
                      end
                  | Ok false => status_update net self value payload st
                  end
              end
          end
      end
  end.
Proof.
  unfold handle_webhook_call. rewrite bind_lift.
  destruct (verify_webhook self headers payload) as [[|]|e]; try reflexivity.
  cbn [negb]. rewrite bind_lift.
  destruct (json_loads payload) as [data|e]; [|reflexivity].
  rewrite bind_lift.
  destruct (callback_value self data) as [[rejected|value]|e]; try reflexivity.
  rewrite bind_lift.
  destruct (first_interactive value) as [interactive|e]; [|reflexivity].
  rewrite bind_lift.
  destruct (is_payment interactive) as [[|]|e]; reflexivity.
Qed.

(** Line 335 makes the guard of the status update unsatisfiable: the run
    ends with an exception and an empty trace, or with the line of an
    unrecognized callback. *)
Lemma status_update_run (net : network) (self : CheckoutBase) (value : json)
    (payload : pystr) (st : directory) :
  (exists e, status_update net self value payload st = mk_outcome (Raise e) st []) \/
  status_update net self value payload st
  = mk_outcome (Ok tt) st [Print (Unrecognized payload)].
Proof.
  unfold status_update.
  rewrite bind_lift. destruct (py_getitem value (u "statuses")) as [statuses|e]; [|eauto].
  rewrite bind_lift. destruct (py_getindex statuses 0) as [entry|e]; [|eauto].
  rewrite bind_lift. destruct (py_get entry (u "id")) as [id|e]; [|eauto].
  rewrite bind_lift. destruct (py_get entry (u "recipient_id")) as [recipient_id|e]; [|eauto].
  rewrite bind_lift. destruct (py_get entry (u "type")) as [status_type|e]; [|eauto].
  rewrite bind_lift. destruct (py_get entry (u "status")) as [status|e]; [|eauto].
  rewrite bind_lift.
  destruct (py_get status (u "payment")) as [payment|e] eqn:Hpayment; [|eauto].
  apply py_get_ok_dict in Hpayment as [d ->].
  rewrite bind_lift.
  destruct (py_get (JDict d) (u "timestamp")) as [timestamp|e]; [|eauto].
  replace (existsb (py_eq_str (JDict d)) payment_statuses) with false by reflexivity.
  rewrite andb_false_r. cbn [andb].
  rewrite bind_lift. right. reflexivity.
Qed.

Lemma payment_confirmation_line (value interactive : json) (line : output) :
  payment_confirmation value interactive = Ok line ->
  exists transaction_id reference_id status display,
    line = PaymentConfirmation transaction_id reference_id status display.
Proof.
  unfold payment_confirmation, rbind.
  repeat match goal with
         | |- match ?r with Ok _ => _ | Raise _ => _ end = _ -> _ =>
             destruct r; [|discriminate]
         end.
  intros H; inversion H. eauto.
Qed.

Lemma callback_value_rejection (self : CheckoutBase) (data : json) (line : output) :
  callback_value self data = Ok (inl line) ->
  (exists v, line = NotBusinessAccount v) \/
  (exists v, line = OtherAccount v) \/
  (exists v, line = NotMessages v).
Proof.
  unfold callback_value, rbind.
  repeat match goal with
         | |- match ?r with Ok _ => _ | Raise _ => _ end = _ -> _ =>
             destruct r; [|discriminate]
         | |- (if ?b then _ else _) = _ -> _ => destruct b
         end;
    intros H; inversion H; eauto.
Qed.

Ltac quiet_trace :=
  cbn [final trace]; split; [reflexivity|];
  split; intros; cbn [In]; intuition discriminate.

(** No callback reaches the payment-status query or the line of a
    status update. *)
Lemma handle_webhook_call_never_queries (net : network) (self : CheckoutBase)
    (headers : list (pystr * pystr)) (payload : pystr) (st : directory) :
  final (handle_webhook_call net self headers payload st) = st /\
  (forall r, ~ In (Request r) (trace (handle_webhook_call net self headers payload st))) /\
  (forall id reference_id status display,
      ~ In (Print (PaymentStatusUpdate id reference_id status display))
           (trace (handle_webhook_call net self headers payload st))).
Proof.
  rewrite handle_webhook_call_run.
  destruct (verify_webhook self headers payload) as [[|]|e]; try quiet_trace.
  destruct (json_loads payload) as [data|e]; try quiet_trace.
  destruct (callback_value self data) as [[rejected|value]|e] eqn:Hcb; try quiet_trace.
  { apply callback_value_rejection in Hcb as [[v ->]|[[v ->]|[v ->]]]; quiet_trace. }
  destruct (first_interactive value) as [interactive|e]; try quiet_trace.
  destruct (is_payment interactive) as [[|]|e]; try quiet_trace.
  - destruct (payment_confirmation value interactive) as [line|e] eqn:Hline;
      try quiet_trace.
    apply payment_confirmation_line in Hline as (t & r & s & d & ->). quiet_trace.
  - destruct (status_update_run net self value payload st) as [[e ->]| ->]; quiet_trace.
Qed.

(** C6: a callback that passes the verification and the guards, carries
    no interactive payment confirmation, and whose first status entry has
    a recipient id, type ["payment"], status ["success"], a timestamp and
    a payment with a reference id, is not classified as a status update:
    line 335 rebinds [status] to the string of the entry, line 336 calls
    [get] on it, and the run ends with [AttributeError], nothing printed
    and no query sent; without any message in the body, line 319 raises
    [KeyError] before that.  No callback at all reaches the status update
    or the payment-status query. *)
Theorem status_update_callback_raises :
  verify_webhook Example.base (Example.signed Example.status_payload) Example.status_payload
  = Ok true /\
  json_loads Example.status_payload = Ok (Example.parsed Example.status_payload) /\
  callback_value Example.base (Example.parsed Example.status_payload)
  = Ok (inr (Example.value_of Example.status_payload)) /\
  first_interactive (Example.value_of Example.status_payload) = Ok JNull /\
  Example.first_status (Example.value_of Example.status_payload) = Ok Example.status_entry /\
  handle_webhook_call Example.net Example.base (Example.signed Example.status_payload)
    Example.status_payload Example.loaded
  = mk_outcome (Raise AttributeError) Example.loaded [] /\
  handle_webhook_call Example.net Example.base (Example.signed Example.status_only_payload)
    Example.status_only_payload Example.loaded
  = mk_outcome (Raise KeyError) Example.loaded [] /\
  (forall (net : network) (self : CheckoutBase) (headers : list (pystr * pystr))
          (payload : pystr) (st : directory),
      final (handle_webhook_call net self headers payload st) = st /\
      (forall r, ~ In (Request r) (trace (handle_webhook_call net self headers payload st))) /\
      (forall id reference_id status display,
          ~ In (Print (PaymentStatusUpdate id reference_id status display))
               (trace (handle_webhook_call net self headers payload st)))).
Proof.
  do 7 (split; [vm_compute; reflexivity|]).
  apply handle_webhook_call_never_queries.
Qed.

(** C7, as amended: a verified callback that passes the guards on the
    account and the field and whose first
    message carries an interactive object of type ["payment"] ends in the
    confirmation branch: the directory is unchanged, no request is sent
    and no status update is printed, whatever status entries the body
    has; when the transaction id, the reference id, the status and the
    display number are there, the run prints exactly the confirmation
    with these four values and returns; when one is missing, the lookup's
    exception ends the run with nothing printed. *)
Theorem payment_confirmation_wins :
  forall (net : network) (self : CheckoutBase) (headers : list (pystr * pystr))
         (payload : pystr) (st : directory) (data value interactive : json),
    verify_webhook self headers payload = Ok true ->
    json_loads payload = Ok data ->
    callback_value self data = Ok (inr value) ->
    first_interactive value = Ok interactive ->
    is_payment interactive = Ok true ->
    final (handle_webhook_call net self headers payload st) = st /\
    (forall r, ~ In (Request r) (trace (handle_webhook_call net self headers payload st))) /\
    (forall id reference_id status display,
        ~ In (Print (PaymentStatusUpdate id reference_id status display))
             (trace (handle_webhook_call net self headers payload st))) /\
    (forall payment transaction_id reference_id status metadata display : json,
        py_getitem interactive (u "payment") = Ok payment ->
        py_getitem payment (u "transaction_id") = Ok transaction_id ->
        py_getitem payment (u "reference_id") = Ok reference_id ->
        py_getitem payment (u "status") = Ok status ->
        py_getitem value (u "metadata") = Ok metadata ->
        py_getitem metadata (u "display_phone_number") = Ok display ->
        handle_webhook_call net self headers payload st
        = mk_outcome (Ok tt) st
            [Print (PaymentConfirmation transaction_id reference_id status display)]) /\
    (forall e : exn,
        payment_confirmation value interactive = Raise e ->
        handle_webhook_call net self headers payload st = mk_outcome (Raise e) st []).
Proof.
  intros net self headers payload st data value interactive Hv Hd Hc Hi Hp.
  rewrite handle_webhook_call_run, Hv, Hd, Hc, Hi, Hp.
  split; [|split; [|split; [|split]]].
  - now destruct (payment_confirmation value interactive).
  - intros r. destruct (payment_confirmation value interactive);
      cbn [trace In]; intuition discriminate.
  - intros id reference_id status display.
    destruct (payment_confirmation value interactive) as [line|e] eqn:Hline;
      cbn [trace In]; [|tauto].
    apply payment_confirmation_line in Hline as (t & r & s & d & ->).
    intuition discriminate.
  - intros payment transaction_id reference_id status metadata display
           H1 H2 H3 H4 H5 H6.
    unfold payment_confirmation, rbind. now rewrite H1, H2, H3, H4, H5, H6.
  - intros e He. now rewrite He.
Qed.

Lemma payment_confirmation_wins_witness :
  is_payment Example.confirmation_interactive = Ok true /\
  first_interactive (Example.value_of Example.confirmation_payload)
  = Ok Example.confirmation_interactive /\
  Example.first_status (Example.value_of Example.confirmation_payload)
  = Ok Example.status_entry /\
  handle_webhook_call Example.net Example.base (Example.signed Example.confirmation_payload)
    Example.confirmation_payload Example.loaded
  = mk_outcome (Ok tt) Example.loaded
      [Print (PaymentConfirmation (JStr (u "txn-1")) (JStr (u "ref-0001"))
                (JStr (u "success")) (JStr (u "16315555555")))].
Proof.
  split; [reflexivity|]. split; [vm_compute; reflexivity|]. split; [vm_compute; reflexivity|].
  refine (proj1 (proj2 (proj2 (proj2
            (payment_confirmation_wins Example.net Example.base
               (Example.signed Example.confirmation_payload) Example.confirmation_payload
               Example.loaded (Example.parsed Example.confirmation_payload)
               (Example.value_of Example.confirmation_payload)
               Example.confirmation_interactive _ _ _ _ _))))
            (JDict [(u "transaction_id", JStr (u "txn-1"));
                    (u "reference_id", JStr (u "ref-0001"));
                    (u "status", JStr (u "success"))])
            (JStr (u "txn-1")) (JStr (u "ref-0001")) (JStr (u "success"))
            (JDict [(u "display_phone_number", JStr (u "16315555555"))])
            (JStr (u "16315555555")) _ _ _ _ _ _);
    vm_compute; reflexivity.
Defined.

(** C7, the claim as stated fails: a verified callback whose first
    message carries an interactive object of type ["payment"], sent for
    another account, is turned away by the guard on the account id and is
    not classified as a payment confirmation. *)
Lemma confirmation_for_other_account_is_rejected :
  verify_webhook Example.base (Example.signed Example.other_account_payload)
    Example.other_account_payload = Ok true /\
  (value <- Example.raw_value (Example.parsed Example.other_account_payload) ;;
   first_interactive value)%result = Ok Example.confirmation_interactive /\
  is_payment Example.confirmation_interactive = Ok true /\
  handle_webhook_call Example.net Example.base (Example.signed Example.other_account_payload)
    Example.other_account_payload Example.loaded
  = mk_outcome (Ok tt) Example.loaded [Print (OtherAccount (JStr (u "999")))].
Proof. do 3 (split; [vm_compute; reflexivity|]). vm_compute. reflexivity. Qed.

(** ** Further properties of the builder and of the directory *)

(** X1: an item whose effective amount has another offset than the order
    makes the builder raise [ValueError], wherever the item stands in the
    list and whatever its quantity; with an acceptable header the message
    is the one of line 173; the call then fails and posts nothing. *)
Theorem mixed_item_offsets_raise_value_error :
  forall (net : network) (self : CheckoutBase) (a : order_details) (st : directory)
         (offset : Z) (item : Item.t),
    order_offset a = Some offset ->
    In item (items a) ->
    Amount.offset (effective_amount item) <> offset ->
    (exists msg, order_details_interactive self a = Raise (ValueError msg)) /\
    (forall header,
        header_block (msg_header a) = Ok header ->
        order_details_interactive self a
        = Raise (ValueError (u "Item amount must have the same offset as others"))) /\
    (exists e, res (send_order_details_msg net self a st) = Raise e) /\
    (forall url data headers,
        ~ In (Request (POST url data headers))
             (trace (send_order_details_msg net self a st))).
Proof.
  intros net self a st offset item Hoff Hin Hne.
  apply order_offset_first in Hoff as (first & rest & Hitems & ->).
  destruct (order_details_interactive_mismatch self a first rest item Hitems Hin Hne)
    as [msg Hraise].
  destruct (send_order_details_msg_fails net self a st _ Hraise) as (Hres & Htrace & _).
  split; [eauto|]. split; [|split; [assumption|]].
  - intros header Hh. unfold order_details_interactive, rbind. rewrite Hh.
    destruct (items a) as [|first' rest'] eqn:Hi; [discriminate|].
    inversion Hitems; subst first' rest'.
    now rewrite (items_loop_mismatch _ _ item Hin Hne).
  - intros url data headers. rewrite Htrace.
    apply _get_sender_phone_number_id_no_post.
Qed.

Lemma mixed_item_offsets_raise_value_error_witness :
  order_details_interactive Example.base Example.zero_quantity_mismatch
  = Raise (ValueError (u "Item amount must have the same offset as others")).
Proof.
  apply (proj1 (proj2 (mixed_item_offsets_raise_value_error Example.net Example.base
                         Example.zero_quantity_mismatch Example.loaded 100
                         (Item.mk (u "B") (Amount.mk 500 10) 0 None None None None None None)
                         eq_refl (or_intror (or_introl eq_refl))
                         ltac:(discriminate))) []).
  reflexivity.
Defined.

(** X2: a header of type ["text"] without text, a header of type
    ["image"] without link, and a header of any other type make the
    builder raise [ValueError] with the message of line 138, before the
    items are looked at. *)
Theorem invalid_header_raises_value_error :
  forall (self : CheckoutBase) (a : order_details) (h : Header.t),
    msg_header a = Some h ->
    (Header.type h = u "text" /\ nonempty (Header.text h) = None) \/
    (Header.type h = u "image" /\ nonempty (Header.image_link h) = None) \/
    (Header.type h <> u "text" /\ Header.type h <> u "image") ->
    order_details_interactive self a
    = Raise (ValueError (u "Invalid header type " ++ Header.type h)).
Proof.
  intros self a h Hh Hcases.
  assert (Hblock : header_block (Some h)
                   = Raise (ValueError (u "Invalid header type " ++ Header.type h))).
  { unfold header_block.
    destruct Hcases as [[Ht Hn]|[[Ht Hn]|[Ht Hi]]].
    - rewrite Ht, Hn. reflexivity.
    - rewrite Ht, Hn. reflexivity.
    - rewrite (str_eqb_neq _ _ Ht), (str_eqb_neq _ _ Hi). reflexivity. }
  unfold order_details_interactive, rbind. now rewrite Hh, Hblock.
Qed.

Lemma invalid_header_raises_value_error_witness :
  order_details_interactive Example.base Example.empty_text_header
  = Raise (ValueError (u "Invalid header type text")).
Proof.
  apply (invalid_header_raises_value_error Example.base Example.empty_text_header
           (Header.mk (u "text") None None) eq_refl).
  left. split; reflexivity.
Defined.

(** X3: the sender lookup fetches the phone directory exactly when the
    cache is empty; with a cache that has an entry it sends no request,
    leaves the cache as it is, and returns the identity stored for the
    number or raises [KeyError]. *)
Theorem sender_lookup_fetches_only_when_cache_is_empty :
  forall (net : network) (self : CheckoutBase) (phone_number : pystr) (st : directory),
    (st = [] ->
     trace (_get_sender_phone_number_id net self phone_number st)
     = [Request (GET (PhoneNumbers (get_waba self)) (_get_headers self))]) /\
    (st <> [] ->
     _get_sender_phone_number_id net self phone_number st
     = mk_outcome
         (match dict_get phone_number st with
          | Some id => Ok id
          | None => Raise KeyError
          end) st []).
Proof.
  intros net self phone_number st. split.
  - intros ->. apply _get_sender_phone_number_id_trace.
  - intros Hne. destruct st as [|entry st]; [contradiction|].
    unfold _get_sender_phone_number_id, bind, get_directory, ret, raise.
    cbn [res final trace app].
    now destruct (dict_get phone_number (entry :: st)).
Qed.

Lemma sender_lookup_fetches_only_when_cache_is_empty_witness :
  _get_sender_phone_number_id Example.net Example.base Example.sender Example.loaded
  = mk_outcome (Ok (JStr (u "106540352242922"))) Example.loaded [].
Proof.
  apply (proj2 (sender_lookup_fetches_only_when_cache_is_empty Example.net Example.base
                  Example.sender Example.loaded)).
  discriminate.
Defined.

(** ** The phone directory *)

Lemma dict_get_set_same {V : Type} (k : pystr) (v : V) (d : list (pystr * V)) :
  dict_get k (dict_set k v d) = Some v.
Proof.
  induction d as [|[k' v'] d IH]; simpl.
  - now rewrite str_eqb_refl.
  - destruct (str_eqb k k') eqn:E; simpl; rewrite E; [reflexivity | exact IH].
Qed.

Lemma dict_get_set_other {V : Type} (k k' : pystr) (v : V) (d : list (pystr * V)) :
  k' <> k -> dict_get k' (dict_set k v d) = dict_get k' d.
Proof.
  intros Hne. induction d as [|[k0 v0] d IH]; simpl.
  - now rewrite (str_eqb_neq _ _ Hne).
  - destruct (str_eqb k k0) eqn:E; simpl.
    + apply str_eqb_eq in E. subst k0. now rewrite (str_eqb_neq _ _ Hne).
    + destruct (str_eqb k' k0); [reflexivity | exact IH].
Qed.

Lemma dict_keys_set {V : Type} (k : pystr) (v : V) (d : list (pystr * V)) (x : pystr) :
  In x (dict_keys (dict_set k v d)) -> x = k \/ In x (dict_keys d).
Proof.
  unfold dict_keys. induction d as [|[k' v'] d IH]; simpl.
  - intros [H|[]]. now left.
  - destruct (str_eqb k k') eqn:E; simpl.
    + tauto.
    + intros [H|H]; [tauto|]. apply IH in H. tauto.
Qed.

Lemma dict_get_key {V : Type} (k : pystr) (v : V) (d : list (pystr * V)) :
  dict_get k d = Some v -> In k (dict_keys d).
Proof.
  unfold dict_keys. induction d as [|[k' v'] d IH]; simpl; [discriminate|].
  destruct (str_eqb k k') eqn:E.
  - apply str_eqb_eq in E. subst. now left.
  - intros H. right. now apply IH.
Qed.

Lemma dict_set_nonempty {V : Type} (k : pystr) (v : V) (d : list (pystr * V)) :
  dict_set k v d <> [].
Proof. destruct d as [|[k' v'] d]; simpl; [|destruct (str_eqb k k')]; discriminate. Qed.

(** A string of one character is inside ["0123456789"] exactly when the
    character is a digit. *)
Lemma digit_in_digits (c : Z) :
  str_contains (u "0123456789") [c] = JSONDecoder.is_digit c.
Proof.
  unfold JSONDecoder.is_digit. cbn.
  repeat match goal with
         | |- context [c =? ?n] => destruct (Z.eqb_spec c n); [subst; reflexivity|]
         end.
  cbn. symmetry. apply andb_false_iff. lia.
Qed.

Lemma join_digits_string (s : pystr) :
  join_digits (map (fun c => JStr [c]) s) = Ok (digits_of s).
Proof.
  induction s as [|c s IH]; [reflexivity|].
  cbn [map join_digits]. rewrite IH. cbn [rbind].
  rewrite digit_in_digits. unfold digits_of. cbn [filter].
  now destruct (JSONDecoder.is_digit c).
Qed.

Lemma _get_sender_phone_number_id_run (net : network) (self : CheckoutBase)
    (phone_number : pystr) (st : directory) :
  _get_sender_phone_number_id net self phone_number st =
  let o := match st with
           | [] => _load_phone_numbers net self st
           | _ :: _ => ret tt st
           end in
  match res o with
  | Ok _ =>
      mk_outcome
        (match dict_get phone_number (final o) with
         | Some id => Ok id
         | None => Raise KeyError
         end) (final o) (trace o)
  | Raise e => mk_outcome (Raise e) (final o) (trace o)
  end.
Proof.
  cbv zeta. unfold _get_sender_phone_number_id. rewrite bind_run.
  cbn [get_directory res final trace app]. rewrite bind_run.
  destruct (res (match st with
                 | [] => _load_phone_numbers net self
                 | _ :: _ => ret tt
                 end st)) eqn:E.
  - rewrite bind_run. cbn [get_directory res final trace app].
    destruct st as [|entry st]; rewrite E;
      destruct (dict_get phone_number _); cbn [ret raise res final trace];
      now rewrite app_nil_r.
  - destruct st; now rewrite E.
Qed.

Lemma store_entry_listed (entry : json) (e : pystr * json) (st : directory) :
  listed entry e ->
  store_entry entry st = mk_outcome (Ok tt) (dict_set (digits_of (fst e)) (snd e) st) [].
Proof.
  intros [Hn Hi]. unfold store_entry.
  rewrite bind_lift, Hn. rewrite bind_lift. cbn [py_iter].
  rewrite bind_lift, join_digits_string. rewrite bind_lift, Hi. reflexivity.
Qed.

Lemma for_each_store_listed (entries : list json) (listing : list (pystr * json)) :
  Forall2 listed entries listing ->
  forall st, for_each entries store_entry st = mk_outcome (Ok tt) (stored listing st) [].
Proof.
  induction 1 as [|entry e entries listing He _ IH]; intros st; [reflexivity|].
  cbn [for_each]. rewrite bind_run, (store_entry_listed entry e st He).
  cbn [res final trace app]. now rewrite IH.
Qed.

Lemma for_each_app {A : Type} (l1 l2 : list A) (body : A -> M unit) (st : directory) :
  for_each (l1 ++ l2) body st = bind (for_each l1 body) (fun _ => for_each l2 body) st.
Proof.
  revert st. induction l1 as [|x l1 IH]; intros st.
  - cbn [app for_each]. rewrite bind_run. cbn [ret res final trace app].
    now destruct (for_each l2 body st).
  - cbn [app for_each]. rewrite !bind_run.
    destruct (res (body x st)); [|reflexivity].
    rewrite IH, bind_run. cbn [res final trace].
    destruct (res (for_each l1 body (final (body x st)))); cbn [res final trace];
      now rewrite ?app_assoc.
Qed.

(** The run of [_load_phone_numbers] on a listing that can be iterated. *)
Lemma _load_phone_numbers_entries (net : network) (self : CheckoutBase) (st : directory)
    (body : json) (entries : list json) :
  status_code (net (directory_request self)) = 200 ->
  json_loads (text (net (directory_request self))) = Ok body ->
  py_getitem body (u "data") = Ok (JList entries) ->
  entries <> [] ->
  _load_phone_numbers net self st =
  mk_outcome (res (for_each entries store_entry st)) (final (for_each entries store_entry st))
             (Request (directory_request self) :: trace (for_each entries store_entry st)).
Proof.
  intros Hs Hb Hd Hne. unfold _load_phone_numbers, directory_request in *.
  rewrite bind_run. cbn [requests_get res final trace]. rewrite Hs. cbn [Z.eqb Pos.eqb negb].
  rewrite bind_lift, Hb. rewrite bind_lift, Hd. rewrite bind_lift. cbn [py_len].
  destruct entries as [|entry entries]; [contradiction|].
  replace (Z.of_nat (List.length (entry :: entries)) =? 0) with false
    by (symmetry; apply Z.eqb_neq; cbn [List.length]; lia).
  rewrite bind_lift. cbn [py_iter]. reflexivity.
Qed.

Lemma stored_app (l1 l2 : list (pystr * json)) (st : directory) :
  stored (l1 ++ l2) st = stored l2 (stored l1 st).
Proof. apply fold_left_app. Qed.

Lemma stored_nonempty (listing : list (pystr * json)) (st : directory) :
  listing <> [] \/ st <> [] -> stored listing st <> [].
Proof.
  revert st. induction listing as [|e listing IH]; intros st H.
  - destruct H as [H|H]; [contradiction | exact H].
  - cbn [stored fold_left]. apply IH. right. apply dict_set_nonempty.
Qed.

Lemma stored_other_keys (listing : list (pystr * json)) (st : directory) (k : pystr) :
  Forall (fun e => digits_of (fst e) <> k) listing ->
  dict_get k (stored listing st) = dict_get k st.
Proof.
  revert st. induction listing as [|e listing IH]; intros st H; [reflexivity|].
  inversion H; subst. cbn [stored fold_left].
  fold (stored listing (dict_set (digits_of (fst e)) (snd e) st)).
  rewrite IH by assumption. apply dict_get_set_other. congruence.
Qed.

(** X4: when the directory answers 200 with a non-empty list of entries
    that each carry a display number and an identity,
    [_load_phone_numbers] stores every identity under the digits of its
    display number, in the order of the list, with one request; a listed
    number resolves to the identity of its last entry, and a sender
    lookup on an empty cache answers from the cache just stored. *)
Theorem directory_load_stores_numbers_by_their_digits :
  forall (net : network) (self : CheckoutBase) (st : directory) (body : json)
         (entries : list json) (listing : list (pystr * json)),
    status_code (net (directory_request self)) = 200 ->
    json_loads (text (net (directory_request self))) = Ok body ->
    py_getitem body (u "data") = Ok (JList entries) ->
    entries <> [] ->
    Forall2 listed entries listing ->
    _load_phone_numbers net self st
    = mk_outcome (Ok tt) (stored listing st) [Request (directory_request self)] /\
    (forall before after number id,
        listing = before ++ (number, id) :: after ->
        Forall (fun e => digits_of (fst e) <> digits_of number) after ->
        dict_get (digits_of number) (stored listing st) = Some id) /\
    (forall phone_number,
        _get_sender_phone_number_id net self phone_number []
        = mk_outcome
            (match dict_get phone_number (stored listing []) with
             | Some id => Ok id
             | None => Raise KeyError
             end)
            (stored listing []) [Request (directory_request self)]).
Proof.
  intros net self st body entries listing Hs Hb Hd Hne Hl.
  assert (Hload : forall st0,
             _load_phone_numbers net self st0
             = mk_outcome (Ok tt) (stored listing st0) [Request (directory_request self)]).
  { intros st0.
    rewrite (_load_phone_numbers_entries net self st0 body entries Hs Hb Hd Hne).
    now rewrite (for_each_store_listed entries listing Hl). }
  split; [apply Hload|]. split.
  - intros before after number id -> Hafter.
    rewrite stored_app. cbn [stored fold_left fst snd].
    fold (stored after (dict_set (digits_of number) id (stored before st))).
    rewrite stored_other_keys by assumption. apply dict_get_set_same.
  - intros phone_number. rewrite _get_sender_phone_number_id_run. cbv zeta.
    rewrite Hload. reflexivity.
Qed.

Lemma directory_load_stores_numbers_by_their_digits_witness :
  _load_phone_numbers Example.net Example.base []
  = mk_outcome (Ok tt) (stored DirectoryExample.listing [])
      [Request (directory_request Example.base)] /\
  dict_get (u "16315555555") (stored DirectoryExample.listing [])
  = Some (JStr (u "106540352242922")).
Proof.
  destruct (directory_load_stores_numbers_by_their_digits Example.net Example.base []
              (JDict [(u "data", JList [DirectoryExample.entry])])
              [DirectoryExample.entry] DirectoryExample.listing)
    as (Hload & Hget & _).
  - reflexivity.
  - vm_compute. reflexivity.
  - reflexivity.
  - discriminate.
  - repeat constructor.
  - split; [exact Hload|].
    apply (Hget [] [] (u "+1 631-555-5555") (JStr (u "106540352242922")) eq_refl).
    constructor.
Defined.

(** X5: when the directory does not answer 200, answers with something
    that is not JSON, or answers with an empty list, [_load_phone_numbers]
    raises after its one request and leaves the cache as it was; on an
    empty cache every failure of the load is the failure of
    [send_order_details_msg], which then posts nothing. *)
Theorem directory_load_failures_leave_the_cache :
  forall (net : network) (self : CheckoutBase) (st : directory),
    (status_code (net (directory_request self)) <> 200 ->
     exists msg,
       _load_phone_numbers net self st
       = mk_outcome (Raise (Exception_ msg)) st [Request (directory_request self)]) /\
    (status_code (net (directory_request self)) = 200 ->
     json_loads (text (net (directory_request self))) = Raise JSONDecodeError ->
     _load_phone_numbers net self st
     = mk_outcome (Raise JSONDecodeError) st [Request (directory_request self)]) /\
    (forall body,
        status_code (net (directory_request self)) = 200 ->
        json_loads (text (net (directory_request self))) = Ok body ->
        py_getitem body (u "data") = Ok (JList []) ->
        exists msg,
          _load_phone_numbers net self st
          = mk_outcome (Raise (Exception_ msg)) st [Request (directory_request self)]) /\
    (forall (e : exn) (a : order_details),
        res (_load_phone_numbers net self []) = Raise e ->
        res (send_order_details_msg net self a []) = Raise e /\
        forall url data headers,
          ~ In (Request (POST url data headers))
               (trace (send_order_details_msg net self a []))).
Proof.
  intros net self st. unfold directory_request.
  split; [|split; [|split]].
  - intros Hs. unfold _load_phone_numbers. rewrite bind_run.
    cbn [requests_get res final trace].
    apply Z.eqb_neq in Hs. rewrite Hs. cbn [negb]. eexists. reflexivity.
  - intros Hs Hb. unfold _load_phone_numbers. rewrite bind_run.
    cbn [requests_get res final trace]. rewrite Hs. cbn [Z.eqb Pos.eqb negb].
    rewrite bind_lift, Hb. reflexivity.
  - intros body Hs Hb Hd. unfold _load_phone_numbers. rewrite bind_run.
    cbn [requests_get res final trace]. rewrite Hs. cbn [Z.eqb Pos.eqb negb].
    rewrite bind_lift, Hb. rewrite bind_lift, Hd. rewrite bind_lift. cbn [py_len].
    eexists. reflexivity.
  - intros e a He. rewrite send_order_details_msg_run. cbv zeta.
    rewrite _get_sender_phone_number_id_run. cbv zeta. rewrite He. cbn [res trace].
    split; [reflexivity|]. intros url data headers.
    rewrite _load_phone_numbers_trace. intros [H|[]]. discriminate.
Qed.

Lemma directory_load_failures_leave_the_cache_witness :
  (exists msg,
      _load_phone_numbers DirectoryExample.net_down Example.base Example.loaded
      = mk_outcome (Raise (Exception_ msg)) Example.loaded
          [Request (directory_request Example.base)]) /\
  exists e, res (send_order_details_msg DirectoryExample.net_down Example.base Example.taxed [])
            = Raise e.
Proof.
  destruct (directory_load_failures_leave_the_cache DirectoryExample.net_down Example.base
              Example.loaded) as (Hdown & _ & _ & _).
  destruct (directory_load_failures_leave_the_cache DirectoryExample.net_down Example.base [])
    as (Hdown' & _ & _ & Hsend).
  split.
  - apply Hdown. discriminate.
  - destruct Hdown' as [msg Hmsg]; [discriminate|].
    exists (Exception_ msg).
    apply (Hsend (Exception_ msg) Example.taxed). now rewrite Hmsg.
Defined.

Lemma store_entry_rejected (bad : json) (e : exn) (st : directory) :
  py_getitem bad (u "display_phone_number") = Raise e \/
  (exists number, py_getitem bad (u "display_phone_number") = Ok (JStr number) /\
                  py_getitem bad (u "id") = Raise e) ->
  store_entry bad st = mk_outcome (Raise e) st [].
Proof.
  intros [H|(number & Hn & Hi)]; unfold store_entry.
  - now rewrite bind_lift, H.
  - rewrite bind_lift, Hn. rewrite bind_lift. cbn [py_iter].
    rewrite bind_lift, join_digits_string. now rewrite bind_lift, Hi.
Qed.

(** X6: an entry without display number or without identity stops the
    load with its exception, but the entries before it stay stored: the
    cache is left partly filled, and being no longer empty it is never
    loaded again, so later lookups are answered from it without any
    request. *)
Theorem directory_load_keeps_entries_before_a_failure :
  forall (net : network) (self : CheckoutBase) (st : directory) (body : json)
         (good rest : list json) (bad : json) (listing : list (pystr * json)) (e : exn),
    status_code (net (directory_request self)) = 200 ->
    json_loads (text (net (directory_request self))) = Ok body ->
    py_getitem body (u "data") = Ok (JList (good ++ bad :: rest)) ->
    Forall2 listed good listing ->
    py_getitem bad (u "display_phone_number") = Raise e \/
    (exists number, py_getitem bad (u "display_phone_number") = Ok (JStr number) /\
                    py_getitem bad (u "id") = Raise e) ->
    _load_phone_numbers net self st
    = mk_outcome (Raise e) (stored listing st) [Request (directory_request self)] /\
    (listing <> [] ->
     forall phone_number,
       _get_sender_phone_number_id net self phone_number (stored listing st)
       = mk_outcome
           (match dict_get phone_number (stored listing st) with
            | Some id => Ok id
            | None => Raise KeyError
            end)
           (stored listing st) []).
Proof.
  intros net self st body good rest bad listing e Hs Hb Hd Hl Hbad. split.
  - rewrite (_load_phone_numbers_entries net self st body (good ++ bad :: rest) Hs Hb Hd)
      by (destruct good; discriminate).
    rewrite for_each_app, bind_run, (for_each_store_listed good listing Hl).
    cbn [res final trace app for_each].
    rewrite bind_run, (store_entry_rejected bad e _ Hbad). reflexivity.
  - intros Hne phone_number. rewrite _get_sender_phone_number_id_run. cbv zeta.
    destruct (stored listing st) as [|entry cache] eqn:E.
    + exfalso. revert E. apply stored_nonempty. now left.
    + reflexivity.
Qed.

Lemma directory_load_keeps_entries_before_a_failure_witness :
  _load_phone_numbers DirectoryExample.net_partial Example.base []
  = mk_outcome (Raise KeyError) (stored DirectoryExample.listing [])
      [Request (directory_request Example.base)] /\
  _get_sender_phone_number_id DirectoryExample.net_partial Example.base (u "42")
    (stored DirectoryExample.listing [])
  = mk_outcome (Raise KeyError) (stored DirectoryExample.listing []) [].
Proof.
  destruct (directory_load_keeps_entries_before_a_failure DirectoryExample.net_partial
              Example.base []
              (JDict [(u "data",
                       JList [DirectoryExample.entry; JDict [(u "id", JStr (u "42"))]])])
              [DirectoryExample.entry] [] (JDict [(u "id", JStr (u "42"))])
              DirectoryExample.listing KeyError)
    as (Hload & Hlookup).
  - reflexivity.
  - vm_compute. reflexivity.
  - reflexivity.
  - repeat constructor.
  - left. reflexivity.
  - split; [exact Hload|]. apply (Hlookup ltac:(discriminate) (u "42")).
Defined.

(** *** Keys of the cache *)

Lemma keeps_ret (I : directory -> Prop) {A : Type} (a : A) : keeps I (ret a).
Proof. intros st H. exact H. Qed.

Lemma keeps_raise (I : directory -> Prop) {A : Type} (e : exn) : keeps I (@raise A e).
Proof. intros st H. exact H. Qed.

Lemma keeps_lift (I : directory -> Prop) {A : Type} (r : result A) : keeps I (lift r).
Proof. intros st H. exact H. Qed.

Lemma keeps_get_directory (I : directory -> Prop) : keeps I get_directory.
Proof. intros st H. exact H. Qed.

Lemma keeps_requests_get (I : directory -> Prop) (net : network) (url : endpoint)
    (headers : list (pystr * pystr)) : keeps I (requests_get net url headers).
Proof. intros st H. exact H. Qed.

Lemma keeps_bind (I : directory -> Prop) {A B : Type} (m : M A) (k : A -> M B) :
  keeps I m -> (forall a, keeps I (k a)) -> keeps I (bind m k).
Proof.
  intros Hm Hk st H. rewrite final_bind.
  destruct (res (m st)); [apply Hk|]; now apply Hm.
Qed.

Lemma keeps_for_each (I : directory -> Prop) {A : Type} (l : list A) (body : A -> M unit) :
  (forall x, keeps I (body x)) -> keeps I (for_each l body).
Proof.
  intros Hb. induction l as [|x l IH]; cbn [for_each].
  - apply keeps_ret.
  - apply keeps_bind; [apply Hb | intros _; exact IH].
Qed.

Lemma startswith_in (needle hay : pystr) :
  startswith needle hay = true -> forall x, In x needle -> In x hay.
Proof.
  revert hay. induction needle as [|c needle IH]; intros hay H x Hx; [contradiction|].
  destruct hay as [|h hay]; [discriminate|]. cbn [startswith] in H.
  apply andb_true_iff in H as [Hc Hrest]. apply Z.eqb_eq in Hc. subst h.
  destruct Hx as [<-|Hx]; [now left | right; now apply (IH hay)].
Qed.

Lemma str_contains_in (hay needle : pystr) :
  str_contains hay needle = true -> forall x, In x needle -> In x hay.
Proof.
  induction hay as [|h hay IH]; cbn [str_contains]; intros H x Hx.
  - rewrite orb_false_r in H. now apply (startswith_in needle []).
  - apply orb_true_iff in H as [H|H].
    + now apply (startswith_in needle (h :: hay)).
    + right. now apply IH.
Qed.

Lemma join_digits_digits_only (cs : list json) (s : pystr) :
  join_digits cs = Ok s -> digits_only s = true.
Proof.
  revert s. induction cs as [|c cs IH]; intros s H.
  - inversion H. reflexivity.
  - destruct c; try discriminate. cbn [join_digits] in H.
    destruct (join_digits cs) as [rest|]; [|discriminate]. cbn [rbind] in H.
    specialize (IH rest eq_refl).
    destruct (str_contains (u "0123456789") s0) eqn:E; inversion H; subst; [|exact IH].
    unfold digits_only. rewrite forallb_app. apply andb_true_iff. split; [|exact IH].
    apply forallb_forall. intros x Hx.
    pose proof (str_contains_in _ _ E x Hx) as Hin. cbn in Hin.
    repeat (destruct Hin as [<-|Hin]; [reflexivity|]). contradiction.
Qed.

Lemma keeps_store_entry (d : json) : keeps digit_keys (store_entry d).
Proof.
  intros st H. unfold store_entry.
  rewrite bind_lift. destruct (py_getitem d (u "display_phone_number")); [|exact H].
  rewrite bind_lift. destruct (py_iter a); [|exact H].
  rewrite bind_lift. destruct (join_digits a0) as [phone|] eqn:E; [|exact H].
  rewrite bind_lift. destruct (py_getitem d (u "id")) as [id|]; [|exact H].
  cbn [set_entry final]. unfold digit_keys in *. apply Forall_forall. intros k Hk.
  apply dict_keys_set in Hk as [->|Hk].
  - now apply (join_digits_digits_only a0).
  - revert k Hk. now apply Forall_forall.
Qed.

Lemma keeps_load_phone_numbers (net : network) (self : CheckoutBase) :
  keeps digit_keys (_load_phone_numbers net self).
Proof.
  unfold _load_phone_numbers.
  apply keeps_bind; [apply keeps_requests_get|]. intros r.
  destruct (negb (status_code r =? 200)); [apply keeps_raise|].
  apply keeps_bind; [apply keeps_lift|]. intros body.
  apply keeps_bind; [apply keeps_lift|]. intros data.
  apply keeps_bind; [apply keeps_lift|]. intros n.
  destruct (n =? 0); [apply keeps_raise|].
  apply keeps_bind; [apply keeps_lift|]. intros ds.
  apply keeps_for_each. exact keeps_store_entry.
Qed.

(** X7: the numbers stored in the cache are made of digits only, whatever
    the directory answers, while the sender number is looked up as it is
    given: from a cache with such keys (the empty cache of a fresh
    process in particular) a sender number with any other character is
    never resolved, and [send_order_details_msg] for it fails and posts
    nothing. *)
Theorem directory_keys_are_digits :
  forall (net : network) (self : CheckoutBase) (phone_number : pystr) (st : directory),
    digit_keys st ->
    digit_keys (final (_get_sender_phone_number_id net self phone_number st)) /\
    (forall id,
        res (_get_sender_phone_number_id net self phone_number st) = Ok id ->
        digits_only phone_number = true) /\
    (forall a : order_details,
        sender_phone_number a = phone_number ->
        digits_only phone_number = false ->
        (exists e, res (send_order_details_msg net self a st) = Raise e) /\
        forall url data headers,
          ~ In (Request (POST url data headers))
               (trace (send_order_details_msg net self a st))).
Proof.
  intros net self phone_number st Hst.
  assert (Hfinal : digit_keys (final (_get_sender_phone_number_id net self phone_number st))).
  { rewrite _get_sender_phone_number_id_run. cbv zeta.
    assert (Ho : digit_keys (final (match st with
                                    | [] => _load_phone_numbers net self st
                                    | _ :: _ => ret tt st
                                    end))).
    { destruct st; [now apply keeps_load_phone_numbers | exact Hst]. }
    now destruct (res _). }
  assert (Hres : forall id,
             res (_get_sender_phone_number_id net self phone_number st) = Ok id ->
             digits_only phone_number = true).
  { intros id Hid. revert Hfinal. rewrite _get_sender_phone_number_id_run in *.
    cbv zeta in *.
    destruct (res (match st with
                   | [] => _load_phone_numbers net self st
                   | _ :: _ => ret tt st
                   end)); cbn [res final] in *; [|discriminate].
    destruct (dict_get phone_number _) as [v|] eqn:E; [|discriminate].
    intros Hkeys. apply dict_get_key in E.
    unfold digit_keys in Hkeys. now apply (proj1 (Forall_forall _ _) Hkeys). }
  split; [exact Hfinal|]. split; [exact Hres|].
  intros a Ha Hbad. rewrite send_order_details_msg_run. cbv zeta. rewrite Ha.
  destruct (res (_get_sender_phone_number_id net self phone_number st)) as [id|e] eqn:E.
  - specialize (Hres id eq_refl). congruence.
  - cbn [res trace]. split; [eauto|]. intros url data headers.
    apply _get_sender_phone_number_id_no_post.
Qed.

Lemma directory_keys_are_digits_witness :
  digits_only (u "+1 631-555-5555") = false /\
  (exists e,
      res (send_order_details_msg Example.net Example.base
             DirectoryExample.formatted_sender []) = Raise e) /\
  forall url data headers,
    ~ In (Request (POST url data headers))
         (trace (send_order_details_msg Example.net Example.base
                   DirectoryExample.formatted_sender [])).
Proof.
  destruct (directory_keys_are_digits Example.net Example.base (u "+1 631-555-5555") [])
    as (_ & _ & Hsend); [constructor|].
  split; [reflexivity|].
  exact (Hsend DirectoryExample.formatted_sender eq_refl eq_refl).
Defined.

Lemma _get_sender_phone_number_id_again (net : network) (self : CheckoutBase)
    (phone_number : pystr) (st : directory) (id : json) :
  res (_get_sender_phone_number_id net self phone_number st) = Ok id ->
  final (_get_sender_phone_number_id net self phone_number st) <> [] /\
  dict_get phone_number (final (_get_sender_phone_number_id net self phone_number st))
  = Some id.
Proof.
  rewrite _get_sender_phone_number_id_run. cbv zeta.
  destruct (res (match st with
                 | [] => _load_phone_numbers net self st
                 | _ :: _ => ret tt st
                 end)); cbn [res final]; [|discriminate].
  destruct (dict_get phone_number _) as [v|] eqn:E; [|discriminate].
  intros H. inversion H; subst. split; [|reflexivity].
  intros Hnil. rewrite Hnil in E. discriminate.
Qed.

Lemma _get_sender_phone_number_id_hit (net : network) (self : CheckoutBase)
    (phone_number : pystr) (st : directory) :
  st <> [] ->
  _get_sender_phone_number_id net self phone_number st
  = mk_outcome
      (match dict_get phone_number st with
       | Some id => Ok id
       | None => Raise KeyError
       end) st [].
Proof.
  intros Hne. destruct st as [|entry st]; [contradiction|].
  now rewrite _get_sender_phone_number_id_run.
Qed.

(** X8: once a sender lookup has returned an identity, the cache holds
    it, and every later lookup, of this number or another, is answered
    from the cache: no request, the cache unchanged, [KeyError] for a
    number that is not in it. *)
Theorem sender_lookup_is_answered_from_the_cache_afterwards :
  forall (net : network) (self : CheckoutBase) (phone_number : pystr) (st : directory)
         (id : json),
    res (_get_sender_phone_number_id net self phone_number st) = Ok id ->
    dict_get phone_number (final (_get_sender_phone_number_id net self phone_number st))
    = Some id /\
    forall other : pystr,
      _get_sender_phone_number_id net self other
        (final (_get_sender_phone_number_id net self phone_number st))
      = mk_outcome
          (match dict_get other
                   (final (_get_sender_phone_number_id net self phone_number st)) with
           | Some id' => Ok id'
           | None => Raise KeyError
           end)
          (final (_get_sender_phone_number_id net self phone_number st)) [].
Proof.
  intros net self phone_number st id Hid.
  destruct (_get_sender_phone_number_id_again net self phone_number st id Hid)
    as [Hne Hget].
  split; [exact Hget|]. intros other.
  now apply _get_sender_phone_number_id_hit.
Qed.

Lemma sender_lookup_is_answered_from_the_cache_afterwards_witness :
  res (_get_sender_phone_number_id Example.net Example.base Example.sender [])
  = Ok (JStr (u "106540352242922")) /\
  _get_sender_phone_number_id Example.net Example.base (u "999")
    (final (_get_sender_phone_number_id Example.net Example.base Example.sender []))
  = mk_outcome (Raise KeyError)
      (final (_get_sender_phone_number_id Example.net Example.base Example.sender [])) [].
Proof.
  assert (H : res (_get_sender_phone_number_id Example.net Example.base Example.sender [])
              = Ok (JStr (u "106540352242922"))) by (vm_compute; reflexivity).
  split; [exact H|].
  rewrite (proj2 (sender_lookup_is_answered_from_the_cache_afterwards Example.net
                    Example.base Example.sender [] _ H) (u "999")).
  vm_compute. reflexivity.
Defined.

(** ** The senders and the payment-status query *)

Lemma pbind_run {A B : Type} (m : P A) (k : A -> P B) (st : directory) :
  pbind m k st =
  match returned (m st) with
  | Ok a =>
      mk_run (returned (k a (directory_after (m st))))
             (directory_after (k a (directory_after (m st))))
             (events (m st) ++ events (k a (directory_after (m st))))
  | Raise e => mk_run (Raise e) (directory_after (m st)) (events (m st))
  end.
Proof. reflexivity. Qed.

Lemma requests_of_app (t1 t2 : list effect) :
  requests_of (t1 ++ t2) = requests_of t1 ++ requests_of t2.
Proof. apply flat_map_app. Qed.

Lemma posts_of_app (t1 t2 : list effect) :
  posts_of (t1 ++ t2) = posts_of t1 ++ posts_of t2.
Proof. unfold posts_of. now rewrite requests_of_app, filter_app. Qed.

Lemma effects_of_app (e1 e2 : list event) :
  effects_of (e1 ++ e2) = effects_of e1 ++ effects_of e2.
Proof. apply flat_map_app. Qed.

Lemma effects_of_map (t : list effect) : effects_of (map Effect t) = t.
Proof.
  induction t as [|e t IH]; [reflexivity|].
  unfold effects_of in *. cbn [map flat_map app]. now rewrite IH.
Qed.

Lemma _get_sender_phone_number_id_posts (net : network) (self : CheckoutBase)
    (phone_number : pystr) (st : directory) :
  posts_of (trace (_get_sender_phone_number_id net self phone_number st)) = [].
Proof. rewrite _get_sender_phone_number_id_trace. now destruct st. Qed.

Lemma get_payment_status_run (net : network) (self : CheckoutBase)
    (business_phone_number : pystr) (reference : json) (st : directory) :
  get_payment_status net self business_phone_number reference st =
  let lookup := _get_sender_phone_number_id net self business_phone_number st in
  match res lookup with
  | Raise e => mk_outcome (Raise e) (final lookup) (trace lookup)
  | Ok id =>
      let query :=
        GET (Payments id (get_payment_configuration self) reference) (_get_headers self) in
      mk_outcome
        (match response_json (net query) with
         | Ok _ => Ok tt
         | Raise e => Raise e
         end)
        (final lookup)
        (trace lookup
         ++ Request query
         :: match response_json (net query) with
            | Ok body => [Print (PaymentStatusResponse body)]
            | Raise _ => []
            end)
  end.
Proof.
  cbv zeta. unfold get_payment_status. rewrite bind_run.
  destruct (res (_get_sender_phone_number_id net self business_phone_number st));
    [|reflexivity].
  rewrite !bind_run. cbn [requests_get lift print res final trace app].
  destruct (response_json _); cbn [res final trace app]; reflexivity.
Qed.

Lemma send_order_status_msg_run (net : network) (self : CheckoutBase)
    (sender recipient reference body status : pystr) (desc : option pystr)
    (st : directory) :
  send_order_status_msg net self sender recipient reference body status desc st =
  let lookup := _get_sender_phone_number_id net self sender st in
  match res lookup with
  | Raise e => mk_run (Raise e) (final lookup) (map Effect (trace lookup))
  | Ok id =>
      let interactive := order_status_interactive reference body status desc in
      let post :=
        POST (Messages id) (order_status_request recipient (JStr (json_dumps interactive)))
             (_get_headers self) in
      mk_run
        (match response_json (net post) with
         | Ok _ => Ok tt
         | Raise e => Raise e
         end)
        (final lookup)
        (map Effect (trace lookup)
         ++ PrintStatus (OrderStatusRequest (order_status_request recipient interactive))
         :: Effect (Request post)
         :: match response_json (net post) with
            | Ok body => [PrintStatus (OrderStatusResponse body)]
            | Raise _ => []
            end)
  end.
Proof.
  cbv zeta. unfold send_order_status_msg. rewrite pbind_run.
  cbn [of_M returned directory_after events].
  destruct (res (_get_sender_phone_number_id net self sender st)); [|reflexivity].
  rewrite !pbind_run.
  cbn [of_M print_status requests_post lift returned directory_after events
       res final trace app map].
  destruct (response_json _); cbn [returned directory_after events app]; reflexivity.
Qed.

(** X9: [send_order_details_msg] posts at most one message, and exactly
    one when it returns; when it raises after having posted, the
    exception is the [JSONDecodeError] of a reply that is not JSON: the
    message has gone out although the call failed. *)
Theorem order_details_are_posted_at_most_once :
  forall (net : network) (self : CheckoutBase) (a : order_details) (st : directory),
    (List.length (posts_of (trace (send_order_details_msg net self a st))) <= 1)%nat /\
    (res (send_order_details_msg net self a st) = Ok tt ->
     exists url data headers,
       posts_of (trace (send_order_details_msg net self a st)) = [POST url data headers]) /\
    (forall e,
        res (send_order_details_msg net self a st) = Raise e ->
        posts_of (trace (send_order_details_msg net self a st)) <> [] ->
        e = JSONDecodeError) /\
    (forall post,
        In post (posts_of (trace (send_order_details_msg net self a st))) ->
        response_json (net post) = Raise JSONDecodeError ->
        res (send_order_details_msg net self a st) = Raise JSONDecodeError).
Proof.
  intros net self a st. rewrite send_order_details_msg_run. cbv zeta.
  pose proof (_get_sender_phone_number_id_posts net self (sender_phone_number a) st) as Hno.
  destruct (res (_get_sender_phone_number_id net self (sender_phone_number a) st))
    as [id|e0]; cbn [res trace].
  - destruct (order_details_interactive self a) as [interactive|e0]; cbn [res trace].
    + rewrite posts_of_app, Hno. cbn [app].
      destruct (response_json _) as [body|e0] eqn:Hreply;
        cbn; repeat split; try lia; eauto; try discriminate.
      * intros post [<-|[]] Hr. congruence.
      * intros e He _. unfold response_json, json_loads in Hreply.
        destruct (JSONDecoder.decode _); congruence.
      * intros post [<-|[]] Hr. congruence.
    + rewrite Hno. cbn. repeat split; try lia; try discriminate; try contradiction.
      all: intros e _ H; now contradiction H.
  - rewrite Hno. cbn. repeat split; try lia; try discriminate; try contradiction.
    all: intros e _ H; now contradiction H.
Qed.

Lemma order_details_are_posted_at_most_once_witness :
  In (Request (Example.post Example.taxed))
     (trace (send_order_details_msg DirectoryExample.net_plain_reply Example.base
               Example.taxed Example.loaded)) /\
  res (send_order_details_msg DirectoryExample.net_plain_reply Example.base Example.taxed
         Example.loaded) = Raise JSONDecodeError.
Proof.
  split; [find_in_trace|].
  apply (proj2 (proj2 (proj2 (order_details_are_posted_at_most_once
                                DirectoryExample.net_plain_reply Example.base Example.taxed
                                Example.loaded))) (Example.post Example.taxed)).
  - vm_compute. left. reflexivity.
  - vm_compute. reflexivity.
Defined.

(** X10: [send_order_status_msg] checks nothing about the status it is
    given: once the sender is resolved it posts exactly one message whose
    order block holds that status, with the description only when one is
    given and not empty, and it returns unless the reply is not JSON;
    with a sender that does not resolve it prints and posts nothing. *)
Theorem order_status_is_posted_without_validation :
  forall (net : network) (self : CheckoutBase)
         (sender recipient reference body status : pystr) (desc : option pystr)
         (st : directory),
    (forall e,
        res (_get_sender_phone_number_id net self sender st) = Raise e ->
        send_order_status_msg net self sender recipient reference body status desc st
        = mk_run (Raise e) (final (_get_sender_phone_number_id net self sender st))
            (map Effect (trace (_get_sender_phone_number_id net self sender st)))) /\
    (forall id,
        res (_get_sender_phone_number_id net self sender st) = Ok id ->
        posts_of (effects_of (events (send_order_status_msg net self sender recipient
                                        reference body status desc st)))
        = [POST (Messages id)
                (order_status_request recipient
                   (JStr (json_dumps (order_status_interactive reference body status desc))))
                (_get_headers self)] /\
        (returned (send_order_status_msg net self sender recipient reference body status
                     desc st) = Ok tt \/
         returned (send_order_status_msg net self sender recipient reference body status
                     desc st) = Raise JSONDecodeError)) /\
    get_path ["action"%string; "parameters"%string; "order"%string]
      (order_status_interactive reference body status desc)
    = Some (JDict ((u "status", JStr status)
                   :: match nonempty desc with
                      | Some d => [(u "description", JStr d)]
                      | None => []
                      end)).
Proof.
  intros net self sender recipient reference body status desc st.
  split; [|split; [|reflexivity]].
  - intros e He. rewrite send_order_status_msg_run. cbv zeta. now rewrite He.
  - intros id Hid. rewrite send_order_status_msg_run. cbv zeta. rewrite Hid.
    cbn [events returned]. rewrite effects_of_app, effects_of_map, posts_of_app.
    rewrite _get_sender_phone_number_id_posts. cbn [app].
    destruct (response_json _) as [reply|e] eqn:Hreply.
    + split; [reflexivity | now left].
    + split; [reflexivity|]. right.
      unfold response_json, json_loads in Hreply.
      destruct (JSONDecoder.decode _); congruence.
Qed.

Lemma order_status_is_posted_without_validation_witness :
  posts_of (effects_of (events (send_order_status_msg Example.net Example.base Example.sender
                                  (u "919999999999") (u "ref-0001") (u "Order Status Update")
                                  (u "no such status") (Some []) Example.loaded)))
  = [POST Example.post_url
          (order_status_request (u "919999999999")
             (JStr (json_dumps (order_status_interactive (u "ref-0001")
                                  (u "Order Status Update") (u "no such status") (Some [])))))
          (_get_headers Example.base)].
Proof.
  apply (proj1 (proj2 (order_status_is_posted_without_validation Example.net Example.base
                         Example.sender (u "919999999999") (u "ref-0001")
                         (u "Order Status Update") (u "no such status") (Some [])
                         Example.loaded))
           (JStr (u "106540352242922"))).
  reflexivity.
Defined.

(** ** example_util.py and main.py *)

Lemma example_items_from_ok (includes_sale_amount : bool) (count : nat) :
  forall i : Z,
  exists items,
    example_util.example_items_from i count includes_sale_amount = Ok items /\
    List.length items = count /\
    Forall item_constructed items /\
    (forall k item,
        nth_error items k = Some item ->
        Item.name item = u "Product " ++ str_of_int (i + Z.of_nat k + 1) /\
        Item.amount item = Amount.mk (1000 * (i + Z.of_nat k + 1)) 100 /\
        Item.quantity item = i + Z.of_nat k + 1 /\
        Item.sale_amount item =
          if includes_sale_amount
          then Some (Amount.mk (1000 * (i + Z.of_nat k + 1) - 200) 100)
          else None) /\
    6 * sum_effective items =
      1000 * ((i + Z.of_nat count) * (i + Z.of_nat count + 1) * (2 * (i + Z.of_nat count) + 1)
              - i * (i + 1) * (2 * i + 1))
      - (if includes_sale_amount
         then 600 * ((i + Z.of_nat count) * (i + Z.of_nat count + 1) - i * (i + 1))
         else 0).
Proof.
  induction count as [|count IH]; intros i.
  - exists []. cbn [example_util.example_items_from List.length sum_effective].
    split; [reflexivity|]. split; [reflexivity|]. split; [constructor|]. split.
    + intros [|k] it Hk; discriminate Hk.
    + rewrite Z.add_0_r. destruct includes_sale_amount; lia.
  - destruct (IH (i + 1)) as (rest & Hrest & Hlen & Hvalid & Hnth & Hsum).
    assert (Ha : Amount.__init__ (1000 * (i + 1)) VALUE_OFFSET
                 = Ok (Amount.mk (1000 * (i + 1)) 100)).
    { apply Amount_init_valid.
      replace (1000 * (i + 1)) with ((i + 1) * 10 * 100) by lia. apply Z.mod_mul. lia. }
    assert (Hs : Amount.__init__ (1000 * (i + 1) - 200) VALUE_OFFSET
                 = Ok (Amount.mk (1000 * (i + 1) - 200) 100)).
    { apply Amount_init_valid.
      replace (1000 * (i + 1) - 200) with ((10 * (i + 1) - 2) * 100) by lia.
      apply Z.mod_mul. lia. }
    exists (Item.mk (u "Product " ++ str_of_int (i + 1)) (Amount.mk (1000 * (i + 1)) 100)
                    (i + 1)
                    (if includes_sale_amount
                     then Some (Amount.mk (1000 * (i + 1) - 200) 100) else None)
                    None None None None None :: rest).
    split.
    { cbn [example_util.example_items_from].
      unfold example_util.get_example_sale_amount.
      rewrite Ha. cbn [rbind].
      destruct includes_sale_amount; [rewrite Hs|]; cbn [rbind]; rewrite Hrest;
        cbn [rbind]; reflexivity. }
    split; [cbn [List.length]; now rewrite Hlen|].
    split.
    { constructor; [|exact Hvalid].
      split; cbn [Item.amount Item.sale_amount].
      - exists (1000 * (i + 1)), VALUE_OFFSET. exact Ha.
      - destruct includes_sale_amount; [|exact I].
        exists (1000 * (i + 1) - 200), VALUE_OFFSET. exact Hs. }
    split.
    { intros [|k] it Hk; cbn [nth_error] in Hk.
      - inversion Hk; subst it.
        cbn [Item.name Item.amount Item.quantity Item.sale_amount Z.of_nat].
        rewrite Z.add_0_r. repeat split.
      - destruct (Hnth k it Hk) as (Hn & Hamt & Hq & Hsale).
        replace (i + Z.of_nat (S k) + 1) with (i + 1 + Z.of_nat k + 1) by lia.
        repeat split; assumption. }
    replace (i + Z.of_nat (S count)) with (i + 1 + Z.of_nat count) by lia.
    cbn [sum_effective].
    change (sum_effective (?x :: ?l)) with (sum_effective [x] + sum_effective l) || idtac.
    destruct includes_sale_amount;
      cbn [sum_effective effective_amount Item.sale_amount Item.amount Item.quantity
           Amount.value] in *; lia.
Qed.

(** X11: [get_example_items] never raises: every amount and every sale
    amount it builds passes the validation of [Amount]; it returns
    [number] items (none for a number below 1), the k-th named "Product
    k" with amount 1000 k, quantity k and, when asked for, the sale amount
    1000 k - 200; their subtotal is the closed sum given. *)
Theorem example_items_are_valid :
  forall (number : Z) (includes_sale_amount : bool),
  exists items,
    example_util.get_example_items number includes_sale_amount = Ok items /\
    List.length items = Z.to_nat number /\
    Forall item_constructed items /\
    (forall k item,
        nth_error items k = Some item ->
        Item.name item = u "Product " ++ str_of_int (Z.of_nat k + 1) /\
        Item.amount item = Amount.mk (1000 * (Z.of_nat k + 1)) 100 /\
        Item.quantity item = Z.of_nat k + 1 /\
        Item.sale_amount item =
          if includes_sale_amount
          then Some (Amount.mk (1000 * (Z.of_nat k + 1) - 200) 100)
          else None) /\
    6 * sum_effective items =
      1000 * (Z.max 0 number * (Z.max 0 number + 1) * (2 * Z.max 0 number + 1))
      - (if includes_sale_amount then 600 * (Z.max 0 number * (Z.max 0 number + 1)) else 0).
Proof.
  intros number includes_sale_amount. unfold example_util.get_example_items.
  destruct (example_items_from_ok includes_sale_amount (Z.to_nat number) 0)
    as (items & Hok & Hlen & Hvalid & Hnth & Hsum).
  exists items. repeat split; try assumption.
  - now apply Hnth.
  - now apply Hnth.
  - now apply Hnth.
  - now apply Hnth.
  - rewrite Hsum.
    replace (Z.of_nat (Z.to_nat number)) with (Z.max 0 number) by lia.
    cbn [Z.add]. destruct includes_sale_amount; lia.
Qed.

(** X12: the header made by [get_header] is always accepted by
    [send_order_details_msg]: there is none when both texts are absent or
    empty, a text header when the text is given (also when a link is
    given too), an image header otherwise, and the header block of the
    payload never fails with "Invalid header type". *)
Theorem example_header_is_always_accepted :
  forall header_text header_image_link : option pystr,
    (example_util.get_header header_text header_image_link = None <->
     nonempty header_text = None /\ nonempty header_image_link = None) /\
    (forall t, nonempty header_text = Some t ->
               header_block (example_util.get_header header_text header_image_link)
               = Ok [(u "header", JDict [(u "type", JStr (u "text")); (u "text", JStr t)])]) /\
    (forall l, nonempty header_text = None -> nonempty header_image_link = Some l ->
               header_block (example_util.get_header header_text header_image_link)
               = Ok [(u "header",
                      JDict [(u "type", JStr (u "image"));
                             (u "image", JDict [(u "link", JStr l)])])]) /\
    exists block,
      header_block (example_util.get_header header_text header_image_link) = Ok block.
Proof.
  intros header_text header_image_link. unfold example_util.get_header.
  destruct (nonempty header_text) as [t|] eqn:Ht;
    destruct (nonempty header_image_link) as [l|] eqn:Hl;
    cbn [header_block Header.type Header.text Header.image_link];
    rewrite ?Ht, ?Hl; cbn;
    repeat split; intros; try discriminate; try congruence; eauto;
    try (destruct H; discriminate).
Qed.

Lemma get_header_block_ok (header_text header_image_link : option pystr) :
  exists block,
    header_block (example_util.get_header header_text header_image_link) = Ok block.
Proof.
  unfold example_util.get_header.
  destruct (nonempty header_text) as [t|] eqn:Ht;
    destruct (nonempty header_image_link) as [l|] eqn:Hl;
    cbn [header_block Header.type Header.text Header.image_link];
    rewrite ?Ht, ?Hl; cbn; eauto.
Qed.

Lemma constructed_items_offset (its : list Item.t) :
  Forall item_constructed its ->
  Forall (fun item => Amount.offset (Item.amount item) = 100 /\
                      Amount.offset (effective_amount item) = 100) its.
Proof.
  intros H. induction H as [|item its [Ha Hs] _ IH]; constructor; [|exact IH].
  split; [now apply constructed_valid|].
  unfold effective_amount. destruct (Item.sale_amount item) as [sale|].
  - now apply constructed_valid.
  - now apply constructed_valid.
Qed.

(** What [main] passes to [send_order_details_msg] when the three
    arguments declared with [nargs=1] are given. *)
Lemma example_order_ok (sender recipient reference : pystr) (args : Main.arguments)
    (g b : pystr) (n : Z) :
  Main.args_goods_type args = Some g ->
  Main.args_msg_body args = Some b ->
  Main.args_item_number args = Some n ->
  exists order its,
    Main.example_order sender recipient reference args = Ok order /\
    example_util.get_example_items n (Main.args_include_sale_amount args) = Ok its /\
    items order = its /\
    tax_amount order = Some (Amount.mk 100 100) /\
    shipping_amount order =
      (if Main.args_include_shipping_value args then Some (Amount.mk 100 100) else None) /\
    discount_amount order =
      (if Main.args_include_discount_value args then Some (Amount.mk 200 100) else None) /\
    msg_header order =
      example_util.get_header (Main.args_header_text args) (Main.args_header_image_link args).
Proof.
  intros Hg Hb Hn. unfold Main.example_order. rewrite Hg, Hb, Hn.
  cbn [Main.first_value rbind].
  destruct (example_items_from_ok (Main.args_include_sale_amount args) (Z.to_nat n) 0)
    as (its & Hits & _).
  change (example_util.example_items_from 0 (Z.to_nat n) (Main.args_include_sale_amount args))
    with (example_util.get_example_items n (Main.args_include_sale_amount args)) in Hits.
  rewrite Hits. cbn [rbind].
  change example_util.get_example_tax_amount with (Ok (Amount.mk 100 100)).
  change example_util.get_example_shipping_amount with (Ok (Amount.mk 100 100)).
  change example_util.get_example_discount_amount with (Ok (Amount.mk 200 100)).
  cbn [rbind]. unfold Main.optional_amount.
  destruct (Main.args_include_shipping_value args),
           (Main.args_include_discount_value args); cbn [rbind];
    eexists; exists its; (split; [reflexivity|]); (split; [reflexivity|]);
    cbn [items tax_amount shipping_amount discount_amount msg_header];
    repeat split.
Qed.

(** The exceptions and the fixed arguments of [example_order]. *)
Lemma example_order_inv (sender recipient reference : pystr) (args : Main.arguments)
    (order : order_details) :
  Main.example_order sender recipient reference args = Ok order ->
  sender_phone_number order = sender /\
  recipient_phone_number order = recipient /\
  reference_id order = reference.
Proof.
  unfold Main.example_order.
  destruct (Main.args_goods_type args); cbn [Main.first_value rbind]; [|discriminate].
  destruct (Main.args_msg_body args); cbn [Main.first_value rbind]; [|discriminate].
  destruct (Main.args_item_number args); cbn [Main.first_value rbind]; [|discriminate].
  destruct (example_util.get_example_items _ _); cbn [rbind]; [|discriminate].
  change example_util.get_example_tax_amount with (Ok (Amount.mk 100 100)).
  change example_util.get_example_shipping_amount with (Ok (Amount.mk 100 100)).
  change example_util.get_example_discount_amount with (Ok (Amount.mk 200 100)).
  cbn [rbind]. unfold Main.optional_amount.
  destruct (Main.args_include_shipping_value args),
           (Main.args_include_discount_value args); cbn [rbind];
    intros H; inversion H; subst; cbn; repeat split.
Qed.

Lemma main_run (net : network) (base : CheckoutBase) (sender recipient reference : pystr)
    (args : Main.arguments) (st : directory) :
  Main.main net base sender recipient reference args st =
  match Main.example_order sender recipient reference args with
  | Raise e => mk_run (Raise e) st []
  | Ok order =>
      let details := send_order_details_msg net base order st in
      match res details with
      | Raise e => mk_run (Raise e) (final details) (map Effect (trace details))
      | Ok _ =>
          let status :=
            send_order_status_msg net base sender recipient reference
              (u "Order Status Update") (u "processing") None (final details) in
          match returned status with
          | Raise e =>
              mk_run (Raise e) (directory_after status)
                     (map Effect (trace details) ++ events status)
          | Ok _ =>
              let payment :=
                get_payment_status net base sender (JStr reference)
                  (directory_after status) in
              mk_run (res payment) (final payment)
                     (map Effect (trace details) ++ events status
                      ++ map Effect (trace payment))
          end
      end
  end.
Proof.
  unfold Main.main.
  assert (Hof : forall (A : Type) (m : M A) (d : directory),
             of_M m d = mk_run (res (m d)) (final (m d)) (map Effect (trace (m d))))
    by reflexivity.
  rewrite pbind_run, Hof. unfold lift.
  cbn [res final trace returned directory_after events map].
  destruct (Main.example_order sender recipient reference args) as [order|e];
    [|reflexivity].
  rewrite pbind_run, Hof.
  cbn [res final trace returned directory_after events map app]. cbv zeta.
  destruct (res (send_order_details_msg net base order st)); [|reflexivity].
  rewrite pbind_run.
  destruct (returned (send_order_status_msg _ _ _ _ _ _ _ _ _)); [|reflexivity].
  rewrite Hof. reflexivity.
Qed.

(** X13: whatever options are chosen, the order that [main] builds for
    at least one item is accepted by [send_order_details_msg]: every
    amount is at scale 100, and the total it announces is the closed sum
    of the items plus the tax of 100, plus the shipping of 100 and minus
    the discount of 200 when they are asked for; it is positive. *)
Theorem example_order_is_accepted :
  forall (self : CheckoutBase) (sender recipient reference : pystr)
         (args : Main.arguments) (g b : pystr) (n : Z),
    Main.args_goods_type args = Some g ->
    Main.args_msg_body args = Some b ->
    Main.args_item_number args = Some n ->
    1 <= n ->
    exists order interactive,
      Main.example_order sender recipient reference args = Ok order /\
      order_details_interactive self order = Ok interactive /\
      emitted_total_amount interactive =
        Some (JStr (Amount.toJSON (Amount.mk (order_total order) 100))) /\
      6 * order_total order =
        1000 * (n * (n + 1) * (2 * n + 1))
        - (if Main.args_include_sale_amount args then 600 * (n * (n + 1)) else 0)
        + 600
        + (if Main.args_include_shipping_value args then 600 else 0)
        - (if Main.args_include_discount_value args then 1200 else 0) /\
      0 < order_total order.
Proof.
  intros self sender recipient reference args g b n Hg Hb Hn Hpos.
  destruct (example_order_ok sender recipient reference args g b n Hg Hb Hn)
    as (order & its & Horder & Hits & Hitems & Htax & Hship & Hdisc & Hheader).
  destruct (example_items_from_ok (Main.args_include_sale_amount args) (Z.to_nat n) 0)
    as (its' & Hits' & Hlen & Hvalid & _ & Hsum).
  change (example_util.example_items_from 0 (Z.to_nat n) (Main.args_include_sale_amount args))
    with (example_util.get_example_items n (Main.args_include_sale_amount args)) in Hits'.
  rewrite Hits in Hits'. inversion Hits'; subst its'. clear Hits'.
  replace (Z.of_nat (Z.to_nat n)) with n in Hsum by lia. cbn [Z.add] in Hsum.
  assert (Htotal : 6 * order_total order =
                   1000 * (n * (n + 1) * (2 * n + 1))
                   - (if Main.args_include_sale_amount args then 600 * (n * (n + 1)) else 0)
                   + 600
                   + (if Main.args_include_shipping_value args then 600 else 0)
                   - (if Main.args_include_discount_value args then 1200 else 0)).
  { unfold order_total. rewrite Hitems, Htax, Hship, Hdisc.
    destruct (Main.args_include_sale_amount args),
             (Main.args_include_shipping_value args),
             (Main.args_include_discount_value args);
      cbn [amount_value Amount.value]; lia. }
  assert (Hoffsets := constructed_items_offset its Hvalid).
  destruct its as [|first rest] eqn:Eits; [cbn in Hlen; lia|].
  assert (Hfirst : Amount.offset (Item.amount first) = 100).
  { inversion Hoffsets as [|x l [H1 _] _]; exact H1. }
  destruct (get_header_block_ok (Main.args_header_text args)
              (Main.args_header_image_link args)) as (block & Hblock).
  destruct (order_details_interactive_builds self order block first rest)
    as (interactive & Hbuilt).
  - now rewrite Hheader.
  - exact Hitems.
  - rewrite Hitems, Hfirst. eapply Forall_impl; [|exact Hoffsets]. now intros item [_ H].
  - exact Hfirst.
  - apply Z.mod_divide; [lia|]. apply order_total_divisible.
    + now rewrite Hitems.
    + rewrite Htax. exists 100, 100. reflexivity.
    + rewrite Hship. destruct (Main.args_include_shipping_value args); [|exact I].
      exists 100, 100. reflexivity.
    + rewrite Hdisc. destruct (Main.args_include_discount_value args); [|exact I].
      exists 200, 100. reflexivity.
  - exists order, interactive.
    split; [exact Horder|]. split; [exact Hbuilt|].
    destruct (order_details_interactive_ok self order interactive Hbuilt)
      as (first' & rest' & Hok). cbv zeta in Hok.
    destruct Hok as (Hitems' & _ & Hoff & _ & _ & Hemitted & _).
    split; [now rewrite Hemitted, Hoff|]. split; [exact Htotal|].
    assert (Hp : 2 <= n * (n + 1)) by nia.
    assert (Hq : 3 * (n * (n + 1)) <= n * (n + 1) * (2 * n + 1)) by nia.
    destruct (Main.args_include_sale_amount args),
             (Main.args_include_shipping_value args),
             (Main.args_include_discount_value args); lia.
Qed.

Lemma example_order_is_accepted_witness :
  exists order interactive,
    Main.example_order Example.sender MainExample.recipient MainExample.reference
      MainExample.args = Ok order /\
    order_details_interactive Example.base order = Ok interactive /\
    emitted_total_amount interactive =
      Some (JStr (Amount.toJSON (Amount.mk (order_total order) 100))) /\
    6 * order_total order =
      1000 * (2 * (2 + 1) * (2 * 2 + 1))
      - (if Main.args_include_sale_amount MainExample.args then 600 * (2 * (2 + 1)) else 0)
      + 600
      + (if Main.args_include_shipping_value MainExample.args then 600 else 0)
      - (if Main.args_include_discount_value MainExample.args then 1200 else 0) /\
    0 < order_total order.
Proof.
  apply (example_order_is_accepted Example.base Example.sender MainExample.recipient
           MainExample.reference MainExample.args (u "digital-goods") (u "Your order") 2);
    [reflexivity | reflexivity | reflexivity | lia].
Defined.

(** X14: a run of [main] that returns has sent exactly three requests
    after the directory listing, which it fetches once and only with an
    empty cache: the order details, the status "processing" and the
    payment query, all for the identity of the same sender and the same
    reference id. *)
Theorem main_sends_details_status_and_query :
  forall (net : network) (base : CheckoutBase) (sender recipient reference : pystr)
         (args : Main.arguments) (st : directory),
    returned (Main.main net base sender recipient reference args st) = Ok tt ->
    exists order interactive id,
      Main.example_order sender recipient reference args = Ok order /\
      order_details_interactive base order = Ok interactive /\
      dict_get sender (directory_after (Main.main net base sender recipient reference args st))
      = Some id /\
      requests_of (effects_of (events (Main.main net base sender recipient reference args st)))
      = match st with
        | [] => [directory_request base]
        | _ :: _ => []
        end
        ++ [POST (Messages id) (order_details_request order (JStr (json_dumps interactive)))
                 (_get_headers base);
            POST (Messages id)
                 (order_status_request recipient
                    (JStr (json_dumps (order_status_interactive reference
                                         (u "Order Status Update") (u "processing") None))))
                 (_get_headers base);
            GET (Payments id (get_payment_configuration base) (JStr reference))
                (_get_headers base)].
Proof.
  intros net base sender recipient reference args st. rewrite main_run.
  destruct (Main.example_order sender recipient reference args) as [order|e] eqn:Horder;
    [|discriminate].
  destruct (example_order_inv sender recipient reference args order Horder)
    as (Hsender & _ & _).
  cbv zeta. rewrite send_order_details_msg_run. cbv zeta. rewrite Hsender.
  destruct (res (_get_sender_phone_number_id net base sender st)) as [id|e] eqn:Hid;
    [|discriminate].
  destruct (_get_sender_phone_number_id_again net base sender st id Hid) as [Hne Hget].
  assert (Hhit := _get_sender_phone_number_id_hit net base sender _ Hne).
  rewrite Hget in Hhit.
  destruct (order_details_interactive base order) as [interactive|e] eqn:Hbuilt;
    [|discriminate].
  cbn [res final trace].
  destruct (response_json (net (POST (Messages id) (order_details_request order _) _)))
    as [reply|e]; [|discriminate].
  rewrite send_order_status_msg_run. cbv zeta. rewrite Hhit. cbn [res final trace map app].
  destruct (response_json (net (POST (Messages id) (order_status_request recipient _) _)))
    as [reply'|e]; [|discriminate].
  cbn [returned directory_after events].
  rewrite get_payment_status_run. cbv zeta. rewrite Hhit. cbn [res final trace map app].
  intros Hret. exists order, interactive, id.
  split; [reflexivity|]. split; [exact Hbuilt|]. split; [exact Hget|].
  cbn [events].
  rewrite effects_of_app, effects_of_map, requests_of_app, requests_of_app.
  rewrite _get_sender_phone_number_id_trace.
  destruct (response_json (net (GET _ _))); destruct st; reflexivity.
Qed.

Lemma main_sends_details_status_and_query_witness :
  exists order interactive id,
    Main.example_order Example.sender MainExample.recipient MainExample.reference
      MainExample.args = Ok order /\
    order_details_interactive Example.base order = Ok interactive /\
    dict_get Example.sender
      (directory_after (Main.main Example.net Example.base Example.sender
                          MainExample.recipient MainExample.reference MainExample.args []))
    = Some id /\
    requests_of (effects_of (events (Main.main Example.net Example.base Example.sender
                                       MainExample.recipient MainExample.reference
                                       MainExample.args [])))
    = [directory_request Example.base]
      ++ [POST (Messages id) (order_details_request order (JStr (json_dumps interactive)))
               (_get_headers Example.base);
          POST (Messages id)
               (order_status_request MainExample.recipient
                  (JStr (json_dumps (order_status_interactive MainExample.reference
                                       (u "Order Status Update") (u "processing") None))))
               (_get_headers Example.base);
          GET (Payments id (get_payment_configuration Example.base)
                 (JStr MainExample.reference))
              (_get_headers Example.base)].
Proof.
  apply (main_sends_details_status_and_query Example.net Example.base Example.sender
           MainExample.recipient MainExample.reference MainExample.args []).
  vm_compute. reflexivity.
Defined.

(** X15: [main] sends nothing it cannot complete.  Without one of the
    arguments declared with [nargs=1] it raises [TypeError] before any
    request; with an item number below 1 no message is posted and no
    status or payment is asked for: the only request can be the directory
    listing, and when the sender resolves the exception is the
    [IndexError] of the empty item list. *)
Theorem main_without_items_posts_nothing :
  forall (net : network) (base : CheckoutBase) (sender recipient reference : pystr)
         (args : Main.arguments) (st : directory),
    (Main.args_goods_type args = None \/ Main.args_msg_body args = None \/
     Main.args_item_number args = None ->
     Main.main net base sender recipient reference args st = mk_run (Raise TypeError) st []) /\
    (forall g b n,
        Main.args_goods_type args = Some g ->
        Main.args_msg_body args = Some b ->
        Main.args_item_number args = Some n ->
        n <= 0 ->
        events (Main.main net base sender recipient reference args st)
        = map Effect (trace (_get_sender_phone_number_id net base sender st)) /\
        (forall id,
            res (_get_sender_phone_number_id net base sender st) = Ok id ->
            returned (Main.main net base sender recipient reference args st)
            = Raise IndexError)).
Proof.
  intros net base sender recipient reference args st. split.
  - intros Hnone. rewrite main_run. unfold Main.example_order.
    destruct (Main.args_goods_type args) as [g|]; cbn [Main.first_value rbind];
      [|reflexivity].
    destruct (Main.args_msg_body args) as [b|]; cbn [Main.first_value rbind];
      [|reflexivity].
    destruct (Main.args_item_number args) as [n|]; cbn [Main.first_value rbind];
      [|reflexivity].
    destruct Hnone as [H|[H|H]]; discriminate H.
  - intros g b n Hg Hb Hn Hle.
    destruct (example_order_ok sender recipient reference args g b n Hg Hb Hn)
      as (order & its & Horder & Hits & Hitems & _ & _ & _ & Hheader).
    destruct (example_order_inv sender recipient reference args order Horder)
      as (Hsender & _ & _).
    assert (Hempty : items order = []).
    { destruct (example_items_from_ok (Main.args_include_sale_amount args) (Z.to_nat n) 0)
        as (its' & Hits' & Hlen & _).
      change (example_util.example_items_from 0 (Z.to_nat n)
                (Main.args_include_sale_amount args))
        with (example_util.get_example_items n (Main.args_include_sale_amount args)) in Hits'.
      rewrite Hits in Hits'. inversion Hits'; subst its'.
      rewrite Hitems. destruct its; [reflexivity|]. cbn [List.length] in Hlen. lia. }
    assert (Hbuilt : order_details_interactive base order = Raise IndexError).
    { unfold order_details_interactive. rewrite Hheader.
      destruct (get_header_block_ok (Main.args_header_text args)
                  (Main.args_header_image_link args)) as (block & ->).
      now rewrite Hempty. }
    rewrite main_run, Horder. cbv zeta.
    rewrite send_order_details_msg_run. cbv zeta. rewrite Hsender, Hbuilt.
    destruct (res (_get_sender_phone_number_id net base sender st)) as [id|e];
      cbn [res final trace events returned].
    + split; [reflexivity|]. reflexivity.
    + split; [reflexivity|]. intros id H. discriminate H.
Qed.

Lemma main_without_items_posts_nothing_witness :
  events (Main.main Example.net Example.base Example.sender MainExample.recipient
            MainExample.reference MainExample.no_items [])
  = [Effect (Request (directory_request Example.base))] /\
  returned (Main.main Example.net Example.base Example.sender MainExample.recipient
              MainExample.reference MainExample.no_items [])
  = Raise IndexError.
Proof.
  destruct (proj2 (main_without_items_posts_nothing Example.net Example.base Example.sender
                     MainExample.recipient MainExample.reference MainExample.no_items [])
              (u "digital-goods") (u "Your order") 0 eq_refl eq_refl eq_refl)
    as [Hevents Hraise]; [lia|].
  split.
  - rewrite Hevents. vm_compute. reflexivity.
  - apply (Hraise (JStr (u "106540352242922"))). vm_compute. reflexivity.
Defined.

(** ** Reading back what [Amount.toJSON] writes *)

Lemma u_string_of_uint (d : Decimal.uint) :
  u (NilEmpty.string_of_uint d) = uint_codes d.
Proof. induction d; cbn [NilEmpty.string_of_uint u uint_codes]; now rewrite ?IHd. Qed.

Lemma take_digits_codes (d : Decimal.uint) (c : Z) (r : pystr) :
  JSONDecoder.is_digit c = false ->
  JSONDecoder.take_digits (uint_codes d ++ c :: r) = (uint_codes d, c :: r).
Proof.
  intros Hc. induction d; cbn [uint_codes app JSONDecoder.take_digits];
    [now rewrite Hc | ..]; now rewrite IHd.
Qed.

Lemma int_of_digits_acc (d : Decimal.uint) :
  forall acc : positive,
    fold_left (fun a c => 10 * a + (c - 48)) (uint_codes d) (Zpos acc)
    = Zpos (Pos.of_uint_acc d acc).
Proof.
  induction d; intros acc; cbn [uint_codes fold_left Pos.of_uint_acc];
    [reflexivity | ..];
    match goal with
    | |- fold_left _ _ ?x = Zpos (Pos.of_uint_acc _ ?y) =>
        replace x with (Zpos y) by lia
    end; apply IHd.
Qed.

Lemma int_of_digits_codes (d : Decimal.uint) :
  JSONDecoder.int_of_digits (uint_codes d) = Z.of_N (Pos.of_uint d).
Proof.
  unfold JSONDecoder.int_of_digits.
  induction d; cbn [uint_codes fold_left Pos.of_uint]; [reflexivity | exact IHd | ..];
    match goal with
    | |- fold_left _ _ ?x = Z.of_N (Npos (Pos.of_uint_acc _ ?y)) =>
        change x with (Zpos y)
    end; apply int_of_digits_acc.
Qed.

Lemma unorm_head (d l : Decimal.uint) : Decimal.unorm d = Decimal.D0 l -> l = Decimal.Nil.
Proof.
  induction d; cbn [Decimal.unorm]; try discriminate; try assumption.
  intros H. now inversion H.
Qed.

(** The numeral of a positive number has no leading zero. *)
Lemma to_uint_head (p : positive) (l : Decimal.uint) : Pos.to_uint p <> Decimal.D0 l.
Proof.
  intros H.
  pose proof (DecimalPos.Unsigned.to_of (Pos.to_uint p)) as Hnorm.
  rewrite DecimalPos.Unsigned.of_to in Hnorm. cbn [N.to_uint] in Hnorm.
  rewrite H in Hnorm. symmetry in Hnorm. apply unorm_head in Hnorm. subst l.
  now apply (DecimalPos.Unsigned.to_uint_nonzero p).
Qed.

(** [str(n)]: a minus sign for a negative number, then its digits. *)
Lemma str_of_int_codes (n : Z) :
  str_of_int n =
  match n with
  | Z0 => [48]
  | Zpos p => uint_codes (Pos.to_uint p)
  | Zneg p => 45 :: uint_codes (Pos.to_uint p)
  end.
Proof.
  unfold str_of_int. destruct n as [|p|p]; [reflexivity | |].
  - cbn [Z.to_int NilZero.string_of_int]. unfold NilZero.string_of_uint.
    destruct (Pos.to_uint p) as [|l|l|l|l|l|l|l|l|l|l] eqn:E; [|now rewrite u_string_of_uint ..].
    now destruct (DecimalPos.Unsigned.to_uint_nonnil p).
  - cbn [Z.to_int NilZero.string_of_int]. unfold NilZero.string_of_uint.
    destruct (Pos.to_uint p) as [|l|l|l|l|l|l|l|l|l|l] eqn:E; [|cbn [u]; now rewrite u_string_of_uint ..].
    now destruct (DecimalPos.Unsigned.to_uint_nonnil p).
Qed.

Lemma scan_number_codes (negative : bool) (d : Decimal.uint) (c : Z) (r : pystr) :
  c = 44 \/ c = 125 ->
  (forall l, d <> Decimal.D0 l) ->
  d <> Decimal.Nil ->
  JSONDecoder.scan_number ((if negative then [45] else []) ++ uint_codes d ++ c :: r)
  = Some (JInt ((if negative then -1 else 1) * JSONDecoder.int_of_digits (uint_codes d)),
          c :: r).
Proof.
  intros Hc H0 Hnil.
  assert (Htake : JSONDecoder.take_digits (uint_codes d ++ c :: r) = (uint_codes d, c :: r)).
  { apply take_digits_codes. now destruct Hc; subst c. }
  destruct d as [|l|l|l|l|l|l|l|l|l|l];
    [contradiction | exfalso; now apply (H0 l) | ..];
    destruct negative; cbn [uint_codes app] in *; unfold JSONDecoder.scan_number;
    cbn [JSONDecoder.is_digit Z.leb Z.compare Pos.compare Pos.compare_cont andb];
    rewrite Htake; destruct Hc; subst c; reflexivity.
Qed.

Lemma scan_number_int (n c : Z) (r : pystr) :
  c = 44 \/ c = 125 ->
  JSONDecoder.scan_number (str_of_int n ++ c :: r) = Some (JInt n, c :: r).
Proof.
  intros Hc. rewrite str_of_int_codes. destruct n as [|p|p].
  - destruct Hc; subst c; reflexivity.
  - pose proof (scan_number_codes false (Pos.to_uint p) c r Hc (to_uint_head p)
                  (DecimalPos.Unsigned.to_uint_nonnil p)) as H.
    cbn [app] in H. rewrite H.
    rewrite int_of_digits_codes, DecimalPos.Unsigned.of_to. reflexivity.
  - pose proof (scan_number_codes true (Pos.to_uint p) c r Hc (to_uint_head p)
                  (DecimalPos.Unsigned.to_uint_nonnil p)) as H.
    cbn [app] in H. cbn [app]. rewrite H.
    rewrite int_of_digits_codes, DecimalPos.Unsigned.of_to. reflexivity.
Qed.

(** The first character of [str(n)]. *)
Lemma str_of_int_head (n : Z) :
  exists h t, str_of_int n = h :: t /\ In h [45; 48; 49; 50; 51; 52; 53; 54; 55; 56; 57].
Proof.
  rewrite str_of_int_codes. destruct n as [|p|p].
  - exists 48, []. split; [reflexivity|]. cbn. tauto.
  - pose proof (DecimalPos.Unsigned.to_uint_nonnil p) as Hnil.
    destruct (Pos.to_uint p) as [|l|l|l|l|l|l|l|l|l|l]; [contradiction | ..];
      cbn [uint_codes]; eexists; eexists; (split; [reflexivity|]); cbn; tauto.
  - eexists; eexists. split; [reflexivity|]. cbn. tauto.
Qed.

Lemma scan_once_int (fuel : nat) (n c : Z) (r : pystr) :
  c = 44 \/ c = 125 ->
  JSONDecoder.skip_ws (str_of_int n ++ c :: r) = str_of_int n ++ c :: r /\
  JSONDecoder.scan_once (S fuel) (str_of_int n ++ c :: r) = Some (JInt n, c :: r).
Proof.
  intros Hc. pose proof (scan_number_int n c r Hc) as Hnum.
  destruct (str_of_int_head n) as (h & t & Hs & Hh). rewrite Hs in *.
  cbn [app] in *. cbn [In] in Hh.
  repeat (destruct Hh as [Hh|Hh]; [subst h; split; [reflexivity|];
                                   cbn [JSONDecoder.scan_once];
                                   unfold JSONDecoder.scan_atom; rewrite Hnum; reflexivity|]).
  contradiction.
Qed.

Lemma Amount_toJSON_text (a : Amount.t) :
  Amount.toJSON a =
  123 :: 34 :: u "value" ++ 34 :: 58 :: 32 :: str_of_int (Amount.value a)
  ++ 44 :: 32 :: 34 :: u "offset" ++ 34 :: 58 :: 32 :: str_of_int (Amount.offset a) ++ [125].
Proof.
  unfold Amount.toJSON.
  cbn [json_dumps map join fst snd encode_basestring_ascii flat_map u app].
  repeat (rewrite <- app_assoc; cbn [app]).
  reflexivity.
Qed.

Lemma scanstring_value (rest : pystr) :
  JSONDecoder.scanstring (S (List.length (u "value" ++ 34 :: rest))) (u "value" ++ 34 :: rest) []
  = Some (u "value", rest).
Proof. reflexivity. Qed.

Lemma scanstring_offset (rest : pystr) :
  JSONDecoder.scanstring (S (List.length (u "offset" ++ 34 :: rest))) (u "offset" ++ 34 :: rest) []
  = Some (u "offset", rest).
Proof. reflexivity. Qed.

Lemma scan_members_entry (fuel : nat) (key : pystr) (n c : Z) (r rest : pystr)
    (acc : list (pystr * json)) :
  c = 44 \/ c = 125 ->
  JSONDecoder.scanstring (S (List.length r)) r [] = Some (key, 58 :: 32 :: str_of_int n ++ c :: rest) ->
  JSONDecoder.scan_members (S (S fuel)) (34 :: r) acc =
  if c =? 125 then Some (JDict (dict_set key (JInt n) acc), rest)
  else JSONDecoder.scan_members (S fuel) (JSONDecoder.skip_ws rest) (dict_set key (JInt n) acc).
Proof.
  intros Hc Hkey. destruct (scan_once_int fuel n c rest Hc) as [Hws Hn].
  cbn [JSONDecoder.scan_members]. rewrite Hkey.
  cbn [JSONDecoder.skip_ws JSONDecoder.is_ws Z.eqb Pos.eqb orb].
  rewrite Hws, Hn. destruct Hc; subst c; reflexivity.
Qed.

Lemma scan_once_Amount (fuel : nat) (a : Amount.t) :
  JSONDecoder.scan_once (S (S (S (S fuel)))) (Amount.toJSON a)
  = Some (JDict [(u "value", JInt (Amount.value a)); (u "offset", JInt (Amount.offset a))],
          []).
Proof.
  rewrite Amount_toJSON_text.
  cbn [JSONDecoder.scan_once JSONDecoder.skip_ws JSONDecoder.is_ws Z.eqb Pos.eqb orb].
  rewrite (scan_members_entry (S fuel) (u "value") (Amount.value a) 44 _ _ []
             (or_introl eq_refl) (scanstring_value _)).
  cbn [Z.eqb Pos.eqb JSONDecoder.skip_ws JSONDecoder.is_ws orb].
  rewrite (scan_members_entry fuel (u "offset") (Amount.offset a) 125 _ [] _
             (or_intror eq_refl) (scanstring_offset _)).
  reflexivity.
Qed.

Lemma json_loads_Amount_toJSON (a : Amount.t) :
  json_loads (Amount.toJSON a)
  = Ok (JDict [(u "value", JInt (Amount.value a)); (u "offset", JInt (Amount.offset a))]).
Proof.
  unfold json_loads, JSONDecoder.decode.
  assert (Hws : JSONDecoder.skip_ws (Amount.toJSON a) = Amount.toJSON a)
    by now rewrite Amount_toJSON_text.
  assert (Hfuel : exists fuel,
             (2 * List.length (Amount.toJSON a) + 2)%nat = S (S (S (S fuel)))).
  { rewrite Amount_toJSON_text. cbn [List.length].
    eexists. rewrite Nat.mul_succ_r. rewrite <- !plus_n_Sm. cbn [Nat.add]. reflexivity. }
  destruct Hfuel as [fuel ->]. rewrite Hws, scan_once_Amount. reflexivity.
Qed.

(** X16: the text made by [Amount.toJSON] is read back by [json.loads]
    as the object with the value and the offset of the amount, for every
    pair of integers; so the [total_amount] of a payload that
    [send_order_details_msg] builds is a text that reads back as the
    total of the order at the offset 100, and the [amount] of each of its
    items as the amount of that item. *)
Theorem Amount_toJSON_reads_back :
  forall a : Amount.t,
    json_loads (Amount.toJSON a)
    = Ok (JDict [(u "value", JInt (Amount.value a)); (u "offset", JInt (Amount.offset a))]) /\
    (forall (self : CheckoutBase) (order : order_details) (interactive : json),
        order_details_interactive self order = Ok interactive ->
        (exists text,
            emitted_total_amount interactive = Some (JStr text) /\
            json_loads text
            = Ok (JDict [(u "value", JInt (order_total order)); (u "offset", JInt 100)])) /\
        (exists dicts,
            emitted_order_block "items" interactive = Some (JList dicts) /\
            Forall2 (fun item d =>
                       exists text,
                         py_getitem d (u "amount") = Ok (JStr text) /\
                         json_loads text
                         = Ok (JDict [(u "value", JInt (Amount.value (Item.amount item)));
                                      (u "offset", JInt (Amount.offset (Item.amount item)))]))
                    (items order) dicts)).
Proof.
  intros a. split; [apply json_loads_Amount_toJSON|].
  intros self order interactive Hbuilt.
  destruct (order_details_interactive_ok self order interactive Hbuilt)
    as (first & rest & Hok). cbv zeta in Hok.
  destruct Hok as (_ & _ & Hoff & _ & _ & Hemitted & Hitems & _).
  split.
  - eexists. split; [exact Hemitted|].
    rewrite json_loads_Amount_toJSON, Hoff. reflexivity.
  - eexists. split; [exact Hitems|]. clear.
    induction (items order) as [|item its IH]; cbn [map]; constructor; [|exact IH].
    eexists. split; [reflexivity|]. apply json_loads_Amount_toJSON.
Qed.

Lemma Amount_toJSON_reads_back_witness :
  json_loads (Amount.toJSON (Amount.mk (-1200) 100))
  = Ok (JDict [(u "value", JInt (-1200)); (u "offset", JInt 100)]) /\
  exists text,
    emitted_total_amount (Example.built Example.taxed) = Some (JStr text) /\
    json_loads text
    = Ok (JDict [(u "value", JInt (order_total Example.taxed)); (u "offset", JInt 100)]).
Proof.
  destruct (Amount_toJSON_reads_back (Amount.mk (-1200) 100)) as [Hread Hbuilt].
  split; [exact Hread|].
  apply (Hbuilt Example.base Example.taxed (Example.built Example.taxed)).
  vm_compute. reflexivity.
Defined.

(** ** The optional parts of the payload *)

Lemma header_block_ok (h : option Header.t) (header : list (pystr * json)) :
  header_block h = Ok header ->
  (h = None /\ header = []) \/
  (exists hd content,
      h = Some hd /\
      header = [(u "header", JDict [(u "type", JStr (Header.type hd)); content])] /\
      ((Header.type hd = u "text" /\
        exists t, nonempty (Header.text hd) = Some t /\ content = (u "text", JStr t)) \/
       (Header.type hd = u "image" /\
        exists l, nonempty (Header.image_link hd) = Some l /\
                  content = (u "image", JDict [(u "link", JStr l)])))).
Proof.
  unfold header_block. destruct h as [hd|]; [|intros H; inversion H; now left].
  intros H. right.
  destruct (str_eqb (Header.type hd) (u "text")) eqn:Et;
    destruct (nonempty (Header.text hd)) as [t|] eqn:Ht;
    try (inversion H; subst header; exists hd, (u "text", JStr t);
         split; [reflexivity|]; split; [reflexivity|]; left;
         split; [now apply str_eqb_eq | now exists t]).
  all: destruct (str_eqb (Header.type hd) (u "image")) eqn:Ei;
    destruct (nonempty (Header.image_link hd)) as [l|] eqn:Hl; try discriminate H.
  all: inversion H; subst header; exists hd, (u "image", JDict [(u "link", JStr l)]);
    split; [reflexivity|]; split; [reflexivity|]; right;
    split; [now apply str_eqb_eq | now exists l].
Qed.

Lemma dict_get_opt_entry (k : string) (o : option pystr) :
  dict_get (u k) (opt_entry k o) = option_map JStr (nonempty o).
Proof.
  unfold opt_entry. destruct (nonempty o); [|reflexivity].
  now rewrite dict_get_here by apply str_eqb_refl.
Qed.

Lemma dict_get_expiration (e d : option pystr) :
  dict_get (u "expiration") (expiration_block e d) =
  match nonempty e with
  | Some ts => Some (JDict ((u "timestamp", JStr ts) :: opt_entry "description" d))
  | None => None
  end.
Proof.
  unfold expiration_block. destruct (nonempty e); [|reflexivity].
  now rewrite dict_get_here by reflexivity.
Qed.

Ltac read_payload :=
  repeat first
    [ rewrite get_path_step
    | rewrite dict_get_opt_entry
    | rewrite dict_get_expiration
    | rewrite dict_get_here by reflexivity
    | rewrite dict_get_skip by reflexivity
    | rewrite dict_get_nil
    | rewrite dict_get_app
    | rewrite dict_get_opt_entry_other by reflexivity
    | rewrite dict_get_expiration_other by reflexivity
    | rewrite dict_get_amount_block_other by reflexivity
    | progress cbv beta iota ].

(** X17: in a payload that [send_order_details_msg] builds, the optional
    parts appear exactly when they are given and not empty: the catalog
    id, the footer, and the expiration, whose description is dropped
    without a timestamp; there is a header exactly when one is passed,
    and it is a text header with a text that is not empty or an image
    header with a link that is not empty; the order is always "pending". *)
Theorem optional_parts_appear_only_when_given :
  forall (self : CheckoutBase) (a : order_details) (interactive : json),
    order_details_interactive self a = Ok interactive ->
    emitted_order_block "status" interactive = Some (JStr (u "pending")) /\
    emitted_order_block "catalog_id" interactive = option_map JStr (nonempty (catalog_id a)) /\
    emitted_order_block "expiration" interactive =
      match nonempty (expiration_in_sec a) with
      | Some ts =>
          Some (JDict ((u "timestamp", JStr ts)
                       :: match nonempty (expiration_desc a) with
                          | Some d => [(u "description", JStr d)]
                          | None => []
                          end))
      | None => None
      end /\
    get_path ["footer"%string] interactive =
      option_map (fun f => JDict [(u "text", JStr f)]) (nonempty (msg_footer a)) /\
    (msg_header a = None -> get_path ["header"%string] interactive = None) /\
    (forall hd, msg_header a = Some hd ->
       (exists t, nonempty (Header.text hd) = Some t /\
                  get_path ["header"%string] interactive
                  = Some (JDict [(u "type", JStr (u "text")); (u "text", JStr t)])) \/
       (exists l, nonempty (Header.image_link hd) = Some l /\
                  get_path ["header"%string] interactive
                  = Some (JDict [(u "type", JStr (u "image"));
                                 (u "image", JDict [(u "link", JStr l)])]))).
Proof.
  intros self a interactive H. unfold order_details_interactive, rbind in H.
  destruct (header_block (msg_header a)) as [header|] eqn:Hh; [|discriminate].
  destruct (items a) as [|first rest] eqn:Hi; [discriminate|].
  destruct (items_loop _ _ _ _) as [[subtotal item_list]|] eqn:Hl; [|discriminate].
  destruct (Amount.__init__ _ _) as [total_amount|] eqn:Ha; [|discriminate].
  inversion H; subst interactive; clear H.
  unfold emitted_order_block.
  split; [reflexivity|]. split; [|split; [|split; [|split]]].
  - read_payload. now destruct (nonempty (catalog_id a)).
  - read_payload. destruct (nonempty (expiration_in_sec a)); [|reflexivity].
    reflexivity.
  - read_payload.
    destruct (header_block_ok _ _ Hh) as [[_ ->]|(hd & content & _ & -> & _)];
      read_payload; now destruct (nonempty (msg_footer a)).
  - intros Hnone. rewrite Hnone in Hh. inversion Hh; subst header.
    read_payload. now destruct (nonempty (msg_footer a)).
  - intros hd Hsome.
    destruct (header_block_ok _ _ Hh)
      as [[Hnone _]|(hd' & content & Hhd & -> & [[Ht (t & Hn & ->)]|[Ht (l & Hn & ->)]])];
      [congruence | |].
    + assert (hd' = hd) by congruence. subst hd'. left. exists t.
      split; [exact Hn|]. read_payload. now rewrite Ht.
    + assert (hd' = hd) by congruence. subst hd'. right. exists l.
      split; [exact Hn|]. read_payload. now rewrite Ht.
Qed.

Lemma optional_parts_appear_only_when_given_witness :
  emitted_order_block "catalog_id" (Example.built MainExample.decorated)
  = Some (JStr (u "catalog-7")) /\
  emitted_order_block "expiration" (Example.built MainExample.decorated) = None /\
  get_path ["footer"%string] (Example.built MainExample.decorated) = None.
Proof.
  destruct (optional_parts_appear_only_when_given Example.base MainExample.decorated
              (Example.built MainExample.decorated))
    as (_ & Hcatalog & Hexpiration & Hfooter & _).
  - vm_compute. reflexivity.
  - split; [exact Hcatalog|]. split; [exact Hexpiration | exact Hfooter].
Defined.
